(** * srddl: the field/offset engine, embedded and verified

    A shallow embedding of the Python sources of srddl
    ([srddl/core/offset.py], [srddl/data.py], [srddl/core/fields.py] and
    [srddl/fields/core.py]) together with the properties stated about them.

    Conventions of the embedding:
    - Python integers are [Z]; [//] and [%] by a positive constant are
      [Z.div] and [Z.modulo] (both floor), [>>], [<<], [&], [|], [^] and [~]
      are [Z.shiftr], [Z.shiftl], [Z.land], [Z.lor], [Z.lxor] and [Z.lnot].
    - A raised exception is [Raise e], a normal return is [Ok v]; code that
      mutates the structure instance threads it explicitly (monad [M]) and
      hands back the state reached when the exception was raised.
    - A buffer is the list of its bytes (each a [Z] in [0,256)) plus a flag
      telling whether the object supports item assignment. [struct] is
      CPython's on a 64-bit little-endian machine: an offset that does not
      fit a [Py_ssize_t] is refused before the bounds are looked at, and
      [pack_into] nulls the bytes it is about to write before it converts
      its argument.
    - A bound value is passed by value, together with the decoded value it
      keeps once it was read: a call that changes the bound value hands
      back the bound value as it leaves it.
    - No class of these sources is built by [_MetaAbstractField]: the
      methods of the field classes run as written, and the wrappers of that
      metaclass are given as functions of the method they wrap.
    - [functools.lru_cache], around [AbstractField.__get__] and around the
      wrapped [__get__], is not followed: both are given as the function
      the cache decorates, which is what a call computes when the cache
      holds no result for the field and the instance. *)

From Stdlib Require Import ZArith Lia Ascii DecimalString.
From Stdlib Require DecimalPos DecimalZ.
From stdpp Require Import base gmap strings list.

Local Open Scope Z_scope.
Set Warnings "-register-all".

(** ** srddl/core/offset.py *)

(** The two concrete subclasses of [_Offset]. *)
Inductive offset_class := Offset | Size.

(** An [_Offset] object: its class and its two attributes. *)
Record _Offset := mk_Offset {
  cls : offset_class;
  byte : Z;
  bit : Z
}.

(** What [_Offset.__init__] accepts as its [byte] argument: a plain integer,
    another [_Offset], or a [BoundValue] (given here by its decoded value,
    [byte['value']]). *)
Inductive byte_arg :=
| ByteInt (n : Z)
| ByteOffset (o : _Offset)
| ByteBoundValue (value : Z).

(** The right operand of [+] and [-]: [isinstance(other, _Offset)] or not. *)
Inductive operand :=
| OpInt (n : Z)
| OpOffset (o : _Offset).

Module offset.

(** [_Offset.__init__(self, byte=0, bit=0)], for an object of class [c]. *)
Definition __init__ (c : offset_class) (byte_ : byte_arg) (bit_ : Z) : _Offset :=
  let '(b, t) :=
    match byte_ with
    | ByteBoundValue v => (v, bit_)
    | ByteOffset o => (byte o, bit o)
    | ByteInt n => (n, bit_)
    end in
  mk_Offset c (b + t / 8) (t mod 8).

(** [self.__class__(byte=b, bit=t)] with integer arguments. *)
Definition new (c : offset_class) (b t : Z) : _Offset := __init__ c (ByteInt b) t.

(** [_Offset.__index__] *)
Definition __index__ (self : _Offset) : Z := byte self.

(** [_Offset.__eq__]: comparison of the pairs [(byte, bit)]. *)
Definition __eq__ (self : _Offset) (other : operand) : bool :=
  match other with
  | OpOffset o => (byte self =? byte o) && (bit self =? bit o)
  | OpInt n => (byte self =? n) && (bit self =? 0)
  end.

(** Python's [<] on pairs of integers (lexicographic). *)
Definition pair_lt (a b : Z * Z) : bool :=
  (fst a <? fst b) || ((fst a =? fst b) && (snd a <? snd b)).

(** [_Offset.__lt__] *)
Definition __lt__ (self : _Offset) (other : operand) : bool :=
  match other with
  | OpOffset o => pair_lt (byte self, bit self) (byte o, bit o)
  | OpInt n => pair_lt (byte self, bit self) (n, 0)
  end.

(** [_Offset.__add__] *)
Definition __add__ (self : _Offset) (other : operand) : _Offset :=
  match other with
  | OpOffset o =>
      let bit0 := bit self + bit o in
      let byte0 := byte self + byte o + Z.shiftr bit0 3 in
      let bit1 := Z.land bit0 7 in
      new (cls self) byte0 bit1
  | OpInt n => new (cls self) (byte self + n) (bit self)
  end.

(** [_Offset.__radd__]: [other + self] for a plain [other]. *)
Definition __radd__ (self : _Offset) (other : Z) : _Offset :=
  __add__ self (OpOffset (new (cls self) other 0)).

(** [_Offset.__sub__] *)
Definition __sub__ (self : _Offset) (other : operand) : _Offset :=
  match other with
  | OpOffset o =>
      let bit0 := bit self - bit o in
      let byte0 := byte self - byte o in
      if bit0 <? 0
      then new (cls self) (byte0 - 1) (8 + bit0)
      else new (cls self) byte0 bit0
  | OpInt n => new (cls self) (byte self - n) (bit self)
  end.

(** [_Offset.__rsub__]: [other - self] for a plain [other]. *)
Definition __rsub__ (self : _Offset) (other : Z) : _Offset :=
  new (cls self) (other - byte self) (bit self).

(** [_Offset.aligned] *)
Definition aligned (self : _Offset) : bool := bit self =? 0.

(** [Offset.rounded] and [Size.rounded], dispatched on the class. *)
Definition rounded (self : _Offset) : Z :=
  match cls self with
  | Offset => byte self
  | Size => byte self + (if bit self =? 0 then 0 else 1)
  end.

(** The number of bits an object stands for. *)
Definition bits (o : _Offset) : Z := 8 * byte o + bit o.

(** The invariant of a constructed object. *)
Definition normalized (o : _Offset) : Prop := 0 <= bit o < 8.

End offset.

(** [Offset(byte, bit)], [Size(byte=b)] and [Size(bit=t)] as the callers write them. *)
Definition Offset_ (b t : Z) : _Offset := offset.new Offset b t.
Definition Size_byte (b : Z) : _Offset := offset.new Size b 0.
Definition Size_bit (t : Z) : _Offset := offset.new Size 0 t.

(** ** Python values, exceptions and results *)

(** [srddl.core.fields.Value]: a documented constant of a field's [values]
    table (properties [value], [name], [description]). *)
Record Value := mk_Value {
  v_value : Z;
  v_name : option string;
  v_description : option string
}.

(** Exception classes. The first group is Python's own, [struct_error] is
    [struct.error], the second group is [srddl.exceptions] as the sources
    name its members. [ReadOnlyError] and [BitFieldSizeError] are the names
    used by the design documents; no statement of the sources builds them. *)
Inductive exn :=
| TypeError | KeyError | IndexError | AttributeError | ValueError | OverflowError
| struct_error
| Exception (msg : string)
| NoFieldDataError | FieldNotReadyError | NotABoundValueError
| FieldAlignmentError | AbstractStructError
| BifFieldSizeError (size : _Offset)
| ReadOnlyError | BitFieldSizeError.

(** The Python objects that flow through the field engine. *)
Inductive pyval :=
| VNone
| VInt (n : Z)
| VBytes (b : list Z)
| VStr (s : string)
| VValue (v : Value)
| VList (l : list pyval)
| VOffset (o : _Offset)
| VMethod                (* a bound method object, such as [offset.rounded] *)
| VExc (e : exn).        (* an exception instance handled as a value *)

(** The outcome of a call: a returned value or a raised exception. *)
Inductive result (A : Type) :=
| Ok (a : A)
| Raise (e : exn).
Arguments Ok {A} a.
Arguments Raise {A} e.

#[global] Instance result_ret : MRet result := @Ok.
#[global] Instance result_bind : MBind result :=
  fun A B f m => match m with Ok a => f a | Raise e => Raise e end.

(** Calls that mutate a state [S]: the state is handed back in both
    outcomes, as it was when the call returned or raised. *)
Definition M (S A : Type) : Type := S -> result A * S.

Definition ret_M {S A : Type} (a : A) : M S A := fun s => (Ok a, s).
Definition raise_M {S A : Type} (e : exn) : M S A := fun s => (Raise e, s).
Definition lift_M {S A : Type} (r : result A) : M S A := fun s => (r, s).
Definition bind_M {S A B : Type} (m : M S A) (k : A -> M S B) : M S B :=
  fun s =>
    match m s with
    | (Ok a, s') => k a s'
    | (Raise e, s') => (Raise e, s')
    end.

Notation "'let*' x ':=' m 'in' k" := (bind_M m (fun x => k))
  (at level 10, x pattern, k at level 200).

(** Calls that leave the state as they found it. *)
Definition stateless {S A : Type} (m : M S A) : Prop :=
  forall s, snd (m s) = s.

(** Calls that raise and leave the state alone whenever [P] holds of it. *)
Definition raises_when {S A : Type} (P : S -> Prop) (m : M S A) : Prop :=
  forall s, P s -> exists e, m s = (Raise e, s).

(** ** Python built-ins used by the sources *)

Definition NUL : ascii := Ascii.ascii_of_nat 0.

(** [str.upper] on ASCII text. *)
Definition ascii_upper (c : ascii) : ascii :=
  let n := Ascii.nat_of_ascii c in
  if ((97 <=? n) && (n <=? 122))%nat then Ascii.ascii_of_nat (n - 32) else c.

Fixpoint str_upper (s : string) : string :=
  match s with
  | EmptyString => EmptyString
  | String c r => String (ascii_upper c) (str_upper r)
  end.

(** [s[i]] on a [str], for a non-negative index. *)
Definition str_index (s : string) (i : nat) : result string :=
  match String.get i s with
  | Some c => Ok (String c EmptyString)
  | None => Raise IndexError
  end.

(** ['{}'.format(n)] for an integer. *)
Definition format_int (n : Z) : string :=
  DecimalString.NilZero.string_of_int (Z.to_int n).

(** [x << n]: a negative shift count is a [ValueError]. *)
Definition py_lshift (x n : Z) : result Z :=
  if n <? 0 then Raise ValueError else Ok (Z.shiftl x n).

(** [x >> n] *)
Definition py_rshift (x n : Z) : result Z :=
  if n <? 0 then Raise ValueError else Ok (Z.shiftr x n).

(** [value.ljust(width, fillchar)]: [str.ljust] wants a one-character [str]
    as fill, [bytes.ljust] a [bytes] of length one; other objects have no
    [ljust]. The argument is checked before any padding is done. *)
Definition py_ljust (value : pyval) (width : Z) (fillchar : pyval) : result pyval :=
  match value with
  | VStr s =>
      match fillchar with
      | VStr (String c EmptyString) =>
          Ok (VStr (s ++ String.string_of_list_ascii
                            (replicate (Z.to_nat width - String.length s) c)))
      | _ => Raise TypeError
      end
  | VBytes b =>
      match fillchar with
      | VBytes [c] => Ok (VBytes (b ++ replicate (Z.to_nat width - length b) c))
      | _ => Raise TypeError
      end
  | _ => Raise AttributeError
  end.

(** The end of the slice [seq[:n]] in a sequence of length [len]: a
    negative [n] counts from the end, and the bound is clipped. *)
Definition slice_stop (len : nat) (n : Z) : nat :=
  if n <? 0 then Z.to_nat (Z.of_nat len + n) else Nat.min (Z.to_nat n) len.

(** [value[:n]] *)
Definition py_slice_to (value : pyval) (n : Z) : result pyval :=
  match value with
  | VStr s => Ok (VStr (String.substring 0 (slice_stop (String.length s) n) s))
  | VBytes b => Ok (VBytes (take (slice_stop (length b) n) b))
  | VList l => Ok (VList (take (slice_stop (length l) n) l))
  | _ => Raise TypeError
  end.

(** [operator.index]: the integer an object stands for where an integer
    is asked for. Whether it fits a [Py_ssize_t] is tested where it is
    used as an offset ([resolve_offset] below). *)
Definition py_index (v : pyval) : result Z :=
  match v with
  | VInt n => Ok n
  | VOffset o => Ok (offset.__index__ o)
  | _ => Raise TypeError
  end.

(** ** Buffers and the [struct] module *)

(** A buffer object ([bytes], [bytearray], [mmap]): whether it supports item
    assignment, and its bytes. *)
Record Buffer := mk_Buffer {
  writable : bool;
  bytes : list Z
}.

(** [buf[i]] for a non-negative [i]. *)
Definition buf_getitem (b : Buffer) (i : nat) : result Z :=
  match bytes b !! i with
  | Some x => Ok x
  | None => Raise IndexError
  end.

(** [buf[i] = x] for a non-negative [i]. *)
Definition buf_setitem (b : Buffer) (i : nat) (x : Z) : result Buffer :=
  if writable b then
    if (i <? length (bytes b))%nat
    then Ok (mk_Buffer (writable b) (<[i := x]> (bytes b)))
    else Raise IndexError
  else Raise TypeError.

Inductive byte_order := LittleEndian | BigEndian | NativeOrder.

(** One item of a format: a fixed-width integer or [count] raw bytes. *)
Inductive fmt_code :=
| CodeInt (size : nat) (signed : bool)
| CodeBytes (count : nat).

Definition code_size (c : fmt_code) : nat :=
  match c with
  | CodeInt n _ => n
  | CodeBytes n => n
  end.

Definition int_code (c : ascii) : option fmt_code :=
  if Ascii.eqb c "b" then Some (CodeInt 1 true)
  else if Ascii.eqb c "B" then Some (CodeInt 1 false)
  else if Ascii.eqb c "h" then Some (CodeInt 2 true)
  else if Ascii.eqb c "H" then Some (CodeInt 2 false)
  else if Ascii.eqb c "i" then Some (CodeInt 4 true)
  else if Ascii.eqb c "I" then Some (CodeInt 4 false)
  else if Ascii.eqb c "q" then Some (CodeInt 8 true)
  else if Ascii.eqb c "Q" then Some (CodeInt 8 false)
  else None.

Definition digit (c : ascii) : option nat :=
  let n := Ascii.nat_of_ascii c in
  if ((48 <=? n) && (n <=? 57))%nat then Some (n - 48)%nat else None.

(** The repeat count and the ['s'] that closes a raw-bytes format. *)
Fixpoint parse_count (s : string) (acc : option nat) : result fmt_code :=
  match s with
  | EmptyString => Raise struct_error
  | String c r =>
      match digit c with
      | Some d => parse_count r (Some (10 * default 0 acc + d))%nat
      | None =>
          if Ascii.eqb c "s" then
            match r with
            | EmptyString => Ok (CodeBytes (default 1 acc)%nat)
            | _ => Raise struct_error
            end
          else Raise struct_error
      end
  end.

(** The formats srddl builds: a byte-order mark (['<'], ['>'] or ['!'])
    followed by one standard-size integer code, or an optional count
    followed by ['s'] in native mode. Any other text is rejected here. *)
Definition struct_parse (frmt : string) : result (byte_order * fmt_code) :=
  match frmt with
  | String o (String c EmptyString) =>
      let order :=
        if Ascii.eqb o "<" then Some LittleEndian
        else if Ascii.eqb o ">" then Some BigEndian
        else if Ascii.eqb o "!" then Some BigEndian
        else None in
      match order, int_code c with
      | Some ord, Some code => Ok (ord, code)
      | _, _ => c ← parse_count frmt None; Ok (NativeOrder, c)
      end
  | _ => c ← parse_count frmt None; Ok (NativeOrder, c)
  end.

(** The [n] low-order bytes of [v], least significant first. *)
Fixpoint le_bytes (n : nat) (v : Z) : list Z :=
  match n with
  | O => []
  | S k => v mod 256 :: le_bytes k (v / 256)
  end.

(** The unsigned integer whose bytes, least significant first, are [bs]. *)
Fixpoint le_int (bs : list Z) : Z :=
  match bs with
  | [] => 0
  | b :: r => b + 256 * le_int r
  end.

Definition in_order (o : byte_order) (bs : list Z) : list Z :=
  match o with
  | BigEndian => reverse bs
  | _ => bs
  end.

(** The values an [n]-byte integer code accepts. *)
Definition int_range (n : nat) (signed : bool) (v : Z) : bool :=
  if signed
  then (- 2 ^ (8 * Z.of_nat n - 1) <=? v) && (v <? 2 ^ (8 * Z.of_nat n - 1))
  else (0 <=? v) && (v <? 2 ^ (8 * Z.of_nat n)).

(** Packing one argument. An integer code takes an [int] (or an object with
    [__index__]) within range; ['s'] takes a [bytes], cut or null-padded to
    the count. *)
Definition pack_item (o : byte_order) (c : fmt_code) (arg : pyval) : result (list Z) :=
  match c with
  | CodeInt n sg =>
      match arg with
      | VInt _ | VOffset _ =>
          v ← py_index arg;
          if int_range n sg v then Ok (in_order o (le_bytes n v))
          else Raise struct_error
      | _ => Raise struct_error
      end
  | CodeBytes n =>
      match arg with
      | VBytes b => Ok (take n (b ++ replicate (n - length b)%nat 0))
      | _ => Raise struct_error
      end
  end.

Definition unpack_item (o : byte_order) (c : fmt_code) (bs : list Z) : pyval :=
  match c with
  | CodeInt n sg =>
      let x := le_int (in_order o bs) in
      VInt (if sg && (2 ^ (8 * Z.of_nat n - 1) <=? x)
            then x - 2 ^ (8 * Z.of_nat n) else x)
  | CodeBytes _ => VBytes bs
  end.

(** The [struct] module is CPython's, on a 64-bit little-endian machine:
    a [Py_ssize_t] has 64 bits. The length of a buffer fits a
    [Py_ssize_t]; the list of bytes that stands for a buffer is not asked
    to be that short, and the two tests below that involve [Py_ssize_t]
    are written so that they need no such bound: on a list shorter than
    [2^63] they are the tests of the C code, in its order
    ([too_long_format_first] and [resolve_offset_fits_first] below). *)
Definition fits_ssize_t (n : Z) : bool := (- 2 ^ 63 <=? n) && (n <? 2 ^ 63).

(** A format whose size does not fit a [Py_ssize_t] is refused when it is
    compiled, before the buffer and the offset are looked at
    ([struct.error], "total struct size too long"). No buffer holds a span
    of that size. *)
Definition too_long (len : nat) (c : fmt_code) : bool :=
  negb (fits_ssize_t (Z.of_nat (code_size c)))
  && (Z.of_nat len <? Z.of_nat (code_size c)).

(** The position an [offset] argument designates in a buffer of [len]
    bytes for an item of [size] bytes; a negative offset counts from the
    end. The C code first converts the offset to a [Py_ssize_t], which
    fails with [exc] ([OverflowError] in [unpack_from], [IndexError] in
    [pack_into]) when the integer does not fit, and then tests the bounds,
    which fails with [struct.error]; an offset that does not fit never
    passes the bounds test of a buffer. *)
Definition resolve_offset (exc : exn) (len size : nat) (off : Z) : result nat :=
  let pos := if off <? 0 then off + Z.of_nat len else off in
  if (pos <? 0) || (Z.of_nat len - pos <? Z.of_nat size)
  then Raise (if fits_ssize_t off then struct_error else exc)
  else Ok (Z.to_nat pos).

Definition write_at (pos : nat) (bs l : list Z) : list Z :=
  take pos l ++ bs ++ drop (pos + length bs) l.

Definition read_at (pos n : nat) (l : list Z) : list Z :=
  take n (drop pos l).

(** [struct.unpack_from(frmt, buffer, offset)]: the tuple of unpacked items. *)
Definition struct_unpack_from (frmt : string) (b : Buffer) (off : pyval)
  : result (list pyval) :=
  '(o, c) ← struct_parse frmt;
  if too_long (length (bytes b)) c then Raise struct_error
  else
    z ← py_index off;
    pos ← resolve_offset OverflowError (length (bytes b)) (code_size c) z;
    Ok [unpack_item o c (read_at pos (code_size c) (bytes b))].

(** What [pack_into] leaves in the target span when the argument is
    refused. The span was filled with null bytes beforehand. The
    conversions test their argument before they write, except those of
    the 8-byte codes in big-endian order, which write the low-order bytes
    of the integer while they find out that it does not fit (['Q'] refuses
    a negative integer before it writes). On a little-endian machine the
    little-endian codes run the native conversions, which test first. *)
Definition span_after_refusal (o : byte_order) (c : fmt_code) (arg : pyval) : list Z :=
  match o, c, py_index arg with
  | BigEndian, CodeInt 8 sg, Ok v =>
      if negb sg && (v <? 0) then replicate 8 0 else in_order o (le_bytes 8 v)
  | _, _, _ => replicate (code_size c) 0
  end.

(** [struct.pack_into(frmt, buffer, offset, *args)]: the outcome and the
    buffer as the call leaves it. Once the format, the number of
    arguments, the buffer and the offset are accepted, the C code fills
    the target span with null bytes and then converts the arguments: an
    argument that cannot be packed raises after the span was written. *)
Definition struct_pack_into (frmt : string) (b : Buffer) (off : pyval)
    (args : list pyval) : result unit * Buffer :=
  match struct_parse frmt with
  | Raise e => (Raise e, b)
  | Ok (o, c) =>
      if too_long (length (bytes b)) c then (Raise struct_error, b)
      else
        match args with
        | [arg] =>
            if writable b then
              match (z ← py_index off;
                     resolve_offset IndexError (length (bytes b)) (code_size c) z) with
              | Raise e => (Raise e, b)
              | Ok pos =>
                  match pack_item o c arg with
                  | Ok bs =>
                      (Ok tt, mk_Buffer (writable b) (write_at pos bs (bytes b)))
                  | Raise e =>
                      (Raise e,
                       mk_Buffer (writable b)
                                 (write_at pos (span_after_refusal o c arg) (bytes b)))
                  end
              end
            else (Raise TypeError, b)
        | _ => (Raise struct_error, b)
        end
  end.

(** [t[0]] on the tuple an unpack returns. *)
Definition tuple_first (t : list pyval) : result pyval :=
  match t with
  | x :: _ => Ok x
  | [] => Raise IndexError
  end.

(** ** srddl/data.py *)

(** A [Data] object: the buffer and the read-only flag (the registry of
    mapped structures, [_mapped], plays no part in field access). *)
Record Data := mk_Data {
  buf : Buffer;
  ro : bool
}.

(** [Data.__init__(self, buf, ro=False)]: the probe [self.buf[0] =
    self.buf[0]] runs under a bare [except] that sets [self.ro = True]. *)
Definition Data___init__ (buf_ : Buffer) (ro_ : bool) : Data :=
  match (x ← buf_getitem buf_ 0; buf_setitem buf_ 0 x) with
  | Ok b' => mk_Data b' ro_
  | Raise _ => mk_Data buf_ true
  end.

(** [Data.unpack_from(self, frmt, offset)] *)
Definition Data_unpack_from (frmt : string) (off : pyval) : M Data (list pyval) :=
  fun self => (struct_unpack_from frmt (buf self) off, self).

(** [Data.pack_into(self, frmt, offset, *args)] *)
Definition Data_pack_into (frmt : string) (off : pyval) (args : list pyval)
  : M Data unit :=
  fun self =>
    if ro self then (Raise (Exception "fu"), self)
    else
      let '(r, b') := struct_pack_into frmt (buf self) off args in
      (r, mk_Data b' (ro self)).

(** ** srddl/core/fields.py *)

(** [FieldInitStatus = sch.enum(KO=0, INIT=1, OK=2)] *)
Inductive FieldInitStatus := KO | INIT | OK.

Definition status_eqb (a b : FieldInitStatus) : bool :=
  match a, b with
  | KO, KO | INIT, INIT | OK, OK => true
  | _, _ => false
  end.

(** The field classes of [srddl/fields/core.py]. *)
Inductive field_class := IntField | ByteArrayField | BitField | BitMaskField.

(** [IntField.Endianess = sch.enum(LITTLE='<', BIG='>', NETWORK='!')] *)
Inductive Endianess := LITTLE | BIG | NETWORK.

Definition endianess_str (e : Endianess) : string :=
  match e with
  | LITTLE => "<"
  | BIG => ">"
  | NETWORK => "!"
  end.

(** [IntField.Base = sch.enum(BIN=2, OCT=8, DEC=10, HEX=16)] *)
Inductive Base := BIN | OCT | DEC | HEX.

(** A dict from integers to [Value]s, in insertion order. *)
Definition dict := list (Z * Value).

(** [d[k] = v]: an existing key keeps its place. *)
Fixpoint dict_set (d : dict) (k : Z) (v : Value) : dict :=
  match d with
  | [] => [(k, v)]
  | (k', v') :: r => if k' =? k then (k', v) :: r else (k', v') :: dict_set r k v
  end.

Fixpoint dict_lookup (d : dict) (k : Z) : option Value :=
  match d with
  | [] => None
  | (k', v') :: r => if k' =? k then Some v' else dict_lookup r k
  end.

(** [d.get(res, res)] *)
Definition dict_get (d : dict) (res : pyval) : pyval :=
  match res with
  | VInt n =>
      match dict_lookup d n with
      | Some v => VValue v
      | None => res
      end
  | _ => res
  end.

(** A field object: its class, its identity [id(self)] and the attributes
    that [__init__] sets. [ByteArrayField] and [BitField] only use [_size].
    The size is a literal here; the optional validity predicate and the
    description are left out. *)
Record Field := mk_Field {
  klass : field_class;
  field_id : N;
  _size : Z;
  _base : Base;
  _signed : bool;
  _endianess : Endianess;
  _values : dict
}.

(** Modelled from the spec: [sch.enum] is not among the sources; the
    [values()] of [IntField.Size = sch.enum(BYTE=1, INT8=1, INT16=2,
    INT32=4, INT64=8)] lists the declared widths, 1, 2, 4 and 8 bytes. *)
Definition IntField_Size_values : list Z := [1; 1; 2; 4; 8].

Definition in_values (n : Z) (l : list Z) : bool := existsb (Z.eqb n) l.

(** Modelled from the spec: [sch.reference_value] is not among the
    sources; it resolves a size configuration against the instance, and a
    literal configuration resolves to itself. *)
Definition reference_value {S : Type} (instance : S) (ref : Z) : Z := ref.

(** [IntField.__init__] (also [BitMaskField]'s), with its keyword arguments
    [size], [base], [signed], [endianess] and [values]. *)
Definition IntField___init__ (c : field_class) (id_ : N) (size : Z) (base : Base)
    (signed : bool) (endianess : Endianess) (values : list Value) : result Field :=
  if in_values size IntField_Size_values then
    Ok (mk_Field c id_ size base signed endianess
          (foldl (fun d it => dict_set d (v_value it) it) [] values))
  else Raise ValueError.

(** [ByteArrayField(size)] and [BitField(size)] *)
Definition ByteArrayField___init__ (id_ : N) (size : Z) : Field :=
  mk_Field ByteArrayField id_ size DEC false LITTLE [].
Definition BitField___init__ (id_ : N) (size : Z) : Field :=
  mk_Field BitField id_ size DEC false LITTLE [].

(** The [Meta] configuration of a field class: [aligned] and
    [boundvalue_class], with the defaults of [AbstractField.MetaBase].
    [BitMaskField], whose own [Meta] is empty, is read as keeping
    [IntField]'s bound value class; the default class has the same [_size]. *)
Inductive boundvalue_class :=
| BoundValue_cls | IntFieldBoundValue_cls | BitFieldBoundValue_cls.

Definition metaconf_aligned (self : Field) : bool :=
  match klass self with
  | BitField => false
  | _ => true
  end.

Definition metaconf_boundvalue_class (self : Field) : boundvalue_class :=
  match klass self with
  | IntField | BitMaskField => IntFieldBoundValue_cls
  | BitField => BitFieldBoundValue_cls
  | ByteArrayField => BoundValue_cls
  end.

(** A [BoundValue]: the field, the offset, the documentation copied from
    a matched [Value], and the decoded value the bound value keeps once it
    was read ([bv_value], empty on a new bound value). The owning instance
    is the state the methods run in. A bound value is passed by value: a
    call that changes it hands back the bound value as it leaves it. *)
Record BoundValue := mk_BoundValue {
  bv_class : boundvalue_class;
  bv_field : Field;
  bv_offset : _Offset;
  bv_name : option string;
  bv_description : option string;
  bv_value : option pyval
}.

(** What [instance._srddl.fields_data] holds: a status or a bound value. *)
Inductive fdata :=
| DStatus (s : FieldInitStatus)
| DBoundValue (bv : BoundValue).

(** A structure instance as the fields see it: [instance['data']] and
    [instance._srddl.fields_data]. The key ['data-{:x}_{}'.format(id(self),
    name)] is kept as the pair it is built from. *)
Record Struct := mk_Struct {
  data : Data;
  fields_data : gmap (N * string) fdata
}.

(** Running a [Data] method on [instance['data']]. *)
Definition with_data {A : Type} (m : M Data A) : M Struct A :=
  fun instance =>
    let '(r, d) := m (data instance) in
    (r, mk_Struct d (fields_data instance)).

(** [AbstractField._get_data(self, instance, name)] *)
Definition _get_data (self : Field) (name : string) : M Struct fdata :=
  fun instance =>
    match fields_data instance !! (field_id self, name) with
    | Some d => (Ok d, instance)
    | None => (Raise NoFieldDataError, instance)
    end.

(** [AbstractField._set_data(self, instance, name, value)] *)
Definition _set_data (self : Field) (name : string) (value : fdata) : M Struct unit :=
  fun instance =>
    (Ok tt, mk_Struct (data instance)
                      (<[(field_id self, name) := value]> (fields_data instance))).

(** [BoundValue._size], and its override [BitFieldBoundValue._size], which
    hands back either a [Size] or an exception instance. *)
Definition BoundValue__size (self : BoundValue) : M Struct pyval :=
  fun instance =>
    match bv_class self with
    | BitFieldBoundValue_cls =>
        let size := Size_bit (reference_value instance (_size (bv_field self))) in
        if negb (in_values
                   (offset.rounded
                      (offset.__add__ size (OpOffset (Size_bit (bit (bv_offset self))))))
                   IntField_Size_values)
        then (Ok (VExc (BifFieldSizeError size)), instance)
        else (Ok (VOffset size), instance)
    | _ =>
        (Ok (VOffset (Size_byte (reference_value instance (_size (bv_field self))))),
         instance)
    end.

(** [AbstractField.__get__(self, instance)], the method that
    [functools.lru_cache] decorates: what a call computes when the cache
    keeps no result for [(self, instance)], as on the first read of a
    field on an instance. The cache keeps what a call returned (never an
    exception) and hands it out again, whatever is registered by then: a
    field initialized again after a read keeps handing out its first bound
    value. The cache is no part of the instance and is not followed here.
    Where a property below goes through [__get__], it either needs of the
    bound value only what all bound values of a field share (their class
    and the field, hence the size of an [IntField] or a
    [ByteArrayField]), or it is stated for a field that had no bound value
    on the instance before, for which the cache keeps nothing. *)
Definition AbstractField___get__ (self : Field) : M Struct fdata :=
  _get_data self "boundvalue".

(** [x['size']] on what [__get__] returned. *)
Definition getitem_size (x : fdata) : M Struct pyval :=
  match x with
  | DBoundValue bv => BoundValue__size bv
  | DStatus _ => raise_M TypeError
  end.

(** [AbstractField.initialize(self, instance, offset)]; the optional
    [path], stored on the field, is left out. *)
Definition AbstractField_initialize (self : Field) (offset_ : _Offset) : M Struct pyval :=
  if metaconf_aligned self && negb (offset.aligned offset_)
  then raise_M FieldAlignmentError
  else
    let bv := mk_BoundValue (metaconf_boundvalue_class self) self offset_
                            None None None in
    let* _ := _set_data self "boundvalue" (DBoundValue bv) in
    BoundValue__size bv.

(** [try: m except exc: handler], for the exception classes [catches]. *)
Definition try_except {S A : Type} (m : M S A) (catches : exn -> bool)
    (handler : M S A) : M S A :=
  fun s =>
    match m s with
    | (Raise e, s') => if catches e then handler s' else (Raise e, s')
    | r => r
    end.

Definition is_NoFieldDataError (e : exn) : bool :=
  match e with
  | NoFieldDataError => true
  | _ => false
  end.

(** [x == st] for an [x] read from [fields_data] and a status [st]. *)
Definition fdata_is (x : fdata) (st : FieldInitStatus) : bool :=
  match x with
  | DStatus s => status_eqb s st
  | DBoundValue _ => false
  end.

(** The [wrapper] that [_MetaAbstractField.__new__] puts in place of a
    class's [initialize]. It does not call the function it wraps. *)
Definition initialize_wrapper (initialize : Field -> _Offset -> M Struct pyval)
    (self : Field) (offset_ : _Offset) : M Struct pyval :=
  let* status := try_except (_get_data self "status") is_NoFieldDataError
                            (ret_M (DStatus KO)) in
  let* _ := _set_data self "status" (DStatus INIT) in
  if negb (fdata_is status INIT)
  then let* _ := _set_data self "status" (DStatus OK) in ret_M VNone
  else ret_M VNone.

(** The [wrapper] that [_MetaAbstractField.__new__] puts in place of a
    class's [__get__], as [functools.lru_cache] decorates it: what a call
    computes when the cache keeps no result for its arguments. The cache
    keeps what a call returned, never a raised exception, and hands it
    out again without the status being tested. It is not followed here:
    what is proved of [get_wrapper] is proved of a call that the cache
    does not answer, as every call is for a field that has had no status
    on the instance, for which the wrapper never returned. The wrapped
    getter returns [None] (Python's [None]) or an object, here one of
    those kept in [fields_data]. *)
Definition get_wrapper (__get__ : Field -> M Struct (option fdata))
    (self : Field) : M Struct (option fdata) :=
  let* status := _get_data self "status" in
  if negb (fdata_is status OK) then raise_M FieldNotReadyError
  else
    let* res := __get__ self in
    match res with
    | None | Some (DBoundValue _) => ret_M res
    | Some (DStatus _) => raise_M NotABoundValueError
    end.

(** ** srddl/fields/core.py *)

(** The dict literal [log2 = {1: 0, 2: 1, 4: 2, 8: 3}], indexed. *)
Definition log2 (n : Z) : result nat :=
  if n =? 1 then Ok 0%nat
  else if n =? 2 then Ok 1%nat
  else if n =? 4 then Ok 2%nat
  else if n =? 8 then Ok 3%nat
  else Raise KeyError.

(** Attribute access on what [bv['size']] returned: an exception instance
    has no [byte] or [bit]. *)
Definition as_offset (size : pyval) : result _Offset :=
  match size with
  | VOffset o => Ok o
  | _ => Raise AttributeError
  end.

(** An integer operand of [&], [|] and the shifts. *)
Definition as_int (v : pyval) : result Z :=
  match v with
  | VInt n => Ok n
  | _ => Raise TypeError
  end.

(** [IntField._sig(self, size)] *)
Definition IntField__sig (self : Field) (size : pyval) : result string :=
  sz ← as_offset size;
  i ← log2 (byte sz);
  c ← str_index "bhiq" i;
  let sig := endianess_str (_endianess self) +:+ c in
  Ok (if _signed self then sig else str_upper sig).

(** [IntField.decode(self, instance, offset)] *)
Definition IntField_decode (self : Field) (offset_ : _Offset) : M Struct pyval :=
  let* bv := AbstractField___get__ self in
  let* size := getitem_size bv in
  let* sig := lift_M (IntField__sig self size) in
  let* t := with_data (Data_unpack_from sig (VInt (byte offset_))) in
  let* res := lift_M (tuple_first t) in
  ret_M (dict_get (_values self) res).

(** [IntField.encode(self, instance, offset, value)] *)
Definition IntField_encode (self : Field) (offset_ : _Offset) (value : pyval)
  : M Struct unit :=
  let* bv := AbstractField___get__ self in
  let* size := getitem_size bv in
  let* sig := lift_M (IntField__sig self size) in
  with_data (Data_pack_into sig (VInt (byte offset_)) [value]).

(** [ByteArrayField._sig(self, size)] *)
Definition ByteArrayField__sig (size : pyval) : result string :=
  sz ← as_offset size;
  Ok (format_int (byte sz) +:+ "s").

(** [ByteArrayField.decode(self, instance, offset)] *)
Definition ByteArrayField_decode (self : Field) (offset_ : _Offset) : M Struct pyval :=
  let* bv := AbstractField___get__ self in
  let* size := getitem_size bv in
  let* sig := lift_M (ByteArrayField__sig size) in
  let* t := with_data (Data_unpack_from sig (VInt (byte offset_))) in
  lift_M (tuple_first t).

(** [ByteArrayField.encode(self, instance, offset, value)]; the fill
    character is the [str] literal ['\x00']. *)
Definition ByteArrayField_encode (self : Field) (offset_ : _Offset) (value : pyval)
  : M Struct unit :=
  let* bv := AbstractField___get__ self in
  let* size := getitem_size bv in
  let* value' := lift_M (sz ← as_offset size;
                         padded ← py_ljust value (byte sz) (VStr (String NUL EmptyString));
                         py_slice_to padded (byte sz)) in
  let* sig := lift_M (ByteArrayField__sig size) in
  with_data (Data_pack_into sig (VInt (byte offset_)) [value']).

(** [BitField._mask(self, size)] *)
Definition BitField__mask (size : pyval) : result Z :=
  sz ← as_offset size;
  x ← py_lshift 1 (byte sz * 8 + bit sz);
  Ok (x - 1).

(** ['<' + 'BHIQ'[log2[(size + sco.Size(bit=offset.bit)).rounded()]]], the
    format both [BitField.decode] and [BitField.encode] compute. *)
Definition BitField_sig (size : pyval) (offset_ : _Offset) : result string :=
  total ← match size with
          | VOffset sz => Ok (offset.__add__ sz (OpOffset (Size_bit (bit offset_))))
          | _ => Raise TypeError
          end;
  i ← log2 (offset.rounded total);
  c ← str_index "BHIQ" i;
  Ok ("<" +:+ c).

(** The last two statements of [BitField.decode], on the integer [i] read
    from the buffer: [mask = self._mask(size) << offset.bit] and
    [(i & mask) >> offset.bit]. *)
Definition BitField_extract (size : pyval) (offset_ : _Offset) (i : pyval)
  : result pyval :=
  m ← BitField__mask size;
  mask ← py_lshift m (bit offset_);
  iv ← as_int i;
  r ← py_rshift (Z.land iv mask) (bit offset_);
  Ok (VInt r).

(** The integer [BitField.encode] computes for the write: [mask =
    self._mask(size) << offset.bit], [res = i & ~mask], then [res |= (value
    & self._mask(size)) << offset.bit]. *)
Definition BitField_merge (size : pyval) (offset_ : _Offset) (i value : pyval)
  : result Z :=
  m ← BitField__mask size;
  mask ← py_lshift m (bit offset_);
  iv ← as_int i;
  let res := Z.land iv (Z.lnot mask) in
  v ← as_int value;
  m' ← BitField__mask size;
  shifted ← py_lshift (Z.land v m') (bit offset_);
  Ok (Z.lor res shifted).

(** [BitField.decode(self, instance, offset)] *)
Definition BitField_decode (self : Field) (offset_ : _Offset) : M Struct pyval :=
  let* bv := AbstractField___get__ self in
  let* size := getitem_size bv in
  let* sig := lift_M (BitField_sig size offset_) in
  let* t := with_data (Data_unpack_from sig (VInt (offset.rounded offset_))) in
  let* i := lift_M (tuple_first t) in
  lift_M (BitField_extract size offset_ i).

(** [BitField.encode(self, instance, offset, value)]. The read passes
    [offset.rounded], the method itself, as the offset; the write passes
    [offset.rounded()]. *)
Definition BitField_encode (self : Field) (offset_ : _Offset) (value : pyval)
  : M Struct unit :=
  let* bv := AbstractField___get__ self in
  let* size := getitem_size bv in
  let* sig := lift_M (BitField_sig size offset_) in
  let* t := with_data (Data_unpack_from sig VMethod) in
  let* i := lift_M (tuple_first t) in
  let* res := lift_M (BitField_merge size offset_ i value) in
  with_data (Data_pack_into sig (VInt (offset.rounded offset_)) [VInt res]).

(** The loop of [BitMaskField.decode] over [self._values.items()]: the
    entries appended to [res] and the accumulated [mask]. *)
Fixpoint bitmask_scan (items : dict) (nb : Z) (res : list pyval) (mask : Z)
  : list pyval * Z :=
  match items with
  | [] => (res, mask)
  | (val_num, val) :: rest =>
      if negb (Z.land val_num nb =? 0)
      then bitmask_scan rest nb (res ++ [VValue val]) (Z.lor mask val_num)
      else bitmask_scan rest nb res mask
  end.

(** The part of [BitMaskField.decode] after [super().decode]. *)
Definition bitmask_of (values : dict) (nb : pyval) : result pyval :=
  match nb with
  | VValue _ => Ok (VList [nb])
  | _ =>
      n ← as_int nb;
      let '(res, mask) := bitmask_scan values n [] 0 in
      let res := if negb (mask =? n) then res ++ [VInt (Z.lxor n mask)] else res in
      Ok (VList (match res with [] => [nb] | _ => res end))
  end.

(** [BitMaskField.decode(self, instance, offset)] *)
Definition BitMaskField_decode (self : Field) (offset_ : _Offset) : M Struct pyval :=
  let* nb := IntField_decode self offset_ in
  lift_M (bitmask_of (_values self) nb).

(** [self._field.decode(...)] and [self._field.encode(...)], dispatched on
    the field's class ([BitMaskField] inherits [IntField.encode]). *)
Definition Field_decode (self : Field) (offset_ : _Offset) : M Struct pyval :=
  match klass self with
  | IntField => IntField_decode self offset_
  | ByteArrayField => ByteArrayField_decode self offset_
  | BitField => BitField_decode self offset_
  | BitMaskField => BitMaskField_decode self offset_
  end.

Definition Field_encode (self : Field) (offset_ : _Offset) (value : pyval)
  : M Struct unit :=
  match klass self with
  | IntField | BitMaskField => IntField_encode self offset_ value
  | ByteArrayField => ByteArrayField_encode self offset_ value
  | BitField => BitField_encode self offset_ value
  end.

(** ** [BoundValue]: value, [set] and the comparisons *)

(** [self.copy(res)]: the bound value takes over the documentation of the
    matched [Value]. *)
Definition BoundValue_copy (self : BoundValue) (res : Value) : BoundValue :=
  mk_BoundValue (bv_class self) (bv_field self) (bv_offset self)
                (v_name res) (v_description res) (bv_value self).

(** [BoundValue._value]: the decoded value, with the bound value as
    [copy] leaves it. *)
Definition BoundValue__value (self : BoundValue) : M Struct (pyval * BoundValue) :=
  let* res := Field_decode (bv_field self) (bv_offset self) in
  match res with
  | VValue v => ret_M (VInt (v_value v), BoundValue_copy self v)
  | _ => ret_M (res, self)
  end.

(** The bound value once it keeps [v] as its decoded value. *)
Definition keep_value (self : BoundValue) (v : pyval) : BoundValue :=
  mk_BoundValue (bv_class self) (bv_field self) (bv_offset self)
                (bv_name self) (bv_description self) (Some v).

(** Modelled from the spec: [srddl.core.nameddict] is not among the
    sources. The item read [self['value']] is taken as the design has it,
    a property computed lazily and then kept: the first read evaluates the
    property method [_value] and the bound value keeps the result, a later
    read hands out what is kept. Nothing in the sources discards what is
    kept: [BoundValue.set] only calls the field's [encode], which does not
    touch the bound value. The read gives the value and the bound value as
    the read leaves it. *)
Definition BoundValue_read_value (self : BoundValue) : M Struct (pyval * BoundValue) :=
  match bv_value self with
  | Some v => ret_M (v, self)
  | None =>
      let* r := BoundValue__value self in
      ret_M (fst r, keep_value (snd r) (fst r))
  end.

(** [self['value']], for its value alone. *)
Definition BoundValue_getitem_value (self : BoundValue) : M Struct pyval :=
  let* r := BoundValue_read_value self in ret_M (fst r).

(** Modelled from the spec: the attribute read [self.value] of [__lt__]
    also goes through [srddl.core.nameddict]; it is taken to give the same
    decoded value as [self['value']], since bound values are ordered by
    comparing their decoded value. *)
Definition BoundValue_getattr_value (self : BoundValue) : M Struct pyval :=
  BoundValue_getitem_value self.


(** The right operand of a comparison: [isinstance(other, BoundValue)] or
    a plain value. *)
Inductive cmp_operand :=
| CmpBoundValue (bv : BoundValue)
| CmpValue (v : pyval).

(** [==] and [<] where an integer is involved, as for the decoded values
    of integer-typed fields. An integer is unequal to [None], to a [str],
    a [bytes], a list, a method and an exception instance, and [<]
    between an integer and one of those raises [TypeError]; an [_Offset]
    answers the comparison with an integer by its own [__eq__] and
    [__lt__] (reflected, for [n < o], as [o > n]). Pairs without an
    integer, and a [Value], whose class comes from
    [srddl.core.nameddict], are not interpreted: this model answers them
    with [TypeError]. *)
Definition int_eq (a b : pyval) : result bool :=
  match a, b with
  | VInt x, VInt y => Ok (x =? y)
  | VInt _, (VNone | VStr _ | VBytes _ | VList _ | VMethod | VExc _)
  | (VNone | VStr _ | VBytes _ | VList _ | VMethod | VExc _), VInt _ => Ok false
  | VInt x, VOffset o | VOffset o, VInt x => Ok (offset.__eq__ o (OpInt x))
  | _, _ => Raise TypeError
  end.

Definition int_lt (a b : pyval) : result bool :=
  match a, b with
  | VInt x, VInt y => Ok (x <? y)
  | VOffset o, VInt x => Ok (offset.__lt__ o (OpInt x))
  | VInt x, VOffset o =>
      Ok (negb (offset.__lt__ o (OpInt x)) && negb (offset.__eq__ o (OpInt x)))
  | _, _ => Raise TypeError
  end.

(** [BoundValue.__eq__] *)
Definition BoundValue___eq__ (self : BoundValue) (other : cmp_operand) : M Struct bool :=
  match other with
  | CmpBoundValue o =>
      let* a := BoundValue_getitem_value self in
      let* b := BoundValue_getitem_value o in
      lift_M (int_eq a b)
  | CmpValue v =>
      let* a := BoundValue_getitem_value self in
      lift_M (int_eq a v)
  end.

(** [BoundValue.__lt__] *)
Definition BoundValue___lt__ (self : BoundValue) (other : cmp_operand) : M Struct bool :=
  match other with
  | CmpBoundValue o =>
      let* a := BoundValue_getattr_value self in
      let* b := BoundValue_getattr_value o in
      lift_M (int_lt a b)
  | CmpValue v =>
      let* a := BoundValue_getattr_value self in
      lift_M (int_lt a v)
  end.

(** The operators [functools.total_ordering] derives from [__lt__] and
    [__eq__]: [a <= b] is [a < b or a == b], [a > b] is [not a < b and
    a != b], [a >= b] is [not a < b]. *)
Definition BoundValue___le__ (self : BoundValue) (other : cmp_operand) : M Struct bool :=
  let* lt := BoundValue___lt__ self other in
  if lt then ret_M true else BoundValue___eq__ self other.

Definition BoundValue___gt__ (self : BoundValue) (other : cmp_operand) : M Struct bool :=
  let* lt := BoundValue___lt__ self other in
  if lt then ret_M false
  else let* eq := BoundValue___eq__ self other in ret_M (negb eq).

Definition BoundValue___ge__ (self : BoundValue) (other : cmp_operand) : M Struct bool :=
  let* lt := BoundValue___lt__ self other in ret_M (negb lt).

(** The integers a field of [size] bytes holds, signed or unsigned. *)
Definition representable (size : Z) (signed : bool) (v : Z) : Prop :=
  if signed
  then - 2 ^ (8 * size - 1) <= v < 2 ^ (8 * size - 1)
  else 0 <= v < 2 ^ (8 * size).

(** The byte order a field's endianess mark selects. *)
Definition order_of (e : Endianess) : byte_order :=
  match e with
  | LITTLE => LittleEndian
  | BIG | NETWORK => BigEndian
  end.

(** Every entry of a table is stored under its own [value]. *)
Definition keyed_by_value (d : dict) : Prop :=
  forall k it, dict_lookup d k = Some it -> v_value it = k.

(** ** [BitMaskField.decode] in closed form, and as the design states it *)

(** The entries of a table that share a bit with [n], in table order. *)
Definition sharing_bits (values : dict) (n : Z) : dict :=
  List.filter (fun kv => negb (Z.land (fst kv) n =? 0)) values.

(** The bitwise OR of the raw values of some entries, on top of [mask]. *)
Definition or_values (mask : Z) (items : dict) : Z :=
  foldl (fun m kv => Z.lor m (fst kv)) mask items.

Definition named (items : dict) : list pyval :=
  map (fun kv => VValue (snd kv)) items.

(** What the loop and the two tests after it leave in [res] for a plain
    integer [n]. *)
Definition flags_of (values : dict) (n : Z) : list pyval :=
  let mask := or_values 0 (sharing_bits values n) in
  let res := named (sharing_bits values n)
             ++ (if mask =? n then [] else [VInt (Z.lxor n mask)]) in
  match res with
  | [] => [VInt n]
  | _ => res
  end.

(** The design's wording: the entries whose raw value is a non-zero subset
    of [n], then, if their OR leaves bits of [n] uncovered, one unnamed
    entry holding those bits. *)
Definition subset_flags (values : dict) (n : Z) : dict :=
  List.filter (fun kv => negb (fst kv =? 0) && (Z.land (fst kv) n =? fst kv)) values.

Definition BitMaskField_decode_spec (values : dict) (n : Z) : list pyval :=
  let mask := or_values 0 (subset_flags values n) in
  let leftover := Z.land n (Z.lnot mask) in
  named (subset_flags values n) ++ (if leftover =? 0 then [] else [VInt leftover]).

(** ** Sample objects *)

(** [IntField(size=INT16, base=HEX, signed=True, endianess=BIG,
    values=[Value(258, 'MAGIC')])], standing at address 1. *)
Definition sample_int_field : Field :=
  mk_Field IntField 1 2 HEX true BIG [(258, mk_Value 258 (Some "MAGIC"%string) None)].

(** An instance over [Data(bytearray(4))] with no field initialized. *)
Definition fresh_instance : Struct :=
  mk_Struct (Data___init__ (mk_Buffer true [0; 0; 0; 0]) false) ∅.

(** The instance once [sample_int_field] is initialized at byte 1. *)
Definition sample_instance : Struct :=
  snd (AbstractField_initialize sample_int_field (Offset_ 1 0) fresh_instance).

Definition sample_int_bv : BoundValue :=
  mk_BoundValue IntFieldBoundValue_cls sample_int_field (Offset_ 1 0) None None None.

(** The instance after [sample_int_field] has encoded 258, and a second
    bound value of the field one byte further. *)
Definition encoded_instance : Struct :=
  snd (IntField_encode sample_int_field (Offset_ 1 0) (VInt 258) sample_instance).

Definition sample_int_bv2 : BoundValue :=
  mk_BoundValue IntFieldBoundValue_cls sample_int_field (Offset_ 2 0) None None None.

(** [Value(n, name)] *)
Definition flag (n : Z) (name : string) : Value := mk_Value n (Some name) None.

(** [BitMaskField(values=[Value(1, 'A'), Value(2, 'B'), Value(4, 'C')])],
    one byte wide. *)
Definition sample_mask_field : Field :=
  mk_Field BitMaskField 2 1 HEX false LITTLE
    [(1, flag 1 "A"); (2, flag 2 "B"); (4, flag 4 "C")].

(** A table whose only entry spans two bits, and one that also names the
    combination of its two single-bit flags. *)
Definition wide_mask_field : Field :=
  mk_Field BitMaskField 3 1 HEX false LITTLE [(3, flag 3 "AB")].

Definition combo_mask_field : Field :=
  mk_Field BitMaskField 4 1 HEX false LITTLE
    [(1, flag 1 "A"); (2, flag 2 "B"); (3, flag 3 "AB")].

(** The instance over the one-byte buffer [bytearray([b])] once [f] is
    initialized at offset 0. *)
Definition one_byte_instance (f : Field) (b : Z) : Struct :=
  snd (AbstractField_initialize f (Offset_ 0 0)
         (mk_Struct (Data___init__ (mk_Buffer true [b]) false) ∅)).

(** The undecorated [__get__] of the field classes, as the wrapper's
    argument. *)
Definition plain___get__ (self : Field) : M Struct (option fdata) :=
  let* x := AbstractField___get__ self in ret_M (Some x).

(** [ByteArrayField(4)] with address 5, initialized at byte 0 of
    [Data(bytearray(4))]. *)
Definition sample_bytes_field : Field := ByteArrayField___init__ 5 4.

Definition sample_bytes_instance : Struct :=
  snd (AbstractField_initialize sample_bytes_field (Offset_ 0 0) fresh_instance).

(** The bound value of a [BitField(64)] that starts at bit 1. *)
Definition wide_bit_bv : BoundValue :=
  mk_BoundValue BitFieldBoundValue_cls (BitField___init__ 6 64) (Offset_ 0 1) None None None.

(** [BitField(17)] with address 7, initialized at offset 0 of
    [Data(bytearray(4))]; and [BitField(3)] with address 8, initialized at
    bit 6 of byte 0. *)
Definition sample_bit17_field : Field := BitField___init__ 7 17.

Definition sample_bit17_instance : Struct :=
  snd (AbstractField_initialize sample_bit17_field (Offset_ 0 0) fresh_instance).

Definition sample_bit3_field : Field := BitField___init__ 8 3.

Definition sample_bit3_bv : BoundValue :=
  mk_BoundValue BitFieldBoundValue_cls sample_bit3_field (Offset_ 0 6) None None None.

Definition sample_bit3_instance : Struct :=
  snd (AbstractField_initialize sample_bit3_field (Offset_ 0 6)
         (mk_Struct (Data___init__ (mk_Buffer true [192; 1; 0; 0]) false) ∅)).

(** ** Further code of the same files *)

(** The operators [functools.total_ordering] derives for [_Offset] from
    its [__lt__] and [__eq__]. *)
Definition Offset___le__ (self : _Offset) (other : operand) : bool :=
  offset.__lt__ self other || offset.__eq__ self other.

Definition Offset___gt__ (self : _Offset) (other : operand) : bool :=
  negb (offset.__lt__ self other) && negb (offset.__eq__ self other).

Definition Offset___ge__ (self : _Offset) (other : operand) : bool :=
  negb (offset.__lt__ self other).

(** [_Offset.__hash__] is [hash] of this text, ['{}::{}'.format(self.byte,
    self.bit)]. *)
Definition Offset_hash_text (self : _Offset) : string :=
  format_int (byte self) +:+ "::" +:+ format_int (bit self).

(** [Offset(offset)], the conversion [Data.mapped], [Data.map] and
    [Data.map_array] apply to their argument. *)
Definition Offset_of (offset_ : byte_arg) : _Offset :=
  offset.__init__ Offset offset_ 0.

(** A buffer whose items are bytes. *)
Definition well_formed (l : list Z) : Prop :=
  Forall (fun x => 0 <= x < 256) l.

(** [Data] with its registry [_mapped], a dict from [Offset] to the list
    of structures mapped there; [T] is the type of structure instances.
    Two [Offset] keys are the same key when their [(byte, bit)] agree. *)
Record MappedData (T : Type) := mk_MappedData {
  md_data : Data;
  _mapped : gmap (Z * Z) (list T)
}.
Arguments mk_MappedData {T} md_data _mapped.
Arguments md_data {T} _.
Arguments _mapped {T} _.

Definition mapped_key (o : _Offset) : Z * Z := (byte o, bit o).

(** [Data.mapped(self, offset, fltr=None)] *)
Definition Data_mapped {T : Type} (offset_ : byte_arg) (fltr : option (T -> bool))
  : M (MappedData T) T :=
  fun self =>
    let o := Offset_of offset_ in
    match _mapped self !! mapped_key o with
    | None => (Raise KeyError, self)
    | Some l =>
        match List.filter (fun x => match fltr with
                                    | None => true
                                    | Some f => f x
                                    end) l with
        | [x] => (Ok x, self)
        | _ => (Raise (Exception "fiiiiiiiiii"), self)
        end
    end.

(** [Data.map(self, offset, struct)]. The class [struct] and the method
    [_setup] of its instances belong to [srddl.models], which is not among
    the sources: they are arguments here, [struct] building the instance
    for an offset and [_setup] running on the registry. *)
Definition Data_map {T : Type} (struct : _Offset -> T)
    (_setup : T -> M (MappedData T) unit) (offset_ : byte_arg)
  : M (MappedData T) T :=
  fun self =>
    let o := Offset_of offset_ in
    let s := struct o in
    let self' :=
      mk_MappedData (md_data self)
        (<[mapped_key o := default [] (_mapped self !! mapped_key o) ++ [s]]>
           (_mapped self)) in
    match _setup s self' with
    | (Ok _, self'') => (Ok s, self'')
    | (Raise e, self'') => (Raise e, self'')
    end.

(** The loop of [Data.map_array]: [offset += self.map(offset,
    struct)['size']], [n] times; [size] reads the ['size'] of a structure. *)
Fixpoint map_array_loop {T : Type} (struct : _Offset -> T)
    (_setup : T -> M (MappedData T) unit) (size : T -> operand)
    (n : nat) (o : _Offset) : M (MappedData T) unit :=
  match n with
  | O => ret_M tt
  | S k =>
      let* s := Data_map struct _setup (ByteOffset o) in
      map_array_loop struct _setup size k (offset.__add__ o (size s))
  end.

(** [Data.map_array(self, offset, nb, struct)] *)
Definition Data_map_array {T : Type} (struct : _Offset -> T)
    (_setup : T -> M (MappedData T) unit) (size : T -> operand)
    (offset_ : byte_arg) (nb : Z) : M (MappedData T) unit :=
  map_array_loop struct _setup size (Z.to_nat nb) (Offset_of offset_).

(** [bytearray(x)] for the object an ['s'] code unpacks. *)
Definition as_bytearray (x : pyval) : result (list Z) :=
  match x with
  | VBytes b => Ok b
  | _ => Raise TypeError
  end.

(** [d[i]] on a bytearray, for a non-negative [i]. *)
Definition bytearray_getitem (d : list Z) (i : nat) : result Z :=
  match d !! i with
  | Some x => Ok x
  | None => Raise IndexError
  end.

(** The masking statements of [_extract_raw] on the bytearray [d]:
    [d[0] = d[0] & ((0xff >> offset.bit) & 0xff)], then [s = size.bit +
    (offset.bit if not size.byte else 0)] and [d[-1] = d[-1] & ((0xff << (8
    - s if s else 0)) & 0xff)]. *)
Definition raw_mask (d : list Z) (offset_ sz : _Offset) : result (list Z) :=
  d0 ← bytearray_getitem d 0;
  m0 ← py_rshift 255 (bit offset_);
  let d1 := <[0%nat := Z.land d0 (Z.land m0 255)]> d in
  let s := bit sz + (if byte sz =? 0 then bit offset_ else 0) in
  dl ← bytearray_getitem d1 (length d1 - 1);
  m1 ← py_lshift 255 (if s =? 0 then 0 else 8 - s);
  Ok (<[(length d1 - 1)%nat := Z.land dl (Z.land m1 255)]> d1).

(** [AbstractMappedValue._extract_raw(self, data)] for a bound value, with
    [data] the instance's: the bytes the value spans, the first and the
    last one masked. *)
Definition BoundValue__extract_raw (self : BoundValue) : M Struct (list Z) :=
  let* size := BoundValue__size self in
  let* sz := lift_M (as_offset size) in
  let f := format_int (offset.rounded sz) +:+ "s" in
  let* t := with_data (Data_unpack_from f (VInt (offset.rounded (bv_offset self)))) in
  let* x := lift_M (tuple_first t) in
  let* d := lift_M (as_bytearray x) in
  lift_M (raw_mask d (bv_offset self) sz).

(** [BoundValue._raw] *)
Definition BoundValue__raw (self : BoundValue) : M Struct (list Z) :=
  BoundValue__extract_raw self.

(** The raw integer of an entry that [BitMaskField.decode] returns. *)
Definition entry_raw (x : pyval) : option Z :=
  match x with
  | VValue v => Some (v_value v)
  | VInt n => Some n
  | _ => None
  end.

(** A field with its bound value registered on an instance, as
    [AbstractField.initialize] leaves it. *)
Definition registered (f : Field) (bv : BoundValue) (inst : Struct) : Prop :=
  fields_data inst !! (field_id f, "boundvalue"%string) = Some (DBoundValue bv)
  /\ bv_field bv = f
  /\ bv_class bv = metaconf_boundvalue_class f.

(** The instance's data accepts writes. *)
Definition accepts_writes (inst : Struct) : Prop :=
  ro (data inst) = false /\ writable (buf (data inst)) = true.

(** The buffer of the instance has the [n] bytes that start at [pos]. *)
Definition holds (inst : Struct) (pos n : Z) : Prop :=
  0 <= pos /\ pos + n <= Z.of_nat (length (bytes (buf (data inst)))).

(** The instance with the bytes of its buffer replaced. *)
Definition with_bytes (inst : Struct) (l : list Z) : Struct :=
  mk_Struct (mk_Data (mk_Buffer (writable (buf (data inst))) l) (ro (data inst)))
            (fields_data inst).

(** The position of the byte of weight [256^i] among the [n] bytes of an
    integer. *)
Definition byte_index (e : Endianess) (n i : nat) : nat :=
  match e with
  | LITTLE => i
  | BIG | NETWORK => (n - 1 - i)%nat
  end.


(** The bitwise OR of the raw integers of the entries of a decoded list. *)
Definition raw_or (l : list pyval) : Z :=
  foldl (fun m x => Z.lor m (default 0 (entry_raw x))) 0 l.

(** Every entry of a table stands under its own [value]. *)
Definition entries_keyed (d : dict) : Prop :=
  Forall (fun kv => v_value (snd kv) = fst kv) d.

(** The status that the wrapped [initialize] leaves for a field. *)
Definition status_after (old : option fdata) : FieldInitStatus :=
  match old with
  | Some (DStatus INIT) => INIT
  | _ => OK
  end.

(** The offset [Data.map_array] has reached after [i] structures of size
    [sz], starting from [o]. *)
Fixpoint array_offset (sz o : _Offset) (i : nat) : _Offset :=
  match i with
  | O => o
  | S k => array_offset sz (offset.__add__ o (OpOffset sz)) k
  end.

(** The registry of a [Data] on which nothing is mapped, and the simplest
    structures to map: one that is its own offset, with a [_setup] that
    does nothing. *)
Definition unmapped_data : MappedData _Offset :=
  mk_MappedData (Data___init__ (mk_Buffer true [0; 0; 0; 0]) false) ∅.

Definition offset_struct (o : _Offset) : _Offset := o.

Definition no_setup (s : _Offset) : M (MappedData _Offset) unit := ret_M tt.

(** * Properties *)

Create HintDb srddl.

Section OffsetFacts.

Import offset.

Lemma shiftr3_div (z : Z) : Z.shiftr z 3 = z / 8.
Proof. now rewrite Z.shiftr_div_pow2 by lia. Qed.

Lemma land7_mod (z : Z) : Z.land z 7 = z mod 8.
Proof. change 7 with (Z.ones 3). now rewrite Z.land_ones by lia. Qed.

Lemma init_normalized c a t : normalized (__init__ c a t).
Proof.
  unfold normalized, __init__.
  destruct a as [n | o | v]; simpl; apply Z.mod_pos_bound; lia.
Qed.

Lemma new_bits c b t : bits (new c b t) = 8 * b + t.
Proof.
  unfold bits, new, __init__; simpl.
  pose proof (Z.div_mod t 8). lia.
Qed.

Lemma add_bits self other :
  bits (__add__ self other) =
  bits self + match other with OpInt n => 8 * n | OpOffset o => bits o end.
Proof.
  destruct other as [n | o]; unfold __add__; rewrite new_bits.
  - unfold bits; lia.
  - rewrite shiftr3_div, land7_mod. unfold bits.
    pose proof (Z.div_mod (bit self + bit o) 8). lia.
Qed.

Lemma sub_bits self other :
  bits (__sub__ self other) =
  bits self - match other with OpInt n => 8 * n | OpOffset o => bits o end.
Proof.
  destruct other as [n | o]; unfold __sub__.
  - rewrite new_bits. unfold bits; lia.
  - destruct (bit self - bit o <? 0); rewrite new_bits; unfold bits; lia.
Qed.

Lemma add_normalized self other : normalized (__add__ self other).
Proof. destruct other; apply init_normalized. Qed.

Lemma sub_normalized self other : normalized (__sub__ self other).
Proof.
  destruct other as [n | o]; unfold __sub__; [apply init_normalized |].
  destruct (_ <? _); apply init_normalized.
Qed.

(** Two normalized objects with the same number of bits have the same
    attributes. *)
Lemma normalized_bits_inj a b :
  normalized a -> normalized b -> bits a = bits b ->
  byte a = byte b /\ bit a = bit b.
Proof. unfold normalized, bits. lia. Qed.

Lemma eq_of_bits a b :
  normalized a -> normalized b -> bits a = bits b ->
  __eq__ a (OpOffset b) = true.
Proof.
  intros Ha Hb Hab.
  destruct (normalized_bits_inj a b Ha Hb Hab) as [Hbyte Hbit].
  unfold __eq__. rewrite Hbyte, Hbit. now rewrite !Z.eqb_refl.
Qed.

(** Adding and then subtracting the same operand gives back an equal
    object, from any constructed starting point. *)
Lemma add_sub_cancel self d :
  normalized self ->
  __eq__ (__sub__ (__add__ self d) d) (OpOffset self) = true.
Proof.
  intros Hn. apply eq_of_bits; [apply sub_normalized | exact Hn |].
  rewrite sub_bits, add_bits. lia.
Qed.

End OffsetFacts.

(** C5. For every (byte, bit) with bit in [0,8), every class (Offset or
    Size) and every delta (a plain integer or an Offset/Size object),
    [(Offset(byte,bit) + delta) - delta == Offset(byte,bit)]; and the bit
    attribute of the result of every construction, addition ([+], reflected
    [+]) and subtraction ([-], reflected [-]) lies in [0,8). *)
Theorem offset_add_sub_roundtrip_and_bit_range
    (c : offset_class) (b t : Z) (delta : operand) :
  0 <= t < 8 ->
  offset.__eq__ (offset.__sub__ (offset.__add__ (offset.new c b t) delta) delta)
                (OpOffset (offset.new c b t)) = true
  /\ byte (offset.new c b t) = b /\ bit (offset.new c b t) = t
  /\ (forall (c' : offset_class) (a : byte_arg) (t' : Z),
        0 <= bit (offset.__init__ c' a t') < 8)
  /\ (forall (self : _Offset) (other : operand),
        0 <= bit (offset.__add__ self other) < 8
        /\ 0 <= bit (offset.__sub__ self other) < 8)
  /\ (forall (self : _Offset) (n : Z),
        0 <= bit (offset.__radd__ self n) < 8
        /\ 0 <= bit (offset.__rsub__ self n) < 8).
Proof.
  intros Ht. split; [| split; [| split; [| split; [| split]]]].
  - apply add_sub_cancel, init_normalized.
  - unfold offset.new, offset.__init__; simpl.
    rewrite Z.div_small by lia. lia.
  - unfold offset.new, offset.__init__; simpl. now apply Z.mod_small.
  - intros. apply init_normalized.
  - intros. split; [apply add_normalized | apply sub_normalized].
  - intros. split; [apply add_normalized | apply init_normalized].
Qed.

Lemma offset_add_sub_roundtrip_witness :
  offset.__eq__
    (offset.__sub__ (offset.__add__ (offset.new Offset 3 5) (OpOffset (Size_bit 13)))
                    (OpOffset (Size_bit 13)))
    (OpOffset (offset.new Offset 3 5)) = true.
Proof.
  apply (offset_add_sub_roundtrip_and_bit_range Offset 3 5 (OpOffset (Size_bit 13))).
  lia.
Defined.

(** ** Bytes, buffers and the [struct] formats *)

Section Bytes.

Lemma le_bytes_length n v : length (le_bytes n v) = n.
Proof. revert v; induction n as [| n IH]; intros v; simpl; [| rewrite IH]; reflexivity. Qed.

Lemma le_int_le_bytes n v : le_int (le_bytes n v) = v mod 2 ^ (8 * Z.of_nat n).
Proof.
  revert v; induction n as [| n IH]; intros v.
  - simpl. now rewrite Z.mod_1_r.
  - cbn [le_bytes le_int]. rewrite IH.
    replace (8 * Z.of_nat (S n)) with (8 + 8 * Z.of_nat n) by lia.
    rewrite Z.pow_add_r by lia. change (2 ^ 8) with 256.
    rewrite Z.rem_mul_r by lia. reflexivity.
Qed.

Lemma in_order_involutive o bs : in_order o (in_order o bs) = bs.
Proof. destruct o; simpl; auto using reverse_involutive. Qed.

Lemma in_order_length o bs : length (in_order o bs) = length bs.
Proof. destruct o; simpl; auto using length_reverse. Qed.

Lemma read_at_write_at pos (bs l : list Z) :
  (pos + length bs <= length l)%nat ->
  read_at pos (length bs) (write_at pos bs l) = bs.
Proof.
  intros Hle. unfold read_at, write_at.
  rewrite drop_app_length' by (rewrite length_take; lia).
  now rewrite take_app_length.
Qed.

Lemma write_at_length pos (bs l : list Z) :
  (pos + length bs <= length l)%nat ->
  length (write_at pos bs l) = length l.
Proof.
  intros Hle. unfold write_at.
  rewrite !length_app, length_take, length_drop. lia.
Qed.

(** What an integer item gives back once packed and unpacked. *)
Lemma unpack_pack_int o n sg v :
  int_range n sg v = true ->
  unpack_item o (CodeInt n sg) (in_order o (le_bytes n v)) = VInt v.
Proof.
  intros Hr. unfold unpack_item.
  rewrite in_order_involutive, le_int_le_bytes.
  f_equal. unfold int_range in Hr.
  destruct n as [| n].
  - change (8 * Z.of_nat 0) with 0 in *. change (0 - 1) with (-1) in *.
    change (2 ^ (-1)) with 0 in *. change (2 ^ 0) with 1 in *.
    rewrite Z.mod_1_r. destruct sg; simpl; lia.
  - set (w := 8 * Z.of_nat (S n)) in *.
    assert (Hw : 0 < w) by (unfold w; lia).
    assert (Hp : 2 ^ w = 2 * 2 ^ (w - 1)).
    { rewrite <- Z.pow_succ_r by lia. f_equal; lia. }
    assert (Hpos : 0 < 2 ^ (w - 1)) by (apply Z.pow_pos_nonneg; lia).
    destruct sg; simpl.
    + destruct (Z.ltb_spec v 0) as [Hneg | Hnn].
      * assert (Hm : v mod 2 ^ w = v + 2 ^ w).
        { symmetry. apply Z.mod_unique with (q := -1); lia. }
        rewrite Hm. destruct (Z.leb_spec (2 ^ (w - 1)) (v + 2 ^ w)); lia.
      * rewrite Z.mod_small by lia.
        destruct (Z.leb_spec (2 ^ (w - 1)) v); lia.
    + rewrite Z.mod_small by lia. reflexivity.
Qed.

Lemma resolve_offset_nonneg exc len size off :
  0 <= off -> off + Z.of_nat size <= Z.of_nat len ->
  resolve_offset exc len size off = Ok (Z.to_nat off).
Proof.
  intros H0 H1. unfold resolve_offset.
  destruct (Z.ltb_spec off 0); [lia |].
  destruct (Z.ltb_spec off 0); [lia |].
  destruct (Z.ltb_spec (Z.of_nat len - off) (Z.of_nat size)); [lia |].
  reflexivity.
Qed.

Lemma too_long_holds len c off :
  0 <= off -> off + Z.of_nat (code_size c) <= Z.of_nat len ->
  too_long len c = false.
Proof.
  intros H0 H1. unfold too_long.
  destruct (Z.ltb_spec (Z.of_nat len) (Z.of_nat (code_size c))); [lia |].
  apply andb_false_r.
Qed.

Lemma too_long_fits len c :
  fits_ssize_t (Z.of_nat (code_size c)) = true -> too_long len c = false.
Proof. intros H. unfold too_long. now rewrite H. Qed.

Lemma fits_ssize_t_spec n : fits_ssize_t n = true <-> - 2 ^ 63 <= n < 2 ^ 63.
Proof. unfold fits_ssize_t. rewrite andb_true_iff, Z.leb_le, Z.ltb_lt. reflexivity. Qed.

(** On a list of bytes as short as a buffer is, the two tests are those
    of the C code in its order: the size of the format when it is
    compiled, then the conversion of the offset, then the bounds. *)
Lemma too_long_format_first len c :
  Z.of_nat len < 2 ^ 63 ->
  too_long len c = negb (fits_ssize_t (Z.of_nat (code_size c))).
Proof.
  intros Hlen. unfold too_long.
  destruct (fits_ssize_t (Z.of_nat (code_size c))) eqn:Hf; [reflexivity |].
  simpl. apply Z.ltb_lt.
  destruct (Z.lt_ge_cases (Z.of_nat len) (Z.of_nat (code_size c))) as [H | H];
    [exact H |].
  assert (fits_ssize_t (Z.of_nat (code_size c)) = true)
    by (apply fits_ssize_t_spec; lia).
  congruence.
Qed.

Lemma resolve_offset_fits_first exc len size off :
  Z.of_nat len < 2 ^ 63 ->
  resolve_offset exc len size off
  = if fits_ssize_t off then resolve_offset struct_error len size off else Raise exc.
Proof.
  intros Hlen. unfold resolve_offset.
  destruct (fits_ssize_t off) eqn:Hf; [reflexivity |].
  assert (Hout : ~ (- 2 ^ 63 <= off < 2 ^ 63))
    by (rewrite <- fits_ssize_t_spec; congruence).
  destruct (Z.ltb_spec off 0).
  - destruct (Z.ltb_spec (off + Z.of_nat len) 0); [reflexivity | lia].
  - destruct (Z.ltb_spec off 0); [lia |].
    destruct (Z.ltb_spec (Z.of_nat len - off) (Z.of_nat size)); [reflexivity | lia].
Qed.

(** Packing an in-range integer into a writable buffer succeeds, keeps
    the length of the buffer, and unpacking at the same place with the
    same format gives the integer back. *)
Lemma struct_pack_unpack_int frmt o n sg b off v :
  struct_parse frmt = Ok (o, CodeInt n sg) ->
  writable b = true ->
  0 <= off -> off + Z.of_nat n <= Z.of_nat (length (bytes b)) ->
  int_range n sg v = true ->
  exists b',
    struct_pack_into frmt b (VInt off) [VInt v] = (Ok tt, b')
    /\ length (bytes b') = length (bytes b)
    /\ writable b' = true
    /\ struct_unpack_from frmt b' (VInt off) = Ok [VInt v].
Proof.
  intros Hp Hw H0 H1 Hr.
  set (bs := in_order o (le_bytes n v)).
  assert (Hlen : length bs = n)
    by (unfold bs; now rewrite in_order_length, le_bytes_length).
  exists (mk_Buffer true (write_at (Z.to_nat off) bs (bytes b))).
  assert (Hwl : length (write_at (Z.to_nat off) bs (bytes b)) = length (bytes b))
    by (apply write_at_length; lia).
  repeat split.
  - unfold struct_pack_into. rewrite Hp.
    rewrite (too_long_holds _ _ off) by (simpl; lia). rewrite Hw; simpl.
    rewrite resolve_offset_nonneg by (simpl; lia). simpl.
    rewrite Hr. reflexivity.
  - exact Hwl.
  - unfold struct_unpack_from. rewrite Hp; simpl.
    rewrite Hwl, (too_long_holds _ _ off) by (simpl; lia).
    simpl. rewrite resolve_offset_nonneg by (simpl; lia). simpl.
    assert (Hrd : read_at (Z.to_nat off) n
                    (write_at (Z.to_nat off) bs (bytes b)) = bs)
      by (rewrite <- Hlen at 1; apply read_at_write_at; lia).
    rewrite Hrd. unfold bs.
    change (Ok [unpack_item o (CodeInt n sg) (in_order o (le_bytes n v))]
            = Ok [VInt v]).
    now rewrite unpack_pack_int.
Qed.

End Bytes.

(** ** [Data]: the writability probe and writes to a read-only buffer *)

(** The constructor keeps the buffer as it is, and the flag it stores is
    the caller's only when the probe write went through. *)
Lemma Data___init___spec (b : Buffer) (ro_ : bool) :
  Data___init__ b ro_ =
  mk_Data b (if writable b && negb (Nat.eqb (length (bytes b)) 0) then ro_ else true).
Proof.
  unfold Data___init__, buf_getitem.
  destruct b as [w l]; destruct l as [| x l]; simpl.
  - now rewrite andb_false_r.
  - unfold buf_setitem; simpl. destruct w; reflexivity.
Qed.

Lemma pack_into_ro (d : Data) frmt off args :
  ro d = true -> Data_pack_into frmt off args d = (Raise (Exception "fu"), d).
Proof. intros Hro. unfold Data_pack_into. now rewrite Hro. Qed.

Section StatePassing.

Context {S A B : Type}.
Implicit Types (m : M S A) (k : A -> M S B) (P : S -> Prop).

Lemma stateless_ret (a : A) : stateless (@ret_M S A a).
Proof. intros s; reflexivity. Qed.

Lemma stateless_raise (e : exn) : stateless (@raise_M S A e).
Proof. intros s; reflexivity. Qed.

Lemma stateless_lift (r : result A) : stateless (@lift_M S A r).
Proof. intros s; reflexivity. Qed.

Lemma stateless_bind m k :
  stateless m -> (forall a, stateless (k a)) -> stateless (bind_M m k).
Proof.
  intros Hm Hk s. unfold bind_M. specialize (Hm s).
  destruct (m s) as [[a | e] s']; simpl in *; subst; [apply Hk | reflexivity].
Qed.

Lemma raises_when_raise P (e : exn) : raises_when P (@raise_M S A e).
Proof. intros s _. now exists e. Qed.

Lemma raises_when_bind P m k :
  stateless m -> (forall a, raises_when P (k a)) -> raises_when P (bind_M m k).
Proof.
  intros Hm Hk s HP. unfold bind_M. specialize (Hm s).
  destruct (m s) as [[a | e] s']; simpl in *; subst; [now apply Hk | now exists e].
Qed.

End StatePassing.

Lemma stateless__get_data f name : stateless (_get_data f name).
Proof. intros s. unfold _get_data. now destruct (_ !! _). Qed.

Lemma stateless_BoundValue__size bv : stateless (BoundValue__size bv).
Proof.
  intros s. unfold BoundValue__size.
  destruct (bv_class bv); try reflexivity. now destruct (negb _).
Qed.

Lemma stateless_getitem_size x : stateless (getitem_size x).
Proof.
  destruct x; [apply stateless_raise | apply stateless_BoundValue__size].
Qed.

Lemma stateless_unpack_from frmt off :
  stateless (with_data (Data_unpack_from frmt off)).
Proof. intros [d fd]; reflexivity. Qed.

Lemma raises_when_pack_into frmt off args :
  raises_when (fun s => ro (data s) = true) (with_data (Data_pack_into frmt off args)).
Proof.
  intros [d fd] Hro; simpl in Hro. unfold with_data; simpl.
  rewrite pack_into_ro by exact Hro. now exists (Exception "fu").
Qed.

#[export] Hint Resolve stateless_ret stateless_raise stateless_lift
  stateless__get_data stateless_BoundValue__size stateless_getitem_size
  stateless_unpack_from raises_when_raise raises_when_pack_into : srddl.

Ltac step_M :=
  repeat first
    [ apply stateless_bind; [| intros ?]
    | apply raises_when_bind; [| intros ?]
    | solve [unfold AbstractField___get__; eauto with srddl] ].

(** Decoding reads the instance and leaves it as it is. *)
Lemma stateless_Field_decode f off : stateless (Field_decode f off).
Proof.
  unfold Field_decode, BitMaskField_decode, IntField_decode,
    ByteArrayField_decode, BitField_decode.
  destruct (klass f); step_M.
Qed.

(** No encode changes a read-only instance, and none returns. *)
Lemma Field_encode_ro (f : Field) (off : _Offset) (v : pyval) (inst : Struct) :
  ro (data inst) = true ->
  exists e, Field_encode f off v inst = (Raise e, inst).
Proof.
  revert inst.
  change (raises_when (fun s => ro (data s) = true) (Field_encode f off v)).
  unfold Field_encode, IntField_encode, ByteArrayField_encode, BitField_encode.
  destruct (klass f); step_M.
Qed.

(** C10. A buffer without item assignment makes [Data(buf, ro)] read-only
    whatever [ro] the caller passed: the probe write of the first byte to
    itself raises, the stored flag is [True], the buffer is kept as given,
    and every later [pack_into] raises and changes nothing. In general the
    stored flag is the caller's exactly when the probe went through, that
    is for a non-empty buffer with item assignment. *)
Theorem Data_init_unwritable_buffer_is_read_only (b : Buffer) (ro_ : bool) :
  writable b = false ->
  (exists e, (x ← buf_getitem b 0; buf_setitem b 0 x) = Raise e)
  /\ Data___init__ b ro_ = mk_Data b true
  /\ (forall frmt off args,
        Data_pack_into frmt off args (Data___init__ b ro_)
        = (Raise (Exception "fu"), Data___init__ b ro_))
  /\ (forall (b' : Buffer) (r : bool),
        Data___init__ b' r
        = mk_Data b' (if writable b' && negb (Nat.eqb (length (bytes b')) 0)
                      then r else true)).
Proof.
  intros Hw. split; [| split; [| split]].
  - unfold buf_getitem, buf_setitem. rewrite Hw.
    destruct (bytes b !! 0%nat); simpl; eauto.
  - rewrite Data___init___spec, Hw. reflexivity.
  - intros. apply pack_into_ro. rewrite Data___init___spec, Hw. reflexivity.
  - apply Data___init___spec.
Qed.

Lemma Data_init_unwritable_buffer_witness :
  Data___init__ (mk_Buffer false [104; 105]) false
  = mk_Data (mk_Buffer false [104; 105]) true.
Proof.
  apply (Data_init_unwritable_buffer_is_read_only (mk_Buffer false [104; 105]) false).
  reflexivity.
Defined.

(** C4, as the sources have it. A [pack_into] on a read-only [Data] raises
    the plain [Exception('fu')] and leaves the object, bytes included, as
    it was; and every field's [encode] on an instance whose data is
    read-only raises and leaves the instance as it was. *)
Theorem write_to_read_only_raises_and_keeps_bytes (d : Data) :
  ro d = true ->
  (forall frmt off args,
     Data_pack_into frmt off args d = (Raise (Exception "fu"), d))
  /\ (forall (fd : gmap (N * string) fdata) (f : Field) (off : _Offset) (v : pyval),
        exists e, Field_encode f off v (mk_Struct d fd) = (Raise e, mk_Struct d fd)).
Proof.
  intros Hro. split.
  - intros. now apply pack_into_ro.
  - intros. now apply Field_encode_ro.
Qed.

Lemma write_to_read_only_witness :
  Data_pack_into "<B" (VInt 0) [VInt 7] (mk_Data (mk_Buffer false [1; 2]) true)
  = (Raise (Exception "fu"), mk_Data (mk_Buffer false [1; 2]) true).
Proof.
  apply (write_to_read_only_raises_and_keeps_bytes
           (mk_Data (mk_Buffer false [1; 2]) true)).
  reflexivity.
Defined.

(** C4 as stated fails: the exception of a write to a read-only buffer is
    not a [ReadOnlyError]. *)
Lemma write_to_read_only_is_not_ReadOnlyError :
  fst (Data_pack_into "<B" (VInt 0) [VInt 7] (mk_Data (mk_Buffer false [1; 2]) true))
  <> Raise ReadOnlyError.
Proof. vm_compute. discriminate. Qed.

(** ** [IntField]: encode, then read the value *)

Lemma in_values_Size (n : Z) :
  in_values n IntField_Size_values = true -> n = 1 \/ n = 2 \/ n = 4 \/ n = 8.
Proof.
  unfold in_values, IntField_Size_values; simpl. intros H.
  repeat match type of H with
         | context [n =? ?c] => destruct (Z.eqb_spec n c); [lia |]
         end.
  discriminate H.
Qed.

Lemma dict_lookup_set (d : dict) (k k' : Z) (v : Value) :
  dict_lookup (dict_set d k v) k' = if k =? k' then Some v else dict_lookup d k'.
Proof.
  induction d as [| [k0 v0] d IH]; simpl.
  - reflexivity.
  - destruct (Z.eqb_spec k0 k) as [-> | Hne]; simpl.
    + now destruct (k =? k').
    + destruct (Z.eqb_spec k0 k') as [-> | Hne'].
      * destruct (Z.eqb_spec k k'); [congruence | reflexivity].
      * exact IH.
Qed.

Lemma keyed_by_value_foldl (values : list Value) (d : dict) :
  keyed_by_value d ->
  keyed_by_value (foldl (fun d it => dict_set d (v_value it) it) d values).
Proof.
  revert d; induction values as [| it values IH]; intros d Hd; simpl; [exact Hd |].
  apply IH. intros k it'. rewrite dict_lookup_set.
  destruct (Z.eqb_spec (v_value it) k); [congruence | apply Hd].
Qed.

Lemma IntField___init___inv c id_ size base signed endianess values f :
  IntField___init__ c id_ size base signed endianess values = Ok f ->
  klass f = c /\ field_id f = id_ /\ _size f = size /\ _signed f = signed
  /\ _endianess f = endianess
  /\ (size = 1 \/ size = 2 \/ size = 4 \/ size = 8)
  /\ keyed_by_value (_values f).
Proof.
  unfold IntField___init__. intros H.
  destruct (in_values size IntField_Size_values) eqn:Hs; [| discriminate].
  inversion H; subst; clear H. simpl. repeat split; auto using in_values_Size.
  apply keyed_by_value_foldl. intros k it; discriminate.
Qed.

(** The format a well-configured integer field computes, and how the
    [struct] module reads it. *)
Lemma IntField__sig_parse (f : Field) :
  _size f = 1 \/ _size f = 2 \/ _size f = 4 \/ _size f = 8 ->
  exists sig,
    IntField__sig f (VOffset (Size_byte (_size f))) = Ok sig
    /\ struct_parse sig
       = Ok (order_of (_endianess f), CodeInt (Z.to_nat (_size f)) (_signed f)).
Proof.
  destruct f as [c i sz b sg e vs]; simpl.
  intros [-> | [-> | [-> | ->]]]; destruct e, sg; eexists; split; reflexivity.
Qed.

Lemma representable_int_range (size : Z) (signed : bool) (v : Z) :
  0 <= size -> representable size signed v ->
  int_range (Z.to_nat size) signed v = true.
Proof.
  intros Hs. unfold representable, int_range. rewrite Z2Nat.id by exact Hs.
  destruct signed; intros H; apply andb_true_intro; split;
    first [apply Z.leb_le | apply Z.ltb_lt]; lia.
Qed.

(** The size a registered bound value of an integer or byte-array field
    reports. *)
Lemma getitem_size_plain (bv : BoundValue) (inst : Struct) :
  bv_class bv <> BitFieldBoundValue_cls ->
  getitem_size (DBoundValue bv) inst
  = (Ok (VOffset (Size_byte (_size (bv_field bv)))), inst).
Proof.
  intros Hc. unfold getitem_size, BoundValue__size, reference_value.
  destruct (bv_class bv); congruence.
Qed.

(** ** [BoundValue]: the comparison operators *)

(** C9. When two bound values decode to the integers [va] and [vb], each
    of [==], [<], [<=], [>] and [>=] between them returns what the same
    comparison of [va] and [vb] gives, and leaves the instance as it is;
    the operators therefore order bound values as the integers they hold. *)
Theorem BoundValue_comparisons_follow_values
    (a b : BoundValue) (inst : Struct) (va vb : Z) :
  BoundValue_getitem_value a inst = (Ok (VInt va), inst) ->
  BoundValue_getitem_value b inst = (Ok (VInt vb), inst) ->
  BoundValue___eq__ a (CmpBoundValue b) inst = (Ok (va =? vb), inst)
  /\ BoundValue___lt__ a (CmpBoundValue b) inst = (Ok (va <? vb), inst)
  /\ BoundValue___le__ a (CmpBoundValue b) inst = (Ok (va <=? vb), inst)
  /\ BoundValue___gt__ a (CmpBoundValue b) inst = (Ok (va >? vb), inst)
  /\ BoundValue___ge__ a (CmpBoundValue b) inst = (Ok (va >=? vb), inst).
Proof.
  intros Ha Hb.
  assert (Heq : BoundValue___eq__ a (CmpBoundValue b) inst = (Ok (va =? vb), inst)).
  { unfold BoundValue___eq__, bind_M. now rewrite Ha, Hb. }
  assert (Hlt : BoundValue___lt__ a (CmpBoundValue b) inst = (Ok (va <? vb), inst)).
  { unfold BoundValue___lt__, BoundValue_getattr_value, bind_M. now rewrite Ha, Hb. }
  repeat split; try assumption.
  - unfold BoundValue___le__, bind_M. rewrite Hlt.
    destruct (Z.ltb_spec va vb).
    + unfold ret_M. do 2 f_equal. symmetry. apply Z.leb_le. lia.
    + rewrite Heq. do 2 f_equal.
      destruct (Z.eqb_spec va vb), (Z.leb_spec va vb); auto; lia.
  - unfold BoundValue___gt__, bind_M. rewrite Hlt.
    destruct (Z.ltb_spec va vb).
    + unfold ret_M. do 2 f_equal. rewrite Z.gtb_ltb. symmetry. apply Z.ltb_ge. lia.
    + rewrite Heq. unfold ret_M. do 2 f_equal. rewrite Z.gtb_ltb.
      destruct (Z.eqb_spec va vb), (Z.ltb_spec vb va); auto; lia.
  - unfold BoundValue___ge__, bind_M. rewrite Hlt. unfold ret_M. do 2 f_equal.
    rewrite Z.geb_leb. destruct (Z.ltb_spec va vb), (Z.leb_spec vb va); auto; lia.
Qed.

Lemma BoundValue_comparisons_witness :
  BoundValue___lt__ sample_int_bv (CmpBoundValue sample_int_bv2) encoded_instance
  = (Ok true, encoded_instance)
  /\ BoundValue___ge__ sample_int_bv (CmpBoundValue sample_int_bv2) encoded_instance
     = (Ok false, encoded_instance).
Proof.
  destruct (BoundValue_comparisons_follow_values
              sample_int_bv sample_int_bv2 encoded_instance 258 512)
    as (_ & Hlt & _ & _ & Hge); [reflexivity | reflexivity |].
  split; [exact Hlt | exact Hge].
Defined.

(** ** [BitMaskField]: the decoded flags *)

Lemma bitmask_scan_closed (items : dict) (n : Z) (res : list pyval) (mask : Z) :
  bitmask_scan items n res mask
  = (res ++ named (sharing_bits items n), or_values mask (sharing_bits items n)).
Proof.
  revert res mask; induction items as [| [k v] items IH]; intros res mask; simpl.
  - now rewrite app_nil_r.
  - destruct (negb (Z.land k n =? 0)); simpl.
    + rewrite IH. now rewrite <- app_assoc.
    + apply IH.
Qed.

Lemma bitmask_of_int (values : dict) (n : Z) :
  bitmask_of values (VInt n) = Ok (VList (flags_of values n)).
Proof.
  unfold bitmask_of, flags_of; simpl.
  rewrite bitmask_scan_closed; simpl.
  destruct (or_values 0 (sharing_bits values n) =? n); simpl.
  - now rewrite app_nil_r.
  - reflexivity.
Qed.

Lemma lxor_of_subset (n m : Z) :
  Z.land m n = m -> Z.lxor n m = Z.land n (Z.lnot m).
Proof.
  intros Hsub. apply Z.bits_inj'. intros i Hi.
  rewrite Z.lxor_spec, Z.land_spec, Z.lnot_spec by exact Hi.
  rewrite <- Hsub at 1. rewrite <- Hsub at 2. rewrite Z.land_spec.
  destruct (Z.testbit m i), (Z.testbit n i); reflexivity.
Qed.

Lemma or_values_subset (n : Z) (items : dict) (mask : Z) :
  Z.land mask n = mask ->
  Forall (fun kv => Z.land (fst kv) n = fst kv) items ->
  Z.land (or_values mask items) n = or_values mask items.
Proof.
  revert mask; induction items as [| [k v] items IH]; intros mask Hm Hall; simpl.
  - exact Hm.
  - inversion Hall as [| ? ? Hk Hrest]; subst; simpl in Hk.
    apply IH; [| exact Hrest].
    now rewrite Z.land_lor_distr_l, Hm, Hk.
Qed.

(** Where every entry that shares a bit with [n] lies within [n], the
    entries the loop keeps are the non-zero subsets of [n]. *)
Lemma sharing_bits_subset_flags (values : dict) (n : Z) :
  Forall (fun kv => Z.land (fst kv) n = 0 \/ Z.land (fst kv) n = fst kv) values ->
  sharing_bits values n = subset_flags values n.
Proof.
  intros Hall. unfold sharing_bits, subset_flags.
  apply List.filter_ext_in. intros [k v] Hin; simpl.
  rewrite List.Forall_forall in Hall. specialize (Hall _ Hin); simpl in Hall.
  destruct (Z.eqb_spec (Z.land k n) 0) as [H0 | H0]; simpl.
  - destruct (Z.eqb_spec k 0) as [-> | Hk]; simpl; [reflexivity |].
    destruct (Z.eqb_spec (Z.land k n) k); [congruence | reflexivity].
  - destruct Hall as [Hz | Hs]; [contradiction |].
    destruct (Z.eqb_spec k 0) as [-> | Hk]; simpl.
    + now rewrite Z.land_0_l in H0.
    + destruct (Z.eqb_spec (Z.land k n) k); [reflexivity | contradiction].
Qed.

Lemma subset_flags_within (values : dict) (n : Z) :
  Forall (fun kv => Z.land (fst kv) n = fst kv) (subset_flags values n).
Proof.
  unfold subset_flags. apply List.Forall_forall. intros [k v] Hin.
  apply List.filter_In in Hin as [_ Hp]; simpl in *.
  apply andb_prop in Hp as [_ Hp]. now apply Z.eqb_eq.
Qed.

(** Under the same condition, and for a non-zero [n], the code returns
    the list the design describes. *)
Lemma flags_of_matches_spec (values : dict) (n : Z) :
  n <> 0 ->
  Forall (fun kv => Z.land (fst kv) n = 0 \/ Z.land (fst kv) n = fst kv) values ->
  flags_of values n = BitMaskField_decode_spec values n.
Proof.
  intros Hn Hall. unfold flags_of, BitMaskField_decode_spec.
  rewrite (sharing_bits_subset_flags values n Hall).
  set (inc := subset_flags values n).
  assert (Hsub : Z.land (or_values 0 inc) n = or_values 0 inc).
  { apply or_values_subset; [apply Z.land_0_l | apply subset_flags_within]. }
  set (mask := or_values 0 inc) in *.
  rewrite <- (lxor_of_subset n mask Hsub).
  destruct (Z.eqb_spec mask n) as [Heq | Hne].
  - rewrite Heq, Z.lxor_nilpotent; simpl. rewrite app_nil_r.
    destruct inc as [| kv inc'] eqn:Hinc; [| reflexivity].
    unfold mask in Heq; simpl in Heq. congruence.
  - destruct (Z.eqb_spec (Z.lxor n mask) 0) as [Hx | Hx].
    + apply Z.lxor_eq in Hx. congruence.
    + now destruct (named inc).
Qed.

(** Two disjoint flags listed in the table, no other entry sharing a bit
    with their OR: the loop keeps exactly the two, and there is no
    leftover. *)
Lemma flags_of_two_disjoint (pre mid post : dict) (a b : Z) (va vb : Value) :
  a <> 0 -> b <> 0 -> Z.land a b = 0 ->
  Forall (fun kv => Z.land (fst kv) (Z.lor a b) = 0) (pre ++ mid ++ post) ->
  flags_of (pre ++ (a, va) :: mid ++ (b, vb) :: post) (Z.lor a b)
  = [VValue va; VValue vb].
Proof.
  intros Ha Hb Hab Hall.
  assert (Hnone : forall l : dict,
             Forall (fun kv => Z.land (fst kv) (Z.lor a b) = 0) l ->
             sharing_bits l (Z.lor a b) = []).
  { intros l Hl. unfold sharing_bits.
    induction Hl as [| [k v] l Hk _ IH]; simpl in *; [reflexivity |].
    now rewrite Hk. }
  apply Forall_app in Hall as [Hpre Hall]. apply Forall_app in Hall as [Hmid Hpost].
  assert (Haa : Z.land a (Z.lor a b) = a).
  { rewrite Z.land_lor_distr_r, Z.land_diag, Hab. apply Z.lor_0_r. }
  assert (Hbb : Z.land b (Z.lor a b) = b).
  { rewrite Z.land_lor_distr_r, Z.land_diag, (Z.land_comm b a), Hab. apply Z.lor_0_l. }
  assert (Hs : sharing_bits (pre ++ (a, va) :: mid ++ (b, vb) :: post) (Z.lor a b)
               = [(a, va); (b, vb)]).
  { unfold sharing_bits. rewrite List.filter_app. simpl. rewrite List.filter_app. simpl.
    fold (sharing_bits pre (Z.lor a b)) (sharing_bits mid (Z.lor a b))
         (sharing_bits post (Z.lor a b)).
    rewrite (Hnone pre Hpre), (Hnone mid Hmid), (Hnone post Hpost), Haa, Hbb.
    destruct (Z.eqb_spec a 0); [contradiction |].
    destruct (Z.eqb_spec b 0); [contradiction |]. reflexivity. }
  unfold flags_of. rewrite Hs. simpl. now rewrite Z.eqb_refl.
Qed.

(** C3, as the sources have it. When the integer read by [IntField.decode]
    is itself a key of the table, [BitMaskField.decode] returns that entry
    alone. Otherwise, for the plain integer [n], it returns the entries
    that share a bit with [n] ([entry & n] non-zero) in table order, then
    [n ^ mask] if the OR [mask] of their raw values differs from [n], and
    the one-element list of [n] if that leaves nothing. For [n] non-zero
    and a table whose entries sharing a bit with [n] all lie within [n],
    this is the list of the non-zero subsets of [n] followed by the
    uncovered bits, if any; and for [n] the OR of two disjoint non-zero
    flags of the table, no other entry sharing a bit with [n], it is
    exactly those two entries. *)
Theorem BitMaskField_decode_flags
    (f : Field) (off : _Offset) (inst inst' : Struct) (nb : pyval) :
  IntField_decode f off inst = (Ok nb, inst') ->
  (forall v, nb = VValue v ->
     BitMaskField_decode f off inst = (Ok (VList [VValue v]), inst'))
  /\ (forall n, nb = VInt n ->
        BitMaskField_decode f off inst = (Ok (VList (flags_of (_values f) n)), inst')
        /\ (n <> 0 ->
            Forall (fun kv => Z.land (fst kv) n = 0 \/ Z.land (fst kv) n = fst kv)
                   (_values f) ->
            flags_of (_values f) n = BitMaskField_decode_spec (_values f) n)
        /\ (forall pre mid post a b va vb,
              _values f = pre ++ (a, va) :: mid ++ (b, vb) :: post ->
              n = Z.lor a b -> a <> 0 -> b <> 0 -> Z.land a b = 0 ->
              Forall (fun kv => Z.land (fst kv) n = 0) (pre ++ mid ++ post) ->
              flags_of (_values f) n = [VValue va; VValue vb])).
Proof.
  intros Hdec. split.
  - intros v ->. unfold BitMaskField_decode, bind_M. now rewrite Hdec.
  - intros n ->. split; [| split].
    + unfold BitMaskField_decode, bind_M. rewrite Hdec.
      unfold lift_M. now rewrite bitmask_of_int.
    + apply flags_of_matches_spec.
    + intros pre mid post a b va vb -> -> Ha Hb Hab Hall.
      now apply flags_of_two_disjoint.
Qed.

Lemma BitMaskField_decode_flags_witness :
  BitMaskField_decode sample_mask_field (Offset_ 0 0)
                      (one_byte_instance sample_mask_field 3)
  = (Ok (VList [VValue (flag 1 "A"); VValue (flag 2 "B")]),
     one_byte_instance sample_mask_field 3).
Proof.
  destruct (BitMaskField_decode_flags sample_mask_field (Offset_ 0 0)
              (one_byte_instance sample_mask_field 3)
              (one_byte_instance sample_mask_field 3) (VInt 3) eq_refl)
    as [_ Hint].
  destruct (Hint 3 eq_refl) as (Hdec & _ & Htwo).
  rewrite Hdec.
  now rewrite (Htwo [] [] [(4, flag 4 "C")] 1 2 (flag 1 "A") (flag 2 "B")
                 eq_refl eq_refl ltac:(discriminate) ltac:(discriminate) eq_refl
                 ltac:(repeat constructor)).
Defined.

(** C3 as stated fails. With the single entry 3 and the byte 1, the entry
    is returned although 3 is no subset of 1, together with the number 2,
    where the design's list holds the number 1 alone; and with the entries
    1, 2 and 3 and the byte 3, the OR of the flags 1 and 2, only the entry
    3 comes back. *)
Lemma BitMaskField_decode_departs_from_subset_rule :
  fst (BitMaskField_decode wide_mask_field (Offset_ 0 0)
         (one_byte_instance wide_mask_field 1))
  = Ok (VList [VValue (flag 3 "AB"); VInt 2])
  /\ BitMaskField_decode_spec (_values wide_mask_field) 1 = [VInt 1]
  /\ fst (BitMaskField_decode combo_mask_field (Offset_ 0 0)
            (one_byte_instance combo_mask_field 3))
     = Ok (VList [VValue (flag 3 "AB")])
  /\ fst (BitMaskField_decode combo_mask_field (Offset_ 0 0)
            (one_byte_instance combo_mask_field 3))
     <> Ok (VList [VValue (flag 1 "A"); VValue (flag 2 "B")]).
Proof. vm_compute. repeat split; try reflexivity. discriminate. Qed.

(** ** The lifecycle status and the wrapped [__get__] *)

Lemma get_wrapper_in_progress (getter : Field -> M Struct (option fdata))
    (f : Field) (inst : Struct) :
  fields_data inst !! (field_id f, "status"%string) = Some (DStatus INIT) ->
  get_wrapper getter f inst = (Raise FieldNotReadyError, inst).
Proof.
  intros Hst. unfold get_wrapper, bind_M, _get_data. now rewrite Hst.
Qed.

Lemma get_wrapper_ready (getter : Field -> M Struct (option fdata))
    (f : Field) (inst inst' : Struct) (res : option fdata) :
  fields_data inst !! (field_id f, "status"%string) = Some (DStatus OK) ->
  getter f inst = (Ok res, inst') ->
  (res = None \/ exists bv, res = Some (DBoundValue bv)) ->
  get_wrapper getter f inst = (Ok res, inst').
Proof.
  intros Hst Hget Hres. unfold get_wrapper, bind_M, _get_data.
  rewrite Hst; simpl. rewrite Hget.
  destruct Hres as [-> | [bv ->]]; reflexivity.
Qed.

(** The status the wrapped [initialize] leaves: [OK], unless it found
    [INIT] on entry. Nothing else is written, no bound value either. *)
Lemma initialize_wrapper_fresh (init : Field -> _Offset -> M Struct pyval)
    (f : Field) (off : _Offset) (inst : Struct) :
  fields_data inst !! (field_id f, "status"%string) = None ->
  initialize_wrapper init f off inst
  = (Ok VNone,
     mk_Struct (data inst)
               (<[(field_id f, "status"%string) := DStatus OK]> (fields_data inst))).
Proof.
  intros Hst. unfold initialize_wrapper, bind_M, try_except, _get_data, _set_data.
  rewrite Hst; simpl. now rewrite insert_insert_eq.
Qed.

(** Without the wrapper the outcome is the same: the plain [__get__] of
    a field that was never initialized raises [NoFieldDataError]. *)
Lemma AbstractField___get___not_initialized (f : Field) (inst : Struct) :
  fields_data inst !! (field_id f, "boundvalue"%string) = None ->
  AbstractField___get__ f inst = (Raise NoFieldDataError, inst).
Proof.
  intros Hnone. unfold AbstractField___get__, _get_data. now rewrite Hnone.
Qed.

(** C6, at its failing input. A field whose status was never stored: the
    wrapped [__get__] raises [NoFieldDataError], not [FieldNotReadyError]. *)
Theorem get_wrapper_not_started_raises_NoFieldDataError
    (getter : Field -> M Struct (option fdata)) (f : Field) (inst : Struct) :
  fields_data inst !! (field_id f, "status"%string) = None ->
  get_wrapper getter f inst = (Raise NoFieldDataError, inst)
  /\ fst (get_wrapper getter f inst) <> Raise FieldNotReadyError.
Proof.
  intros Hst. unfold get_wrapper, bind_M, _get_data. rewrite Hst.
  split; [reflexivity | discriminate].
Qed.

Lemma get_wrapper_not_started_witness :
  get_wrapper plain___get__ sample_int_field fresh_instance
  = (Raise NoFieldDataError, fresh_instance).
Proof.
  apply (get_wrapper_not_started_raises_NoFieldDataError
           plain___get__ sample_int_field fresh_instance).
  reflexivity.
Defined.

(** ** [BitFieldBoundValue._size] beyond 64 bits *)

Lemma rounded_beyond_64 (o : _Offset) :
  cls o = Size -> offset.normalized o -> 64 < offset.bits o ->
  in_values (offset.rounded o) IntField_Size_values = false.
Proof.
  unfold offset.normalized, offset.bits, offset.rounded. intros -> Hn Hb.
  assert (9 <= byte o + (if bit o =? 0 then 0 else 1))
    by (destruct (Z.eqb_spec (bit o) 0); lia).
  unfold in_values, IntField_Size_values; simpl.
  repeat match goal with
         | |- context [?x =? ?c] => destruct (Z.eqb_spec x c); [lia |]
         end.
  reflexivity.
Qed.

(** C7, at its failing inputs. When the bit offset plus the width exceeds
    64, [BitFieldBoundValue._size] returns normally, and what it returns is
    an exception instance: nothing is raised. *)
Theorem BitFieldBoundValue__size_returns_the_error (bv : BoundValue) (inst : Struct) :
  bv_class bv = BitFieldBoundValue_cls ->
  64 < bit (bv_offset bv) + _size (bv_field bv) ->
  BoundValue__size bv inst
  = (Ok (VExc (BifFieldSizeError (Size_bit (_size (bv_field bv))))), inst).
Proof.
  intros Hc Hw. unfold BoundValue__size, reference_value. rewrite Hc.
  rewrite rounded_beyond_64; [reflexivity | reflexivity | apply add_normalized |].
  rewrite add_bits. unfold Size_bit. rewrite !new_bits.
  pose proof (Z.mod_pos_bound (bit (bv_offset bv)) 8). lia.
Qed.

Lemma BitFieldBoundValue__size_witness :
  BoundValue__size wide_bit_bv fresh_instance
  = (Ok (VExc (BifFieldSizeError (Size_bit 64))), fresh_instance).
Proof.
  apply (BitFieldBoundValue__size_returns_the_error wide_bit_bv fresh_instance);
    [reflexivity | vm_compute; reflexivity].
Defined.

(** ** [ByteArrayField.encode] *)



(** A [str] value gets through [ljust] and the slice, and is then refused
    by [struct.pack_into], whose ['s'] code takes [bytes]; the refusal
    leaves null bytes in the field, which is what this buffer held. *)
Example ByteArrayField_encode_str_raises_struct_error :
  ByteArrayField_encode sample_bytes_field (Offset_ 0 0) (VStr "hi")
                        sample_bytes_instance
  = (Raise struct_error, sample_bytes_instance).
Proof. reflexivity. Qed.

(** ** [BitField]: supported spans, decode and the write-back value *)

Lemma BitField__mask_ones (w : Z) :
  0 <= w -> BitField__mask (VOffset (Size_bit w)) = Ok (Z.ones w).
Proof.
  intros Hw. unfold BitField__mask, Size_bit, offset.new, offset.__init__; simpl.
  replace ((0 + w / 8) * 8 + w mod 8) with w by (pose proof (Z.div_mod w 8); lia).
  unfold py_lshift. destruct (Z.ltb_spec w 0); [lia |]. reflexivity.
Qed.

Lemma BitField_extract_bits (w : Z) (off : _Offset) (i : Z) :
  0 <= w -> 0 <= bit off ->
  BitField_extract (VOffset (Size_bit w)) off (VInt i)
  = Ok (VInt (Z.land (Z.shiftr i (bit off)) (Z.ones w))).
Proof.
  intros Hw Ho. unfold BitField_extract. rewrite BitField__mask_ones by exact Hw.
  simpl. unfold py_lshift, py_rshift.
  destruct (Z.ltb_spec (bit off) 0); [lia |]. simpl.
  rewrite Z.shiftr_land, Z.shiftr_shiftl_l, Z.sub_diag, Z.shiftl_0_r by exact Ho.
  reflexivity.
Qed.

(** The write-back value: it holds [v] in the span and the old bits
    elsewhere. *)
Lemma BitField_merge_bits (w : Z) (off : _Offset) (old v : Z) :
  0 <= w -> 0 <= bit off ->
  exists res,
    BitField_merge (VOffset (Size_bit w)) off (VInt old) (VInt v) = Ok res
    /\ Z.land (Z.shiftr res (bit off)) (Z.ones w) = v mod 2 ^ w
    /\ (forall j, j < bit off \/ bit off + w <= j -> Z.testbit res j = Z.testbit old j).
Proof.
  intros Hw Ho. set (o := bit off) in *.
  exists (Z.lor (Z.land old (Z.lnot (Z.shiftl (Z.ones w) o)))
                (Z.shiftl (Z.land v (Z.ones w)) o)).
  split; [| split].
  - unfold BitField_merge. rewrite BitField__mask_ones by exact Hw.
    simpl. unfold py_lshift. fold o.
    destruct (Z.ltb_spec o 0); [lia |]. reflexivity.
  - rewrite <- Z.land_ones by exact Hw.
    apply Z.bits_inj'. intros j Hj.
    rewrite !Z.land_spec, Z.shiftr_spec, Z.lor_spec, Z.land_spec, Z.lnot_spec,
      !Z.shiftl_spec, Z.land_spec by lia.
    replace (j + o - o) with j by lia.
    rewrite Z.testbit_ones_nonneg by lia.
    destruct (Z.ltb_spec j w); [| now rewrite !andb_false_r].
    rewrite andb_true_r. simpl. now rewrite andb_false_r.
  - intros j Hout.
    destruct (Z.neg_nonneg_cases j) as [Hneg | Hnn];
      [now rewrite !Z.testbit_neg_r by exact Hneg |].
    rewrite Z.lor_spec, Z.land_spec, Z.lnot_spec, !Z.shiftl_spec, Z.land_spec by lia.
    assert (Hones : Z.testbit (Z.ones w) (j - o) = false).
    { destruct Hout as [Hlo | Hhi].
      - apply Z.testbit_neg_r. lia.
      - apply Z.ones_spec_high. lia. }
    rewrite Hones. simpl. now rewrite andb_false_r, andb_true_r, orb_false_r.
Qed.

(** An integer that agrees with [old] on every bit from [k] on stays
    within [k] bits when [old] does. *)
Lemma high_bits_in_range (k old res : Z) :
  0 <= k ->
  0 <= old < 2 ^ k ->
  (forall j, k <= j -> Z.testbit res j = Z.testbit old j) ->
  0 <= res < 2 ^ k.
Proof.
  intros Hk0 Hold Hhigh.
  assert (Hres : res = res mod 2 ^ k).
  { rewrite <- Z.land_ones by exact Hk0.
    apply Z.bits_inj'. intros j Hj.
    rewrite Z.land_spec, Z.testbit_ones_nonneg by lia.
    destruct (Z.ltb_spec j k); [now rewrite andb_true_r |].
    rewrite andb_false_r, Hhigh by lia.
    rewrite <- (Z.mod_small old (2 ^ k)) by exact Hold.
    apply Z.mod_pow2_bits_high. lia. }
  rewrite Hres. apply Z.mod_pos_bound. apply Z.pow_pos_nonneg; lia.
Qed.

(** The size a registered [BitField] reports when its span is enclosed by
    1, 2, 4 or 8 bytes, and the format computed from it. *)
Lemma BitField_span_sig (w : Z) (off : _Offset) (N : Z) :
  0 <= bit off < 8 ->
  N = (w + bit off + 7) / 8 ->
  N = 1 \/ N = 2 \/ N = 4 \/ N = 8 ->
  offset.rounded (offset.__add__ (Size_bit w) (OpOffset (Size_bit (bit off)))) = N
  /\ exists sig,
       BitField_sig (VOffset (Size_bit w)) off = Ok sig
       /\ struct_parse sig = Ok (LittleEndian, CodeInt (Z.to_nat N) false).
Proof.
  intros Ho HN Hcases.
  set (total := offset.__add__ (Size_bit w) (OpOffset (Size_bit (bit off)))).
  assert (Hbits : offset.bits total = w + bit off).
  { unfold total. rewrite add_bits. unfold Size_bit. rewrite !new_bits. lia. }
  assert (Hnorm : offset.normalized total) by apply add_normalized.
  assert (Hcls : cls total = Size) by reflexivity.
  assert (Hr : offset.rounded total = N).
  { unfold offset.rounded. rewrite Hcls.
    unfold offset.bits in Hbits. unfold offset.normalized in Hnorm.
    subst N. destruct (Z.eqb_spec (bit total) 0).
    - apply Z.div_unique with (r := 7); lia.
    - apply Z.div_unique with (r := bit total - 1); lia. }
  split; [exact Hr |].
  unfold BitField_sig. fold total. simpl. rewrite Hr.
  destruct Hcases as [-> | [-> | [-> | ->]]]; eexists; split; reflexivity.
Qed.

(** [BitField.encode] never returns: the read of the old integer is given
    the method [offset.rounded] as its offset, so that, where nothing
    failed before, a [TypeError] ends the call with nothing written. *)
Lemma BitField_encode_always_raises (f : Field) (off : _Offset) (v : pyval)
    (inst : Struct) :
  exists e, BitField_encode f off v inst = (Raise e, inst).
Proof.
  revert inst.
  enough (H : raises_when (fun _ => True) (BitField_encode f off v))
    by (intros inst; now apply H).
  unfold BitField_encode.
  do 3 (apply raises_when_bind;
        [solve [unfold AbstractField___get__; eauto with srddl] | intros ?]).
  intros [d fd] _. unfold bind_M, with_data, Data_unpack_from, struct_unpack_from; simpl.
  destruct (struct_parse _) as [[o c] | e]; simpl; eauto.
  destruct (too_long _ _); simpl; eauto.
Qed.

Lemma BitField_sig_codes (size : pyval) (off : _Offset) (sig : string) :
  BitField_sig size off = Ok sig ->
  exists n, struct_parse sig = Ok (LittleEndian, CodeInt n false) /\ (n <= 8)%nat.
Proof.
  unfold BitField_sig. destruct size; try discriminate. simpl.
  unfold log2.
  repeat match goal with
         | |- context [?x =? ?y] => destruct (x =? y)
         end; simpl; try discriminate;
    intros H; inversion H; subst; eexists; (split; [reflexivity | lia]).
Qed.

(** C2, at its failing inputs. [BitField.encode] hands [offset.rounded],
    the method itself and not what it returns, to the read of the old
    integer; [decode] and the write at the end of [encode] call it.
    Whatever the field, the offset, the value and the instance, [encode]
    therefore raises and leaves the instance as it was: nothing is ever
    written, and no [encode] is followed by a [decode] of its value.
    Whenever the size and the format were found, what the read raises is
    [TypeError]. *)
Theorem BitField_encode_never_writes
    (f : Field) (off : _Offset) (v : pyval) (inst : Struct) :
  (exists e, BitField_encode f off v inst = (Raise e, inst))
  /\ (forall size sig,
        BitField_sig size off = Ok sig ->
        with_data (Data_unpack_from sig VMethod) inst = (Raise TypeError, inst)).
Proof.
  split; [apply BitField_encode_always_raises |].
  intros size sig Hsig.
  destruct (BitField_sig_codes size off sig Hsig) as (n & Hparse & Hn).
  unfold with_data, Data_unpack_from, struct_unpack_from. rewrite Hparse. simpl.
  rewrite too_long_fits by (apply fits_ssize_t_spec; simpl; lia).
  destruct inst as [[b r] fd]; reflexivity.
Qed.

Lemma BitField_encode_never_writes_witness :
  BitField_encode sample_bit3_field (Offset_ 0 6) (VInt 5) sample_bit3_instance
  = (Raise TypeError, sample_bit3_instance)
  /\ BitField_decode sample_bit3_field (Offset_ 0 6) sample_bit3_instance
     = (Ok (VInt 7), sample_bit3_instance).
Proof.
  destruct (BitField_encode_never_writes sample_bit3_field (Offset_ 0 6) (VInt 5)
              sample_bit3_instance) as [[e He] _].
  split; [| reflexivity].
  rewrite He. f_equal.
  assert (Hrun : fst (BitField_encode sample_bit3_field (Offset_ 0 6) (VInt 5)
                        sample_bit3_instance) = Raise TypeError) by reflexivity.
  rewrite He in Hrun. exact Hrun.
Defined.

(** * Further properties *)

(** ** Offsets: order, arithmetic, rounding *)

(** X1. Constructed [_Offset] objects compare as the numbers of bits they
    stand for: [==], [<] and the derived [<=], [>], [>=] between two
    objects, and [==], [<] against a plain integer [n] (counted as [n]
    bytes), give what the same comparison of the bit counts gives. *)
Theorem Offset_comparisons_follow_bits (a b : _Offset) (n : Z) :
  offset.normalized a -> offset.normalized b ->
  offset.__eq__ a (OpOffset b) = (offset.bits a =? offset.bits b)
  /\ offset.__lt__ a (OpOffset b) = (offset.bits a <? offset.bits b)
  /\ Offset___le__ a (OpOffset b) = (offset.bits a <=? offset.bits b)
  /\ Offset___gt__ a (OpOffset b) = (offset.bits a >? offset.bits b)
  /\ Offset___ge__ a (OpOffset b) = (offset.bits a >=? offset.bits b)
  /\ offset.__eq__ a (OpInt n) = (offset.bits a =? 8 * n)
  /\ offset.__lt__ a (OpInt n) = (offset.bits a <? 8 * n).
Proof.
  unfold offset.normalized, offset.bits. intros Ha Hb.
  assert (Heq : offset.__eq__ a (OpOffset b) = (8 * byte a + bit a =? 8 * byte b + bit b)).
  { unfold offset.__eq__.
    destruct (Z.eqb_spec (byte a) (byte b)), (Z.eqb_spec (bit a) (bit b)),
      (Z.eqb_spec (8 * byte a + bit a) (8 * byte b + bit b)); simpl; auto; lia. }
  assert (Hlt : offset.__lt__ a (OpOffset b) = (8 * byte a + bit a <? 8 * byte b + bit b)).
  { unfold offset.__lt__, offset.pair_lt; simpl.
    destruct (Z.ltb_spec (byte a) (byte b)), (Z.eqb_spec (byte a) (byte b)),
      (Z.ltb_spec (bit a) (bit b)),
      (Z.ltb_spec (8 * byte a + bit a) (8 * byte b + bit b)); simpl; auto; lia. }
  unfold Offset___le__, Offset___gt__, Offset___ge__.
  rewrite Heq, Hlt, Z.gtb_ltb, Z.geb_leb.
  repeat split.
  - destruct (Z.ltb_spec (8 * byte a + bit a) (8 * byte b + bit b)),
      (Z.eqb_spec (8 * byte a + bit a) (8 * byte b + bit b)),
      (Z.leb_spec (8 * byte a + bit a) (8 * byte b + bit b)); simpl; auto; lia.
  - destruct (Z.ltb_spec (8 * byte a + bit a) (8 * byte b + bit b)),
      (Z.eqb_spec (8 * byte a + bit a) (8 * byte b + bit b)),
      (Z.ltb_spec (8 * byte b + bit b) (8 * byte a + bit a)); simpl; auto; lia.
  - destruct (Z.ltb_spec (8 * byte a + bit a) (8 * byte b + bit b)),
      (Z.leb_spec (8 * byte b + bit b) (8 * byte a + bit a)); simpl; auto; lia.
  - unfold offset.__eq__.
    destruct (Z.eqb_spec (byte a) n), (Z.eqb_spec (bit a) 0),
      (Z.eqb_spec (8 * byte a + bit a) (8 * n)); simpl; auto; lia.
  - unfold offset.__lt__, offset.pair_lt; simpl.
    destruct (Z.ltb_spec (byte a) n), (Z.eqb_spec (byte a) n),
      (Z.ltb_spec (bit a) 0), (Z.ltb_spec (8 * byte a + bit a) (8 * n));
      simpl; auto; lia.
Qed.

Lemma Offset_comparisons_follow_bits_witness :
  offset.__lt__ (Offset_ 1 7) (OpOffset (Size_bit 16)) = true.
Proof.
  destruct (Offset_comparisons_follow_bits (Offset_ 1 7) (Size_bit 16) 0)
    as (_ & Hlt & _); [vm_compute; split; congruence .. |].
  exact Hlt.
Defined.

(** X2. Addition of constructed objects is commutative and associative up
    to [==], adding the integer 0 changes nothing, and subtracting an
    operand and adding it back gives an object equal to the first. *)
Theorem Offset_addition_laws (a b c : _Offset) (d : operand) :
  offset.normalized a ->
  offset.__eq__ (offset.__add__ a (OpOffset b))
                (OpOffset (offset.__add__ b (OpOffset a))) = true
  /\ offset.__eq__
       (offset.__add__ (offset.__add__ a (OpOffset b)) (OpOffset c))
       (OpOffset (offset.__add__ a (OpOffset (offset.__add__ b (OpOffset c))))) = true
  /\ offset.__eq__ (offset.__add__ a (OpInt 0)) (OpOffset a) = true
  /\ offset.__eq__ (offset.__add__ (offset.__sub__ a d) d) (OpOffset a) = true.
Proof.
  intros Ha. repeat split; apply eq_of_bits;
    try apply add_normalized; try exact Ha;
    rewrite ?add_bits, ?sub_bits; lia.
Qed.

Lemma Offset_addition_laws_witness :
  offset.__eq__
    (offset.__add__ (offset.__sub__ (Offset_ 2 1) (OpOffset (Size_bit 5)))
                    (OpOffset (Size_bit 5)))
    (OpOffset (Offset_ 2 1)) = true.
Proof.
  destruct (Offset_addition_laws (Offset_ 2 1) (Offset_ 0 0) (Offset_ 0 0)
              (OpOffset (Size_bit 5)))
    as (_ & _ & _ & H); [vm_compute; split; congruence |].
  exact H.
Defined.

(** X3. On a constructed object [rounded] is the number of whole bytes for
    an [Offset] (rounding down) and the number of bytes needed for a [Size]
    (rounding up), and [aligned] holds exactly when the two agree, that is
    when the bit count is a multiple of 8. *)
Theorem Offset_rounded_floor_and_ceiling (o : _Offset) :
  offset.normalized o ->
  offset.rounded (mk_Offset Offset (byte o) (bit o)) = offset.bits o / 8
  /\ offset.rounded (mk_Offset Size (byte o) (bit o)) = (offset.bits o + 7) / 8
  /\ (offset.aligned o = true <-> offset.bits o mod 8 = 0)
  /\ (offset.aligned o = true <->
      offset.rounded (mk_Offset Offset (byte o) (bit o))
      = offset.rounded (mk_Offset Size (byte o) (bit o))).
Proof.
  unfold offset.normalized, offset.bits, offset.rounded, offset.aligned; simpl.
  intros Hn.
  assert (Hmod : (8 * byte o + bit o) mod 8 = bit o).
  { symmetry. apply Z.mod_unique with (q := byte o); lia. }
  repeat split.
  - apply Z.div_unique with (r := bit o); lia.
  - destruct (Z.eqb_spec (bit o) 0).
    + apply Z.div_unique with (r := 7); lia.
    + apply Z.div_unique with (r := bit o - 1); lia.
  - rewrite Hmod. apply Z.eqb_eq.
  - rewrite Hmod. apply Z.eqb_eq.
  - destruct (Z.eqb_spec (bit o) 0); [lia | discriminate].
  - destruct (Z.eqb_spec (bit o) 0); [reflexivity | lia].
Qed.

Lemma Offset_rounded_witness :
  offset.rounded (mk_Offset Size 2 3) = (8 * 2 + 3 + 7) / 8.
Proof.
  destruct (Offset_rounded_floor_and_ceiling (mk_Offset Size 2 3))
    as (_ & H & _); [vm_compute; split; congruence |].
  exact H.
Defined.

Lemma eq_plain_bits (a : _Offset) (n : Z) :
  offset.normalized a ->
  offset.__eq__ a (OpInt n) = (offset.bits a =? 8 * n).
Proof.
  unfold offset.normalized, offset.bits, offset.__eq__. intros Ha.
  destruct (Z.eqb_spec (byte a) n), (Z.eqb_spec (bit a) 0),
    (Z.eqb_spec (8 * byte a + bit a) (8 * n)); simpl; auto; lia.
Qed.

(** X4. The reflected operators. [n + x] is [x + n]. [n - x] keeps the bit
    part of [x] instead of borrowing: it stands for [8 * (n - x.byte) +
    x.bit] bits, so that [(n - x) + x == n] holds exactly when [x] is
    aligned. *)
Theorem Offset_reflected_operators (x : _Offset) (n : Z) :
  offset.normalized x ->
  offset.__eq__ (offset.__radd__ x n) (OpOffset (offset.__add__ x (OpInt n))) = true
  /\ offset.bits (offset.__rsub__ x n) = 8 * (n - byte x) + bit x
  /\ offset.__eq__ (offset.__add__ (offset.__rsub__ x n) (OpOffset x)) (OpInt n)
     = (bit x =? 0).
Proof.
  intros Hx. split; [| split].
  - apply eq_of_bits; try apply add_normalized.
    unfold offset.__radd__. rewrite !add_bits, new_bits. lia.
  - unfold offset.__rsub__. apply new_bits.
  - rewrite eq_plain_bits by apply add_normalized.
    rewrite add_bits. unfold offset.__rsub__. rewrite new_bits.
    unfold offset.normalized, offset.bits in *.
    destruct (Z.eqb_spec (8 * (n - byte x) + bit x + (8 * byte x + bit x)) (8 * n)),
      (Z.eqb_spec (bit x) 0); auto; lia.
Qed.

Lemma Offset_reflected_operators_witness :
  offset.__eq__ (offset.__add__ (offset.__rsub__ (Offset_ 1 3) 5)
                                (OpOffset (Offset_ 1 3))) (OpInt 5) = false.
Proof.
  destruct (Offset_reflected_operators (Offset_ 1 3) 5)
    as (_ & _ & H); [vm_compute; split; congruence |].
  exact H.
Defined.

(** ** Decimal text: ['{}'.format(n)] and the count of an ['s'] format *)

Lemma format_int_inj (a b : Z) : format_int a = format_int b -> a = b.
Proof.
  unfold format_int. intros H.
  assert (Hok : forall n, NilZero.int_of_string (NilZero.string_of_int (Z.to_int n))
                          = Some (Z.to_int n)).
  { intros n. apply NilZero.isi; destruct n; simpl; try discriminate;
      intros [= Hnil]; now apply DecimalPos.Unsigned.to_uint_nonnil in Hnil. }
  apply DecimalZ.to_int_inj.
  apply (f_equal NilZero.int_of_string) in H. rewrite !Hok in H. congruence.
Qed.

Lemma uint_text_digits (u : Decimal.uint) (c : ascii) :
  In c (String.list_ascii_of_string (NilEmpty.string_of_uint u)) -> digit c <> None.
Proof.
  induction u; simpl; intros Hin; try contradiction;
    (destruct Hin as [<- | Hin]; [discriminate | now apply IHu]).
Qed.

Lemma format_int_no_colon (n : Z) (c : ascii) :
  In c (String.list_ascii_of_string (format_int n)) -> c <> ":"%char.
Proof.
  assert (Hu : forall u, In c (String.list_ascii_of_string (NilZero.string_of_uint u)) ->
                         c <> ":"%char).
  { intros u Hin ->.
    destruct u;
      [ simpl in Hin; destruct Hin as [Hc | []]; discriminate Hc
      | unfold NilZero.string_of_uint in Hin;
        apply uint_text_digits in Hin; apply Hin; reflexivity .. ]. }
  unfold format_int. destruct (Z.to_int n) as [u | u]; simpl.
  - apply Hu.
  - intros [<- | Hin]; [discriminate | now apply (Hu u)].
Qed.

Lemma text_before_separator (s1 s2 t1 t2 : string) :
  (forall c, In c (String.list_ascii_of_string s1) -> c <> ":"%char) ->
  (forall c, In c (String.list_ascii_of_string s2) -> c <> ":"%char) ->
  s1 +:+ "::" +:+ t1 = s2 +:+ "::" +:+ t2 ->
  s1 = s2 /\ t1 = t2.
Proof.
  revert s2; induction s1 as [| c s1 IH]; intros [| c' s2] H1 H2 Heq; simpl in *.
  - injection Heq; intros Ht. now split.
  - injection Heq; intros _ Hc. exfalso. apply (H2 c'); [now left | congruence].
  - injection Heq; intros _ Hc. exfalso. apply (H1 c); [now left | congruence].
  - injection Heq; intros Hrest Hc.
    destruct (IH s2) as [Hs Ht]; auto. now subst.
Qed.

(** X5. Two [_Offset] objects hash the same text exactly when their byte
    and bit attributes agree, that is exactly when [==] holds between
    them: equal keys of a dict such as [Data._mapped] meet, different ones
    are told apart by the text itself. *)
Theorem Offset_hash_text_iff_eq (a b : _Offset) :
  Offset_hash_text a = Offset_hash_text b <-> offset.__eq__ a (OpOffset b) = true.
Proof.
  unfold offset.__eq__, Offset_hash_text. rewrite andb_true_iff, !Z.eqb_eq. split.
  - intros H. apply text_before_separator in H; try apply format_int_no_colon.
    destruct H as [Hb Ht]. split; now apply format_int_inj.
  - intros [-> ->]. reflexivity.
Qed.

Lemma parse_count_digits_acc (u : Decimal.uint) (acc : positive) :
  parse_count (NilEmpty.string_of_uint u +:+ "s") (Some (Pos.to_nat acc))
  = Ok (CodeBytes (Pos.to_nat (Pos.of_uint_acc u acc))).
Proof.
  revert acc; induction u; intros acc; simpl; try reflexivity;
    match goal with
    | |- parse_count _ (Some ?n) = Ok (CodeBytes (Pos.to_nat (Pos.of_uint_acc _ ?a))) =>
        replace n with (Pos.to_nat a)
          by (rewrite ?Pos2Nat.inj_add, ?Pos2Nat.inj_mul; lia);
        apply IHu
    end.
Qed.

Lemma parse_count_digits (u : Decimal.uint) :
  parse_count (NilEmpty.string_of_uint u +:+ "s") (Some 0%nat)
  = Ok (CodeBytes (N.to_nat (Pos.of_uint u))).
Proof.
  induction u; simpl; try reflexivity; try exact IHu;
    first [ exact (parse_count_digits_acc u 1) | exact (parse_count_digits_acc u 2)
          | exact (parse_count_digits_acc u 3) | exact (parse_count_digits_acc u 4)
          | exact (parse_count_digits_acc u 5) | exact (parse_count_digits_acc u 6)
          | exact (parse_count_digits_acc u 7) | exact (parse_count_digits_acc u 8)
          | exact (parse_count_digits_acc u 9) ].
Qed.

Lemma struct_parse_digit_first (c : ascii) (r : string) :
  digit c <> None ->
  struct_parse (String c r) = (x ← parse_count (String c r) None; Ok (NativeOrder, x)).
Proof.
  intros Hd. unfold struct_parse. destruct r as [| c' [| c'' r]]; try reflexivity.
  destruct c as [[|] [|] [|] [|] [|] [|] [|] [|]];
    try (exfalso; apply Hd; reflexivity); reflexivity.
Qed.

Lemma parse_count_no_count (c : ascii) (r : string) :
  digit c <> None ->
  parse_count (String c r) None = parse_count (String c r) (Some 0%nat).
Proof. intros Hd. simpl. destruct (digit c); [reflexivity | contradiction]. Qed.

Lemma uint_text_head (u : Decimal.uint) :
  u <> Decimal.Nil ->
  exists c r, NilEmpty.string_of_uint u = String c r /\ digit c <> None.
Proof.
  destruct u; [contradiction | ..]; intros _; simpl; eexists; eexists;
    (split; [reflexivity | discriminate]).
Qed.

(** The format ['{}s'.format(n)] of a non-negative [n] is read by the
    [struct] module as [n] raw bytes. *)
Lemma struct_parse_count (n : Z) :
  0 <= n ->
  struct_parse (format_int n +:+ "s") = Ok (NativeOrder, CodeBytes (Z.to_nat n)).
Proof.
  intros Hn. destruct n as [| p | p]; [reflexivity | | lia].
  pose proof (DecimalPos.Unsigned.to_uint_nonnil p) as Hnil.
  pose proof (parse_count_digits (Pos.to_uint p)) as Hparse.
  rewrite DecimalPos.Unsigned.of_to in Hparse.
  change (N.to_nat (N.pos p)) with (Z.to_nat (Z.pos p)) in Hparse.
  assert (Htext : format_int (Z.pos p) = NilEmpty.string_of_uint (Pos.to_uint p)).
  { unfold format_int. change (Z.to_int (Z.pos p)) with (Decimal.Pos (Pos.to_uint p)).
    unfold NilZero.string_of_int, NilZero.string_of_uint.
    destruct (Pos.to_uint p); [contradiction | reflexivity ..]. }
  rewrite Htext.
  destruct (uint_text_head _ Hnil) as (c & r & Hcr & Hd).
  rewrite Hcr in *. change (String c r +:+ "s") with (String c (r +:+ "s")) in *.
  rewrite struct_parse_digit_first, parse_count_no_count, Hparse by exact Hd.
  reflexivity.
Qed.

(** ** Bytes of integers *)

Lemma le_bytes_well_formed (n : nat) (v : Z) : well_formed (le_bytes n v).
Proof.
  revert v; induction n as [| n IH]; intros v; simpl; constructor.
  - apply Z.mod_pos_bound. lia.
  - apply IH.
Qed.




Lemma le_bytes_lookup (n i : nat) (v : Z) :
  (i < n)%nat -> le_bytes n v !! i = Some ((v / 256 ^ Z.of_nat i) mod 256).
Proof.
  revert i v; induction n as [| n IH]; intros i v Hi; [lia |].
  destruct i as [| i].
  - simpl. now rewrite Z.div_1_r.
  - change (le_bytes (S n) v !! S i) with (le_bytes n (v / 256) !! i).
    rewrite IH by lia. do 2 f_equal.
    rewrite Nat2Z.inj_succ, Z.pow_succ_r by lia.
    assert (0 < 256 ^ Z.of_nat i) by (apply Z.pow_pos_nonneg; lia).
    rewrite Z.div_div by lia. reflexivity.
Qed.

Lemma in_order_well_formed (o : byte_order) (bs : list Z) :
  well_formed bs -> well_formed (in_order o bs).
Proof.
  unfold well_formed. destruct o; simpl; auto.
  intros H. now apply Forall_reverse.
Qed.

Lemma in_order_lookup (e : Endianess) (bs : list Z) (i : nat) :
  (i < length bs)%nat ->
  in_order (order_of e) bs !! byte_index e (length bs) i = bs !! i.
Proof.
  intros Hi. destruct e; simpl; try reflexivity;
    (rewrite reverse_lookup by lia; f_equal; lia).
Qed.

Lemma read_at_length (pos n : nat) (l : list Z) :
  (pos + n <= length l)%nat -> length (read_at pos n l) = n.
Proof. intros H. unfold read_at. rewrite length_take, length_drop. lia. Qed.

Lemma read_at_well_formed (pos n : nat) (l : list Z) :
  well_formed l -> well_formed (read_at pos n l).
Proof.
  unfold well_formed, read_at. intros H.
  apply Forall_take, Forall_drop, H.
Qed.


Lemma write_at_well_formed (pos : nat) (bs l : list Z) :
  well_formed bs -> well_formed l -> well_formed (write_at pos bs l).
Proof.
  unfold well_formed, write_at. intros Hbs Hl.
  apply Forall_app; split; [now apply Forall_take |].
  apply Forall_app; split; [exact Hbs | now apply Forall_drop].
Qed.

Lemma write_at_lookup_inside (pos i : nat) (bs l : list Z) :
  (pos <= length l)%nat -> (i < length bs)%nat ->
  write_at pos bs l !! (pos + i)%nat = bs !! i.
Proof.
  intros Hp Hi. unfold write_at.
  rewrite lookup_app_r by (rewrite length_take; lia).
  rewrite length_take, Nat.min_l by lia.
  replace (pos + i - pos)%nat with i by lia.
  now rewrite lookup_app_l.
Qed.

Lemma write_at_lookup_outside (pos j : nat) (bs l : list Z) :
  (pos + length bs <= length l)%nat ->
  (j < pos \/ pos + length bs <= j)%nat ->
  write_at pos bs l !! j = l !! j.
Proof.
  intros Hp [Hj | Hj]; unfold write_at.
  - rewrite lookup_app_l by (rewrite length_take; lia).
    now rewrite lookup_take_lt.
  - rewrite lookup_app_r by (rewrite length_take; lia).
    rewrite length_take, Nat.min_l by lia.
    rewrite lookup_app_r by lia.
    rewrite lookup_drop. f_equal. lia.
Qed.

(** ** [struct] calls, exactly *)

Lemma struct_unpack_from_at (frmt : string) (o : byte_order) (c : fmt_code)
    (b : Buffer) (off : Z) :
  struct_parse frmt = Ok (o, c) ->
  0 <= off -> off + Z.of_nat (code_size c) <= Z.of_nat (length (bytes b)) ->
  struct_unpack_from frmt b (VInt off)
  = Ok [unpack_item o c (read_at (Z.to_nat off) (code_size c) (bytes b))].
Proof.
  intros Hp H0 H1. unfold struct_unpack_from. rewrite Hp; simpl.
  rewrite (too_long_holds _ _ off) by assumption. simpl.
  now rewrite resolve_offset_nonneg by lia.
Qed.

(** A write into a writable buffer that holds the span: the packed
    argument is written, or, for an argument that is refused, what the
    refusal leaves. *)
Lemma struct_pack_into_at (frmt : string) (o : byte_order) (c : fmt_code)
    (b : Buffer) (off : Z) (arg : pyval) :
  struct_parse frmt = Ok (o, c) ->
  writable b = true ->
  0 <= off -> off + Z.of_nat (code_size c) <= Z.of_nat (length (bytes b)) ->
  struct_pack_into frmt b (VInt off) [arg]
  = match pack_item o c arg with
    | Ok bs => (Ok tt, mk_Buffer (writable b) (write_at (Z.to_nat off) bs (bytes b)))
    | Raise e =>
        (Raise e,
         mk_Buffer (writable b)
                   (write_at (Z.to_nat off) (span_after_refusal o c arg) (bytes b)))
    end.
Proof.
  intros Hp Hw H0 H1. unfold struct_pack_into. rewrite Hp.
  rewrite (too_long_holds _ _ off) by assumption. rewrite Hw. simpl.
  now rewrite resolve_offset_nonneg by lia.
Qed.

Lemma resolve_offset_beyond (exc : exn) (len size : nat) (off : Z) :
  0 <= off -> Z.of_nat len < off + Z.of_nat size ->
  resolve_offset exc len size off
  = Raise (if fits_ssize_t off then struct_error else exc).
Proof.
  intros H0 H1. unfold resolve_offset.
  destruct (Z.ltb_spec off 0); [lia |].
  destruct (Z.ltb_spec off 0); [lia |].
  destruct (Z.ltb_spec (Z.of_nat len - off) (Z.of_nat size)); [reflexivity | lia].
Qed.

Lemma representable_iff_int_range (size : Z) (signed : bool) (v : Z) :
  0 <= size ->
  representable size signed v <-> int_range (Z.to_nat size) signed v = true.
Proof.
  intros Hs. unfold representable, int_range. rewrite Z2Nat.id by exact Hs.
  destruct signed; rewrite andb_true_iff, Z.leb_le, Z.ltb_lt; reflexivity.
Qed.

(** ** [IntField] on a registered field *)

Section RegisteredIntField.

Context (c : field_class) (id_ : N) (size : Z) (base : Base) (signed : bool)
        (endianess : Endianess) (values : list Value)
        (f : Field) (bv : BoundValue) (inst : Struct).

Hypothesis Hclass : c = IntField \/ c = BitMaskField.
Hypothesis Hinit : IntField___init__ c id_ size base signed endianess values = Ok f.
Hypothesis Hreg : registered f bv inst.

Let n : nat := Z.to_nat size.

Lemma IntField_size_read :
  (let* x := AbstractField___get__ f in getitem_size x) inst
  = (Ok (VOffset (Size_byte size)), inst).
Proof.
  destruct Hreg as (Hlook & Hf & Hcls).
  destruct (IntField___init___inv _ _ _ _ _ _ _ _ Hinit) as (Hk & _ & Hsz & _).
  unfold bind_M, AbstractField___get__, _get_data. rewrite Hlook.
  rewrite getitem_size_plain.
  - now rewrite Hf, Hsz.
  - rewrite Hcls. unfold metaconf_boundvalue_class. rewrite Hk.
    destruct Hclass as [-> | ->]; discriminate.
Qed.

Lemma IntField_format :
  exists sig,
    IntField__sig f (VOffset (Size_byte size)) = Ok sig
    /\ struct_parse sig = Ok (order_of endianess, CodeInt n signed)
    /\ 0 < size /\ Z.of_nat n = size /\ size <= 8.
Proof.
  destruct (IntField___init___inv _ _ _ _ _ _ _ _ Hinit)
    as (_ & _ & Hsz & Hsg & He & Hsize & _).
  destruct (IntField__sig_parse f) as (sig & Hsig & Hparse);
    [rewrite Hsz; exact Hsize |].
  exists sig. rewrite Hsz, Hsg, He in *. unfold n.
  repeat split; try assumption; lia.
Qed.

(** [encode] where the buffer holds the field. *)
Lemma IntField_encode_in_bounds (off : _Offset) (value : pyval) :
  accepts_writes inst -> holds inst (byte off) size ->
  IntField_encode f off value inst
  = match pack_item (order_of endianess) (CodeInt n signed) value with
    | Ok bs =>
        (Ok tt,
         with_bytes inst (write_at (Z.to_nat (byte off)) bs (bytes (buf (data inst)))))
    | Raise e =>
        (Raise e,
         with_bytes inst
           (write_at (Z.to_nat (byte off))
              (span_after_refusal (order_of endianess) (CodeInt n signed) value)
              (bytes (buf (data inst)))))
    end.
Proof.
  intros [Hro Hw] [H0 H1].
  destruct IntField_format as (sig & Hsig & Hparse & Hpos & Hn & _).
  pose proof IntField_size_read as Hsize.
  unfold bind_M in Hsize.
  unfold IntField_encode, bind_M.
  destruct (AbstractField___get__ f inst) as [[x | e] s1]; [| discriminate].
  rewrite Hsize. unfold lift_M. rewrite Hsig.
  unfold with_data, Data_pack_into, with_bytes.
  destruct inst as [[b r] fd]; cbn [data ro buf fields_data] in *. subst r.
  rewrite (struct_pack_into_at sig _ _ b (byte off) value Hparse Hw H0)
    by (simpl; lia).
  now destruct (pack_item (order_of endianess) (CodeInt n signed) value).
Qed.

Lemma IntField_encode_at (off : _Offset) (v : Z) :
  accepts_writes inst -> holds inst (byte off) size ->
  IntField_encode f off (VInt v) inst
  = if int_range n signed v
    then (Ok tt,
          with_bytes inst
            (write_at (Z.to_nat (byte off))
                      (in_order (order_of endianess) (le_bytes n v))
                      (bytes (buf (data inst)))))
    else (Raise struct_error,
          with_bytes inst
            (write_at (Z.to_nat (byte off))
                      (span_after_refusal (order_of endianess) (CodeInt n signed)
                                          (VInt v))
                      (bytes (buf (data inst))))).
Proof.
  intros Hacc Hholds. rewrite IntField_encode_in_bounds by assumption.
  simpl. now destruct (int_range n signed v).
Qed.

Lemma IntField_decode_at (off : _Offset) :
  holds inst (byte off) size ->
  IntField_decode f off inst
  = (Ok (dict_get (_values f)
           (unpack_item (order_of endianess) (CodeInt n signed)
              (read_at (Z.to_nat (byte off)) n (bytes (buf (data inst)))))),
     inst).
Proof.
  intros [H0 H1].
  destruct IntField_format as (sig & Hsig & Hparse & Hpos & Hn & _).
  pose proof IntField_size_read as Hsize.
  unfold bind_M in Hsize.
  unfold IntField_decode, bind_M.
  destruct (AbstractField___get__ f inst) as [[x | e] s1]; [| discriminate].
  rewrite Hsize. unfold lift_M. rewrite Hsig.
  unfold with_data, Data_unpack_from.
  destruct inst as [[b r] fd]; simpl in *.
  rewrite (struct_unpack_from_at sig _ _ b (byte off) Hparse H0) by (simpl; lia).
  reflexivity.
Qed.



End RegisteredIntField.



Lemma table_lookup_last (values : list Value) (d : dict) (k : Z) :
  dict_lookup (foldl (fun d it => dict_set d (v_value it) it) d values) k
  = match last (List.filter (fun it => v_value it =? k) values) with
    | Some it => Some it
    | None => dict_lookup d k
    end.
Proof.
  revert d; induction values as [| it values IH]; intros d; simpl; [reflexivity |].
  rewrite IH, dict_lookup_set.
  destruct (Z.eqb_spec (v_value it) k) as [Hk | Hk]; [| reflexivity].
  rewrite last_cons. now destruct (last _).
Qed.

(** X6. [IntField.__init__] refuses a width other than 1, 2, 4 or 8 bytes
    with [ValueError]. Otherwise the field has the given configuration,
    and its table answers a raw integer with the last of the declared
    values that carries it (none if no declared value does). *)
Theorem IntField___init___table (c : field_class) (id_ : N) (size : Z) (base : Base)
    (signed : bool) (endianess : Endianess) (values : list Value) :
  (~ (size = 1 \/ size = 2 \/ size = 4 \/ size = 8) ->
   IntField___init__ c id_ size base signed endianess values = Raise ValueError)
  /\ (size = 1 \/ size = 2 \/ size = 4 \/ size = 8 ->
      exists f,
        IntField___init__ c id_ size base signed endianess values = Ok f
        /\ klass f = c /\ field_id f = id_ /\ _size f = size /\ _base f = base
        /\ _signed f = signed /\ _endianess f = endianess
        /\ forall k, dict_lookup (_values f) k
                     = last (List.filter (fun it => v_value it =? k) values)).
Proof.
  unfold IntField___init__. split.
  - intros Hbad.
    destruct (in_values size IntField_Size_values) eqn:Hs; [| reflexivity].
    apply in_values_Size in Hs. contradiction.
  - intros Hok.
    replace (in_values size IntField_Size_values) with true
      by (destruct Hok as [-> | [-> | [-> | ->]]]; reflexivity).
    eexists. split; [reflexivity |]. simpl. repeat split.
    intros k. rewrite table_lookup_last. now destruct (last _).
Qed.

(** X7. What [IntField.encode] writes. For a field built by the
    constructor and registered on an instance that accepts writes and
    holds [size] bytes at [offset.byte], encoding a representable [v]
    returns and changes the bytes of the buffer only: the length is kept,
    the byte of weight [256^i] of [v] (two's complement for a negative
    [v]) stands at position [i] of the field for [LITTLE] and at position
    [size - 1 - i] for [BIG] and [NETWORK], every byte outside the field
    is as before, and a buffer of bytes stays a buffer of bytes. *)
Theorem IntField_encode_layout
    (c : field_class) (id_ : N) (size : Z) (base : Base) (signed : bool)
    (endianess : Endianess) (values : list Value)
    (f : Field) (bv : BoundValue) (inst : Struct) (off : _Offset) (v : Z) :
  c = IntField \/ c = BitMaskField ->
  IntField___init__ c id_ size base signed endianess values = Ok f ->
  registered f bv inst ->
  accepts_writes inst ->
  holds inst (byte off) size ->
  representable size signed v ->
  exists l',
    IntField_encode f off (VInt v) inst = (Ok tt, with_bytes inst l')
    /\ length l' = length (bytes (buf (data inst)))
    /\ (forall i, (i < Z.to_nat size)%nat ->
          l' !! (Z.to_nat (byte off) + byte_index endianess (Z.to_nat size) i)%nat
          = Some ((v / 256 ^ Z.of_nat i) mod 256))
    /\ (forall j, (j < Z.to_nat (byte off) \/ Z.to_nat (byte off) + Z.to_nat size <= j)%nat ->
          l' !! j = bytes (buf (data inst)) !! j)
    /\ (well_formed (bytes (buf (data inst))) -> well_formed l').
Proof.
  intros Hclass Hinit Hreg Hacc Hholds Hv.
  destruct (IntField_format _ _ _ _ _ _ _ _ Hinit) as (sig & _ & _ & Hpos & Hn).
  set (n := Z.to_nat size) in *.
  set (bs := in_order (order_of endianess) (le_bytes n v)).
  assert (Hlen : length bs = n)
    by (unfold bs; now rewrite in_order_length, le_bytes_length).
  pose proof Hholds as [H0 H1].
  exists (write_at (Z.to_nat (byte off)) bs (bytes (buf (data inst)))).
  split; [| split; [| split; [| split]]].
  - rewrite (IntField_encode_at _ _ _ _ _ _ _ _ _ _ Hclass Hinit Hreg)
      by assumption.
    apply representable_iff_int_range in Hv; [| lia]. fold n. change (Z.to_nat size) with n in Hv. now rewrite Hv.
  - apply write_at_length. lia.
  - intros i Hi.
    assert (Hidx : (byte_index endianess n i < n)%nat)
      by (destruct endianess; simpl; lia).
    rewrite write_at_lookup_inside by lia.
    unfold bs. rewrite <- (le_bytes_length n v) at 1.
    rewrite in_order_lookup by (rewrite le_bytes_length; lia).
    now apply le_bytes_lookup.
  - intros j Hj. apply write_at_lookup_outside; lia.
  - intros Hwf. apply write_at_well_formed; [| exact Hwf].
    apply in_order_well_formed, le_bytes_well_formed.
Qed.

Lemma IntField_encode_layout_witness :
  exists l',
    IntField_encode sample_int_field (Offset_ 1 0) (VInt 258) sample_instance
    = (Ok tt, with_bytes sample_instance l')
    /\ l' !! 1%nat = Some 1 /\ l' !! 2%nat = Some 2 /\ l' !! 3%nat = Some 0.
Proof.
  destruct (IntField_encode_layout IntField 1 2 HEX true BIG
              [mk_Value 258 (Some "MAGIC"%string) None]
              sample_int_field sample_int_bv sample_instance (Offset_ 1 0) 258)
    as (l' & Henc & _ & Hin & Hout & _).
  - left; reflexivity.
  - reflexivity.
  - repeat split; reflexivity.
  - split; reflexivity.
  - split; vm_compute; discriminate.
  - vm_compute. split; [discriminate | reflexivity].
  - exists l'. split; [exact Henc |]. repeat split.
    + exact (Hin 1%nat ltac:(vm_compute; lia)).
    + exact (Hin 0%nat ltac:(vm_compute; lia)).
    + rewrite (Hout 3%nat) by (right; vm_compute; lia). reflexivity.
Defined.











Lemma struct_parse_negative_count (n : Z) :
  n < 0 -> struct_parse (format_int n +:+ "s") = Raise struct_error.
Proof.
  intros Hn. destruct n as [| p | p]; [lia | lia |].
  unfold format_int. change (Z.to_int (Z.neg p)) with (Decimal.Neg (Pos.to_uint p)).
  pose proof (DecimalPos.Unsigned.to_uint_nonnil p) as Hnil.
  unfold NilZero.string_of_int, NilZero.string_of_uint.
  destruct (Pos.to_uint p) as [| u | u | u | u | u | u | u | u | u | u];
    [contradiction | ..];
    cbn [NilEmpty.string_of_uint];
    (match goal with
     | |- context [NilEmpty.string_of_uint ?x] =>
         destruct (NilEmpty.string_of_uint x); reflexivity
     end).
Qed.

(** X11. What [ByteArrayField.decode] returns. For a [ByteArrayField(size)]
    registered on an instance, at a non-negative byte offset: with a
    non-negative [size] that the buffer holds from the offset on, [decode]
    returns exactly the [size] bytes that stand at the offset and leaves
    the instance as it was. It raises [struct.error], the instance as it
    was, when [size] is negative, when the buffer ends before the field
    does and the offset fits a [Py_ssize_t], and when [size] does not fit
    a [Py_ssize_t] and the buffer is shorter than [size]. It raises
    [OverflowError], the instance as it was, when [size] fits, the buffer
    ends before the field does and the offset does not fit. *)
Theorem ByteArrayField_decode_reads_size_bytes
    (id_ : N) (size : Z) (bv : BoundValue) (inst : Struct) (off : _Offset) :
  registered (ByteArrayField___init__ id_ size) bv inst ->
  0 <= byte off ->
  (0 <= size ->
   byte off + size <= Z.of_nat (length (bytes (buf (data inst)))) ->
   ByteArrayField_decode (ByteArrayField___init__ id_ size) off inst
   = (Ok (VBytes (read_at (Z.to_nat (byte off)) (Z.to_nat size)
                          (bytes (buf (data inst))))), inst)
   /\ length (read_at (Z.to_nat (byte off)) (Z.to_nat size) (bytes (buf (data inst))))
      = Z.to_nat size)
  /\ (size < 0
      \/ (Z.of_nat (length (bytes (buf (data inst)))) < byte off + size
          /\ byte off < 2 ^ 63)
      \/ (2 ^ 63 <= size /\ Z.of_nat (length (bytes (buf (data inst)))) < size) ->
      ByteArrayField_decode (ByteArrayField___init__ id_ size) off inst
      = (Raise struct_error, inst))
  /\ (0 <= size < 2 ^ 63 ->
      Z.of_nat (length (bytes (buf (data inst)))) < byte off + size ->
      2 ^ 63 <= byte off ->
      ByteArrayField_decode (ByteArrayField___init__ id_ size) off inst
      = (Raise OverflowError, inst)).
Proof.
  intros (Hlook & Hf & Hcls) H0.
  assert (Hstart : forall k : pyval -> M Struct pyval,
            (let* x := AbstractField___get__ (ByteArrayField___init__ id_ size) in
             let* sz := getitem_size x in k sz) inst
            = k (VOffset (Size_byte size)) inst).
  { intros k. unfold bind_M, AbstractField___get__, _get_data. rewrite Hlook.
    rewrite getitem_size_plain by (rewrite Hcls; discriminate). now rewrite Hf. }
  assert (Hbyte : byte (Size_byte size) = size)
    by (unfold Size_byte, offset.new, offset.__init__; simpl;
        change (0 / 8) with 0; lia).
  assert (Hfits : forall z, 0 <= z -> fits_ssize_t z = (z <? 2 ^ 63)).
  { intros z Hz. unfold fits_ssize_t.
    destruct (Z.leb_spec (- 2 ^ 63) z); [reflexivity | lia]. }
  unfold ByteArrayField_decode.
  split; [| split].
  - intros Hs Hlen. split; [| apply read_at_length; lia].
    rewrite Hstart. unfold bind_M, lift_M, ByteArrayField__sig, as_offset.
    cbn [mbind result_bind]. rewrite Hbyte.
    unfold with_data, Data_unpack_from.
    rewrite (struct_unpack_from_at _ _ _ _ (byte off) (struct_parse_count size Hs) H0)
      by (simpl; lia).
    destruct inst as [[b r] fd]; reflexivity.
  - intros Hbad.
    rewrite Hstart. unfold bind_M, lift_M, ByteArrayField__sig, as_offset.
    cbn [mbind result_bind]. rewrite Hbyte.
    unfold with_data, Data_unpack_from, struct_unpack_from.
    destruct (Z_lt_le_dec size 0) as [Hneg | Hpos].
    + rewrite struct_parse_negative_count by exact Hneg.
      destruct inst as [[b r] fd]; reflexivity.
    + rewrite struct_parse_count by exact Hpos. cbn [mbind result_bind].
      destruct (too_long _ _) eqn:Hlong;
        [destruct inst as [[b r] fd]; reflexivity |].
      destruct Hbad as [Hneg | [[Hbeyond Hoff] | [Hbig Hshort]]]; [lia | |].
      * cbn [py_index mbind result_bind].
        rewrite resolve_offset_beyond by (cbn [code_size]; lia).
        rewrite Hfits by exact H0.
        destruct (Z.ltb_spec (byte off) (2 ^ 63)); [| lia].
        destruct inst as [[b r] fd]; reflexivity.
      * exfalso. unfold too_long in Hlong. cbn [code_size] in Hlong.
        rewrite Z2Nat.id in Hlong by exact Hpos.
        rewrite Hfits in Hlong by exact Hpos.
        destruct (Z.ltb_spec size (2 ^ 63)); [lia |].
        destruct (Z.ltb_spec (Z.of_nat (length (bytes (buf (data inst))))) size);
          [discriminate | lia].
  - intros Hsize Hbeyond Hoff.
    rewrite Hstart. unfold bind_M, lift_M, ByteArrayField__sig, as_offset.
    cbn [mbind result_bind]. rewrite Hbyte.
    unfold with_data, Data_unpack_from, struct_unpack_from.
    rewrite struct_parse_count by lia. cbn [mbind result_bind].
    rewrite too_long_fits
      by (cbn [code_size]; rewrite Z2Nat.id by lia; apply fits_ssize_t_spec; lia).
    cbn [py_index mbind result_bind].
    rewrite resolve_offset_beyond by (cbn [code_size]; lia).
    rewrite Hfits by exact H0.
    destruct (Z.ltb_spec (byte off) (2 ^ 63)); [lia |].
    destruct inst as [[b r] fd]; reflexivity.
Qed.

Lemma ByteArrayField_decode_witness :
  ByteArrayField_decode sample_bytes_field (Offset_ 0 0) sample_bytes_instance
  = (Ok (VBytes [0; 0; 0; 0]), sample_bytes_instance)
  /\ ByteArrayField_decode sample_bytes_field (Offset_ 1 0) sample_bytes_instance
     = (Raise struct_error, sample_bytes_instance)
  /\ ByteArrayField_decode sample_bytes_field (Offset_ (2 ^ 63) 0) sample_bytes_instance
     = (Raise OverflowError, sample_bytes_instance).
Proof.
  assert (Hreg : registered (ByteArrayField___init__ 5 4)
                   (mk_BoundValue BoundValue_cls sample_bytes_field (Offset_ 0 0) None None None)
                   sample_bytes_instance)
    by (repeat split; reflexivity).
  split; [| split].
  - destruct (ByteArrayField_decode_reads_size_bytes 5 4 _ sample_bytes_instance
                (Offset_ 0 0) Hreg ltac:(vm_compute; discriminate)) as [Hok _].
    destruct Hok as [Hdec _]; [lia | vm_compute; discriminate |]. exact Hdec.
  - destruct (ByteArrayField_decode_reads_size_bytes 5 4 _ sample_bytes_instance
                (Offset_ 1 0) Hreg ltac:(vm_compute; discriminate)) as (_ & Hbad & _).
    apply Hbad. right; left. split; vm_compute; reflexivity.
  - destruct (ByteArrayField_decode_reads_size_bytes 5 4 _ sample_bytes_instance
                (Offset_ (2 ^ 63) 0) Hreg ltac:(vm_compute; discriminate)) as (_ & _ & Hover).
    apply Hover; [lia | vm_compute; reflexivity | vm_compute; discriminate].
Defined.

(** X12. [AbstractField.initialize]. A field of an aligned class refuses
    an offset with a bit part: [FieldAlignmentError], the instance as it
    was. Otherwise the call returns the size of the new bound value and
    stores it: the bound value has the field's bound-value class, the
    field and the offset and keeps no value, the field data hold it under
    the field's ["boundvalue"] entry, where [_get_data] finds it, and the
    bytes and every other entry of the field data are untouched; for a
    class other than [BitField] the size is [Size(byte=size)]. When the
    field had no bound value on the instance before, [__get__] returns
    the new one. *)
Theorem AbstractField_initialize_registers (f : Field) (off : _Offset) (inst : Struct) :
  (metaconf_aligned f = true -> bit off <> 0 ->
   AbstractField_initialize f off inst = (Raise FieldAlignmentError, inst))
  /\ (metaconf_aligned f = false \/ bit off = 0 ->
      exists size inst',
        AbstractField_initialize f off inst = (Ok size, inst')
        /\ data inst' = data inst
        /\ registered f (mk_BoundValue (metaconf_boundvalue_class f) f off None None None) inst'
        /\ _get_data f "boundvalue" inst'
           = (Ok (DBoundValue
                    (mk_BoundValue (metaconf_boundvalue_class f) f off None None None)), inst')
        /\ (forall k, k <> (field_id f, "boundvalue"%string) ->
              fields_data inst' !! k = fields_data inst !! k)
        /\ (klass f <> BitField -> size = VOffset (Size_byte (_size f)))
        /\ (fields_data inst !! (field_id f, "boundvalue"%string) = None ->
            AbstractField___get__ f inst'
            = (Ok (DBoundValue
                     (mk_BoundValue (metaconf_boundvalue_class f) f off None None None)),
               inst'))).
Proof.
  unfold AbstractField_initialize, offset.aligned. split.
  - intros -> Hbit. destruct (Z.eqb_spec (bit off) 0); [contradiction | reflexivity].
  - intros Hok.
    replace (metaconf_aligned f && negb (bit off =? 0)) with false
      by (destruct Hok as [-> | ->]; [reflexivity | now rewrite andb_false_r]).
    set (bv := mk_BoundValue (metaconf_boundvalue_class f) f off None None None).
    set (inst' := mk_Struct (data inst)
                    (<[(field_id f, "boundvalue"%string) := DBoundValue bv]>
                       (fields_data inst))).
    assert (Hsize : exists size, BoundValue__size bv inst' = (Ok size, inst')
                                 /\ (klass f <> BitField ->
                                     size = VOffset (Size_byte (_size f)))).
    { unfold BoundValue__size, bv, metaconf_boundvalue_class, reference_value; simpl.
      destruct (klass f); simpl; try (eexists; split; [reflexivity | reflexivity]).
      destruct (negb _); eexists; (split; [reflexivity | congruence]). }
    destruct Hsize as (size & Hsize & Hplain).
    assert (Hstored : _get_data f "boundvalue" inst' = (Ok (DBoundValue bv), inst'))
      by (unfold _get_data; simpl; now rewrite lookup_insert_eq).
    exists size, inst'. unfold bind_M, _set_data. fold bv inst'.
    split; [exact Hsize |]. split; [reflexivity |].
    split; [| split; [| split; [| split]]].
    + repeat split. simpl. apply lookup_insert_eq.
    + exact Hstored.
    + intros k Hk. simpl. now apply lookup_insert_ne.
    + exact Hplain.
    + intros _. exact Hstored.
Qed.

Lemma AbstractField_initialize_registers_witness :
  AbstractField_initialize sample_int_field (Offset_ 1 3) fresh_instance
  = (Raise FieldAlignmentError, fresh_instance)
  /\ AbstractField___get__ sample_int_field sample_instance
     = (Ok (DBoundValue sample_int_bv), sample_instance).
Proof.
  destruct (AbstractField_initialize_registers sample_int_field (Offset_ 1 3)
              fresh_instance) as [Hbad _].
  destruct (AbstractField_initialize_registers sample_int_field (Offset_ 1 0)
              fresh_instance) as [_ Hok].
  split.
  - apply Hbad; [reflexivity | vm_compute; discriminate].
  - destruct Hok as (size & inst' & Hinit & _ & _ & _ & _ & _ & Hget);
      [right; reflexivity |].
    unfold sample_instance. rewrite Hinit. apply Hget. reflexivity.
Defined.

(** X13. The wrapped [initialize] and the wrapped [__get__] of
    [_MetaAbstractField]. Whatever method is wrapped, the wrapped
    [initialize] returns [None] and changes the status entry of the field
    only: it leaves [INIT] where it found [INIT] and [OK] in every other
    case, and registers no bound value. For a field that had no status
    entry on the instance before, so that no call of its wrapped
    [__get__] has returned yet, the wrapped [__get__] of the plain getter
    then hands out the registered bound value if there is one, raises
    [NotABoundValueError] for an entry that is no bound value, and
    [NoFieldDataError] when nothing was registered. *)
Theorem initialize_wrapper_protocol
    (init : Field -> _Offset -> M Struct pyval)
    (f : Field) (off : _Offset) (inst : Struct) :
  exists inst',
    initialize_wrapper init f off inst = (Ok VNone, inst')
    /\ data inst' = data inst
    /\ (forall k, k <> (field_id f, "status"%string) ->
          fields_data inst' !! k = fields_data inst !! k)
    /\ fields_data inst' !! (field_id f, "status"%string)
       = Some (DStatus (status_after (fields_data inst !! (field_id f, "status"%string))))
    /\ (fields_data inst !! (field_id f, "status"%string) = None ->
        get_wrapper plain___get__ f inst'
        = match fields_data inst !! (field_id f, "boundvalue"%string) with
          | Some (DBoundValue bv) => (Ok (Some (DBoundValue bv)), inst')
          | Some (DStatus _) => (Raise NotABoundValueError, inst')
          | None => (Raise NoFieldDataError, inst')
          end).
Proof.
  set (key := (field_id f, "status"%string)).
  set (st := status_after (fields_data inst !! key)).
  exists (mk_Struct (data inst) (<[key := DStatus st]> (fields_data inst))).
  assert (Hrun : initialize_wrapper init f off inst
                 = (Ok VNone,
                    mk_Struct (data inst) (<[key := DStatus st]> (fields_data inst)))).
  { unfold initialize_wrapper, bind_M, try_except, _get_data, _set_data, ret_M, st.
    fold key.
    destruct (fields_data inst !! key) as [[[| |] | bv] |]; simpl;
      rewrite ?insert_insert_eq; reflexivity. }
  assert (Hst : (<[key := DStatus st]> (fields_data inst)) !! key = Some (DStatus st))
    by apply lookup_insert_eq.
  assert (Hbv : (<[key := DStatus st]> (fields_data inst))
                  !! (field_id f, "boundvalue"%string)
                = fields_data inst !! (field_id f, "boundvalue"%string))
    by (apply lookup_insert_ne; unfold key; intros H; inversion H).
  split; [exact Hrun |]. split; [reflexivity |].
  split; [intros k Hk; simpl; now apply lookup_insert_ne |].
  split; [exact Hst |].
  intros Hnone.
  assert (Hok : st = OK) by (unfold st; now rewrite Hnone).
  clearbody st. subst st.
  unfold get_wrapper, plain___get__, bind_M, AbstractField___get__, _get_data.
  simpl. fold key. rewrite Hst. simpl. rewrite Hbv.
  destruct (fields_data inst !! (field_id f, "boundvalue"%string)) as [[s | bv] |];
    reflexivity.
Qed.

(** X14. Comparing a bound value with a plain integer. When the value
    read through [a] is the integer [va] and reading leaves the instance
    as it is, [==], [<] and the operators that [functools.total_ordering]
    derives from them compare [va] with the integer. *)
Theorem BoundValue_comparisons_with_plain_integers
    (a : BoundValue) (inst : Struct) (va n : Z) :
  BoundValue_getitem_value a inst = (Ok (VInt va), inst) ->
  BoundValue___eq__ a (CmpValue (VInt n)) inst = (Ok (va =? n), inst)
  /\ BoundValue___lt__ a (CmpValue (VInt n)) inst = (Ok (va <? n), inst)
  /\ BoundValue___le__ a (CmpValue (VInt n)) inst = (Ok (va <=? n), inst)
  /\ BoundValue___gt__ a (CmpValue (VInt n)) inst = (Ok (va >? n), inst)
  /\ BoundValue___ge__ a (CmpValue (VInt n)) inst = (Ok (va >=? n), inst).
Proof.
  intros Ha.
  assert (Heq : BoundValue___eq__ a (CmpValue (VInt n)) inst = (Ok (va =? n), inst)).
  { unfold BoundValue___eq__, bind_M. now rewrite Ha. }
  assert (Hlt : BoundValue___lt__ a (CmpValue (VInt n)) inst = (Ok (va <? n), inst)).
  { unfold BoundValue___lt__, BoundValue_getattr_value, bind_M. now rewrite Ha. }
  repeat split; try assumption.
  - unfold BoundValue___le__, bind_M. rewrite Hlt.
    destruct (Z.ltb_spec va n).
    + unfold ret_M. do 2 f_equal. symmetry. apply Z.leb_le. lia.
    + rewrite Heq. do 2 f_equal.
      destruct (Z.eqb_spec va n), (Z.leb_spec va n); auto; lia.
  - unfold BoundValue___gt__, bind_M. rewrite Hlt.
    destruct (Z.ltb_spec va n).
    + unfold ret_M. do 2 f_equal. rewrite Z.gtb_ltb. symmetry. apply Z.ltb_ge. lia.
    + rewrite Heq. unfold ret_M. do 2 f_equal. rewrite Z.gtb_ltb.
      destruct (Z.eqb_spec va n), (Z.ltb_spec n va); auto; lia.
  - unfold BoundValue___ge__, bind_M. rewrite Hlt. unfold ret_M. do 2 f_equal.
    rewrite Z.geb_leb. destruct (Z.ltb_spec va n), (Z.leb_spec n va); auto; lia.
Qed.

Lemma BoundValue_comparisons_with_plain_integers_witness :
  BoundValue___eq__ sample_int_bv (CmpValue (VInt 258)) encoded_instance
  = (Ok true, encoded_instance)
  /\ BoundValue___gt__ sample_int_bv (CmpValue (VInt 300)) encoded_instance
     = (Ok false, encoded_instance).
Proof.
  destruct (BoundValue_comparisons_with_plain_integers
              sample_int_bv encoded_instance 258 258 eq_refl) as (Heq & _).
  destruct (BoundValue_comparisons_with_plain_integers
              sample_int_bv encoded_instance 258 300 eq_refl) as (_ & _ & _ & Hgt & _).
  split; [exact Heq | exact Hgt].
Defined.

Lemma initialize_wrapper_protocol_witness :
  (exists inst',
     initialize_wrapper AbstractField_initialize sample_int_field (Offset_ 1 0)
                        fresh_instance = (Ok VNone, inst')
     /\ fields_data inst' !! (field_id sample_int_field, "boundvalue"%string) = None
     /\ get_wrapper plain___get__ sample_int_field inst' = (Raise NoFieldDataError, inst'))
  /\ (exists inst',
        initialize_wrapper AbstractField_initialize sample_int_field (Offset_ 1 0)
                           sample_instance = (Ok VNone, inst')
        /\ get_wrapper plain___get__ sample_int_field inst'
           = (Ok (Some (DBoundValue sample_int_bv)), inst')).
Proof.
  split.
  - destruct (initialize_wrapper_protocol AbstractField_initialize
                sample_int_field (Offset_ 1 0) fresh_instance)
      as (inst' & Hrun & _ & Hkeep & _ & Hget).
    exists inst'. split; [exact Hrun | split].
    + rewrite Hkeep by discriminate. reflexivity.
    + rewrite Hget by reflexivity. reflexivity.
  - destruct (initialize_wrapper_protocol AbstractField_initialize
                sample_int_field (Offset_ 1 0) sample_instance)
      as (inst' & Hrun & _ & _ & _ & Hget).
    exists inst'. split; [exact Hrun |].
    rewrite Hget by reflexivity. reflexivity.
Defined.

(** ** [BitMaskField.decode]: no bit is lost *)

Lemma entries_keyed_set (d : dict) (v : Value) :
  entries_keyed d -> entries_keyed (dict_set d (v_value v) v).
Proof.
  unfold entries_keyed. induction 1 as [| [k' v'] d Hk Hd IH]; simpl.
  - repeat constructor.
  - destruct (Z.eqb_spec k' (v_value v)) as [-> | _]; constructor;
      solve [reflexivity | assumption].
Qed.

Lemma entries_keyed_foldl (values : list Value) (d : dict) :
  entries_keyed d ->
  entries_keyed (foldl (fun d it => dict_set d (v_value it) it) d values).
Proof.
  revert d; induction values as [| it values IH]; intros d Hd; simpl; [exact Hd |].
  apply IH, entries_keyed_set, Hd.
Qed.

Lemma IntField___init___entries_keyed c id_ size base signed endianess values f :
  IntField___init__ c id_ size base signed endianess values = Ok f ->
  entries_keyed (_values f).
Proof.
  unfold IntField___init__. intros H.
  destruct (in_values size IntField_Size_values); [| discriminate].
  inversion H; subst; clear H. simpl. apply entries_keyed_foldl. constructor.
Qed.

Lemma raw_or_named (items : dict) (m : Z) :
  entries_keyed items ->
  foldl (fun m x => Z.lor m (default 0 (entry_raw x))) m (named items)
  = or_values m items.
Proof.
  unfold entries_keyed, or_values, named.
  intros H; revert m; induction H as [| [k v] items Hk _ IH]; intros m; simpl.
  - reflexivity.
  - simpl in Hk. rewrite Hk. apply IH.
Qed.

Lemma entries_keyed_sharing (values : dict) (n : Z) :
  entries_keyed values -> entries_keyed (sharing_bits values n).
Proof.
  unfold entries_keyed, sharing_bits. intros H.
  apply Forall_forall. intros kv Hin.
  apply list_elem_of_In, List.filter_In in Hin as [Hin _].
  apply list_elem_of_In in Hin.
  rewrite Forall_forall in H. now apply H.
Qed.

Lemma lor_lxor_cover (n mask : Z) : Z.land n (Z.lor mask (Z.lxor n mask)) = n.
Proof.
  apply Z.bits_inj'. intros j Hj.
  rewrite Z.land_spec, Z.lor_spec, Z.lxor_spec.
  now destruct (Z.testbit n j), (Z.testbit mask j).
Qed.

Lemma flags_of_cover (values : dict) (n : Z) :
  entries_keyed values ->
  flags_of values n <> [] /\ Z.land n (raw_or (flags_of values n)) = n.
Proof.
  intros Hk. unfold flags_of.
  pose proof (raw_or_named (sharing_bits values n) 0 (entries_keyed_sharing _ n Hk))
    as Hor.
  set (S := sharing_bits values n) in *.
  set (mask := or_values 0 S) in *.
  destruct (Z.eqb_spec mask n) as [Heq | Hne].
  - rewrite app_nil_r.
    destruct (named S) as [| x l] eqn:Hnamed.
    + split; [discriminate |]. unfold raw_or; simpl. apply Z.land_diag.
    + split; [discriminate |]. unfold raw_or. rewrite Hor, Heq. apply Z.land_diag.
  - assert (Hres : raw_or (named S ++ [VInt (Z.lxor n mask)])
                   = Z.lor mask (Z.lxor n mask)).
    { unfold raw_or. rewrite foldl_app, Hor. reflexivity. }
    destruct (named S ++ [VInt (Z.lxor n mask)]) as [| x l] eqn:Happ.
    + now apply app_nil in Happ as [_ Habs].
    + split; [discriminate |]. rewrite Hres. apply lor_lxor_cover.
Qed.

Lemma flags_of_named_entries (values : dict) (n : Z) (v : Value) :
  entries_keyed values ->
  VValue v ∈ flags_of values n ->
  (v_value v, v) ∈ values /\ Z.land (v_value v) n <> 0.
Proof.
  intros Hk Hin. unfold flags_of in Hin.
  assert (Hnamed : VValue v ∈ named (sharing_bits values n)).
  { destruct (named (sharing_bits values n)
              ++ (if or_values 0 (sharing_bits values n) =? n
                  then [] else [VInt (Z.lxor n (or_values 0 (sharing_bits values n)))]))
      as [| x l] eqn:Happ.
    - apply list_elem_of_singleton in Hin. discriminate.
    - rewrite <- Happ in Hin. apply elem_of_app in Hin as [Hin | Hin]; [exact Hin |].
      destruct (_ =? _); [now apply elem_of_nil in Hin |].
      apply list_elem_of_singleton in Hin. discriminate. }
  unfold named in Hnamed. apply list_elem_of_fmap in Hnamed as ([k v'] & Heq & Hin').
  simpl in Heq. inversion Heq; subst v'.
  unfold sharing_bits in Hin'.
  apply list_elem_of_In, List.filter_In in Hin' as [Hin' Hshare].
  apply list_elem_of_In in Hin'.
  unfold entries_keyed in Hk. rewrite Forall_forall in Hk.
  pose proof (Hk _ Hin') as Hkey. simpl in Hkey, Hshare. subst k.
  split; [exact Hin' |].
  destruct (Z.eqb_spec (Z.land (v_value v) n) 0); [discriminate | assumption].
Qed.

(** X15. [BitMaskField.decode] loses no bit. For a [BitMaskField] built
    by the constructor and registered on an instance whose buffer holds
    the field, [decode] returns a list that is never empty and leaves the
    instance as it was; every bit of the integer read is set in the raw
    value of some entry of the list; and every named entry of the list is
    an entry of the field's table that is the integer read itself or
    shares a bit with it. *)
Theorem BitMaskField_decode_covers_every_bit
    (id_ : N) (size : Z) (base : Base) (signed : bool) (endianess : Endianess)
    (values : list Value) (f : Field) (bv : BoundValue) (inst : Struct)
    (off : _Offset) :
  IntField___init__ BitMaskField id_ size base signed endianess values = Ok f ->
  registered f bv inst ->
  holds inst (byte off) size ->
  exists nb n l,
    IntField_decode f off inst = (Ok nb, inst)
    /\ entry_raw nb = Some n
    /\ BitMaskField_decode f off inst = (Ok (VList l), inst)
    /\ l <> []
    /\ Z.land n (raw_or l) = n
    /\ forall v, VValue v ∈ l ->
         (v_value v, v) ∈ _values f /\ (v_value v = n \/ Z.land (v_value v) n <> 0).
Proof.
  intros Hinit Hreg Hholds.
  assert (Hclass : BitMaskField = IntField \/ BitMaskField = BitMaskField) by now right.
  destruct (IntField___init___inv _ _ _ _ _ _ _ _ Hinit)
    as (_ & _ & _ & _ & _ & _ & Hkeyed).
  pose proof (IntField___init___entries_keyed _ _ _ _ _ _ _ _ Hinit) as Hentries.
  pose proof (IntField_decode_at _ _ _ _ _ _ _ _ _ _ Hclass Hinit Hreg off Hholds)
    as Hdec.
  unfold unpack_item in Hdec.
  match type of Hdec with context [dict_get _ (VInt ?x)] => set (n := x) in * end.
  unfold BitMaskField_decode, bind_M. rewrite Hdec. unfold dict_get, lift_M.
  destruct (dict_lookup (_values f) n) as [it |] eqn:Hit.
  - exists (VValue it), n, [VValue it]. simpl.
    pose proof (Hkeyed _ _ Hit) as Hv.
    repeat split; try reflexivity.
    + now rewrite Hv.
    + discriminate.
    + unfold raw_or; simpl. rewrite Hv. apply Z.land_diag.
    + apply list_elem_of_singleton in H. inversion H; subst v. rewrite Hv.
      clear - Hit. induction (_values f) as [| [k w] d IH]; simpl in *; [discriminate |].
      destruct (Z.eqb_spec k n) as [-> | Hne].
      * inversion Hit; subst. left.
      * right. now apply IH.
    + left. apply list_elem_of_singleton in H. inversion H; subst v. exact Hv.
  - exists (VInt n), n, (flags_of (_values f) n).
    rewrite bitmask_of_int.
    destruct (flags_of_cover (_values f) n Hentries) as [Hne Hcover].
    repeat split; try assumption; try reflexivity.
    + now apply (flags_of_named_entries (_values f) n v Hentries).
    + right. now apply (flags_of_named_entries (_values f) n v Hentries).
Qed.

Lemma BitMaskField_decode_covers_every_bit_witness :
  exists nb n l,
    IntField_decode sample_mask_field (Offset_ 0 0) (one_byte_instance sample_mask_field 11)
    = (Ok nb, one_byte_instance sample_mask_field 11)
    /\ entry_raw nb = Some n
    /\ BitMaskField_decode sample_mask_field (Offset_ 0 0)
                           (one_byte_instance sample_mask_field 11)
       = (Ok (VList l), one_byte_instance sample_mask_field 11)
    /\ l <> []
    /\ Z.land n (raw_or l) = n
    /\ forall v, VValue v ∈ l ->
         (v_value v, v) ∈ _values sample_mask_field
         /\ (v_value v = n \/ Z.land (v_value v) n <> 0).
Proof.
  apply (BitMaskField_decode_covers_every_bit 2 1 HEX false LITTLE
           [flag 1 "A"; flag 2 "B"; flag 4 "C"] sample_mask_field
           (mk_BoundValue IntFieldBoundValue_cls sample_mask_field (Offset_ 0 0) None None None)
           (one_byte_instance sample_mask_field 11) (Offset_ 0 0)).
  - reflexivity.
  - repeat split; reflexivity.
  - split; vm_compute; discriminate.
Defined.

(** ** [BitField] over an unsupported span *)

Lemma BitField_span_rounded (w o : Z) :
  offset.rounded (offset.__add__ (Size_bit w) (OpOffset (Size_bit o))) = (w + o + 7) / 8.
Proof.
  set (total := offset.__add__ (Size_bit w) (OpOffset (Size_bit o))).
  assert (Hbits : offset.bits total = w + o).
  { unfold total. rewrite add_bits. unfold Size_bit. rewrite !new_bits. lia. }
  assert (Hnorm : offset.normalized total) by apply add_normalized.
  assert (Hcls : cls total = Size) by reflexivity.
  unfold offset.rounded. rewrite Hcls.
  unfold offset.bits in Hbits. unfold offset.normalized in Hnorm.
  rewrite <- Hbits. destruct (Z.eqb_spec (bit total) 0).
  - apply Z.div_unique with (r := 7); lia.
  - apply Z.div_unique with (r := bit total - 1); lia.
Qed.

(** X16. A [BitField] whose span is not enclosed by 1, 2, 4 or 8 bytes
    can be neither read nor written. With [w] the width of the field and
    [o] the bit part of the offset, when [(w + o + 7) // 8] is none of 1,
    2, 4, 8: the size of a bound value of the field at that offset is an
    exception instance, [initialize] at that offset returns this instance
    as the size and registers the bound value, and, when this bound value
    is the first one of the field on the instance, both [decode] and
    [encode] then raise [TypeError] at every offset and for every value,
    leaving the instance as it was. *)
Theorem BitField_unsupported_span_raises
    (f : Field) (off : _Offset) (inst : Struct) (w o : Z) :
  klass f = BitField ->
  _size f = w ->
  bit off = o ->
  ~ ((w + o + 7) / 8 = 1 \/ (w + o + 7) / 8 = 2
     \/ (w + o + 7) / 8 = 4 \/ (w + o + 7) / 8 = 8) ->
  exists inst',
    AbstractField_initialize f off inst
    = (Ok (VExc (BifFieldSizeError (Size_bit w))), inst')
    /\ data inst' = data inst
    /\ registered f (mk_BoundValue BitFieldBoundValue_cls f off None None None) inst'
    /\ (forall st,
          BoundValue__size (mk_BoundValue BitFieldBoundValue_cls f off None None None) st
          = (Ok (VExc (BifFieldSizeError (Size_bit w))), st))
    /\ (fields_data inst !! (field_id f, "boundvalue"%string) = None ->
        forall off' v,
          BitField_decode f off' inst' = (Raise TypeError, inst')
          /\ BitField_encode f off' v inst' = (Raise TypeError, inst')).
Proof.
  intros Hk Hw Ho Hbad.
  set (bv := mk_BoundValue BitFieldBoundValue_cls f off None None None).
  assert (Hsize : forall st, BoundValue__size bv st
                             = (Ok (VExc (BifFieldSizeError (Size_bit w))), st)).
  { intros st. unfold BoundValue__size, reference_value, bv.
    cbn [bv_class bv_field bv_offset]. rewrite Hw, Ho.
    rewrite BitField_span_rounded.
    destruct (in_values ((w + o + 7) / 8) IntField_Size_values) eqn:Hin; [| reflexivity].
    apply in_values_Size in Hin. contradiction. }
  set (inst' := mk_Struct (data inst)
                  (<[(field_id f, "boundvalue"%string) := DBoundValue bv]>
                     (fields_data inst))).
  assert (Hstored : fields_data inst' !! (field_id f, "boundvalue"%string)
                    = Some (DBoundValue bv))
    by (simpl; apply lookup_insert_eq).
  exists inst'.
  split; [| split; [reflexivity | split; [| split; [exact Hsize |]]]].
  - unfold AbstractField_initialize, metaconf_aligned, metaconf_boundvalue_class.
    rewrite Hk. cbn [andb]. unfold bind_M, _set_data. fold bv inst'. apply Hsize.
  - split; [exact Hstored |]. split; [reflexivity |].
    unfold metaconf_boundvalue_class. now rewrite Hk.
  - intros _ off' v. split.
    + unfold BitField_decode, bind_M, AbstractField___get__, _get_data.
      rewrite Hstored. unfold getitem_size. now rewrite Hsize.
    + unfold BitField_encode, bind_M, AbstractField___get__, _get_data.
      rewrite Hstored. unfold getitem_size. now rewrite Hsize.
Qed.

Lemma BitField_unsupported_span_raises_witness :
  AbstractField_initialize sample_bit17_field (Offset_ 0 0) fresh_instance
  = (Ok (VExc (BifFieldSizeError (Size_bit 17))), sample_bit17_instance)
  /\ BitField_decode sample_bit17_field (Offset_ 0 0) sample_bit17_instance
     = (Raise TypeError, sample_bit17_instance).
Proof.
  destruct (BitField_unsupported_span_raises sample_bit17_field (Offset_ 0 0)
              fresh_instance 17 0)
    as (inst' & Hinit & _ & _ & _ & Hraise);
    [reflexivity | reflexivity | reflexivity | |].
  - vm_compute. intros [H | [H | [H | H]]]; discriminate H.
  - assert (Hinst : sample_bit17_instance = inst')
      by (unfold sample_bit17_instance; now rewrite Hinit).
    rewrite Hinst. split; [exact Hinit |].
    exact (proj1 (Hraise eq_refl (Offset_ 0 0) VNone)).
Defined.

(** ** [_extract_raw] *)

Lemma land_255_byte (x : Z) : 0 <= x < 256 -> Z.land x 255 = x.
Proof.
  intros Hx. change 255 with (Z.ones 8). rewrite Z.land_ones by lia.
  apply Z.mod_small. exact Hx.
Qed.

Lemma raw_mask_whole_bytes (d : list Z) (off sz : _Offset) :
  well_formed d -> d <> [] -> bit off = 0 -> bit sz = 0 ->
  raw_mask d off sz = Ok d.
Proof.
  intros Hwf Hne Hoff Hsz. unfold raw_mask, bytearray_getitem.
  destruct d as [| x d]; [contradiction |].
  rewrite Hoff, Hsz. cbn [lookup list_lookup mbind result_bind py_rshift Z.ltb Z.compare].
  assert (Hx : 0 <= x < 256) by (inversion Hwf; assumption).
  change (Z.land (Z.shiftr 255 0) 255) with 255.
  rewrite (land_255_byte x Hx).
  change (<[0%nat := x]> (x :: d)) with (x :: d).
  replace (0 + (if byte sz =? 0 then 0 else 0)) with 0 by now destruct (byte sz =? 0).
  cbn [Z.eqb py_lshift Z.ltb Z.compare mbind result_bind].
  change (Z.land (Z.shiftl 255 0) 255) with 255.
  destruct (lookup_lt_is_Some_2 (x :: d) (length (x :: d) - 1)) as [y Hy];
    [simpl; lia |].
  rewrite Hy. cbn [mbind result_bind].
  assert (Hyb : 0 <= y < 256).
  { unfold well_formed in Hwf. rewrite Forall_forall in Hwf.
    apply Hwf. now apply list_elem_of_lookup_2 in Hy. }
  rewrite (land_255_byte y Hyb). f_equal. now apply list_insert_id.
Qed.

(** X17. The raw bytes of a byte-aligned value. For a bound value of a
    class other than [BitField]'s, at an [Offset] without bit part, over a
    buffer of bytes: with a size of at least one byte that the buffer
    holds, [_raw] returns exactly the [size] bytes that stand at the
    offset and leaves the instance as it was; with the size 0 it raises
    [IndexError]. *)
Theorem BoundValue__raw_of_whole_bytes (bv : BoundValue) (inst : Struct) (s : Z) :
  bv_class bv <> BitFieldBoundValue_cls ->
  _size (bv_field bv) = s ->
  cls (bv_offset bv) = Offset ->
  bit (bv_offset bv) = 0 ->
  0 <= byte (bv_offset bv) ->
  byte (bv_offset bv) + s <= Z.of_nat (length (bytes (buf (data inst)))) ->
  well_formed (bytes (buf (data inst))) ->
  (1 <= s ->
   BoundValue__raw bv inst
   = (Ok (read_at (Z.to_nat (byte (bv_offset bv))) (Z.to_nat s)
                  (bytes (buf (data inst)))), inst))
  /\ (s = 0 -> BoundValue__raw bv inst = (Raise IndexError, inst)).
Proof.
  intros Hc Hs Hcls Hbit H0 Hlen Hwf.
  assert (Hsize : BoundValue__size bv inst = (Ok (VOffset (Size_byte s)), inst)).
  { rewrite <- Hs. apply (getitem_size_plain bv inst Hc). }
  assert (Hr : offset.rounded (Size_byte s) = s).
  { unfold offset.rounded, Size_byte, offset.new, offset.__init__; simpl.
    change (0 / 8) with 0. lia. }
  assert (Hsbit : bit (Size_byte s) = 0) by reflexivity.
  assert (Hro : offset.rounded (bv_offset bv) = byte (bv_offset bv))
    by (unfold offset.rounded; now rewrite Hcls).
  assert (Hrun : 0 <= s ->
            BoundValue__raw bv inst
            = (raw_mask (read_at (Z.to_nat (byte (bv_offset bv))) (Z.to_nat s)
                                 (bytes (buf (data inst))))
                        (bv_offset bv) (Size_byte s), inst)).
  { intros Hpos. unfold BoundValue__raw, BoundValue__extract_raw, bind_M.
    rewrite Hsize. unfold lift_M at 1. cbn [as_offset]. rewrite Hr, Hro.
    unfold with_data, Data_unpack_from.
    rewrite (struct_unpack_from_at _ _ _ _ (byte (bv_offset bv))
               (struct_parse_count s Hpos) H0) by (simpl; lia).
    destruct inst as [[b r] fd]; reflexivity. }
  split.
  - intros H1. rewrite Hrun by lia. f_equal.
    apply raw_mask_whole_bytes; try assumption.
    + now apply read_at_well_formed.
    + intros Hnil. apply (f_equal length) in Hnil.
      rewrite read_at_length in Hnil by lia. simpl in Hnil. lia.
  - intros ->. rewrite Hrun by lia. reflexivity.
Qed.

Lemma BoundValue__raw_of_whole_bytes_witness :
  BoundValue__raw sample_int_bv encoded_instance = (Ok [1; 2], encoded_instance).
Proof.
  destruct (BoundValue__raw_of_whole_bytes sample_int_bv encoded_instance 2)
    as [Hraw _].
  - discriminate.
  - reflexivity.
  - reflexivity.
  - reflexivity.
  - vm_compute; discriminate.
  - vm_compute; discriminate.
  - vm_compute. repeat constructor; discriminate.
  - rewrite Hraw by lia. reflexivity.
Defined.

Lemma testbit_ones_8 (k : Z) : Z.testbit (Z.ones 8) k = (0 <=? k) && (k <? 8).
Proof.
  destruct (Z.leb_spec 0 k).
  - now rewrite Z.testbit_ones_nonneg by lia.
  - now rewrite Z.testbit_neg_r by lia.
Qed.

Lemma raw_mask_one_byte_bits (b o w : Z) (off sz : _Offset) :
  bit off = o -> byte sz = 0 -> bit sz = w ->
  0 <= o -> 1 <= w -> w + o <= 8 ->
  exists r,
    raw_mask [b] off sz = Ok [r]
    /\ forall j, 0 <= j ->
         Z.testbit r j = Z.testbit b j && (8 - o - w <=? j) && (j <? 8 - o).
Proof.
  intros Ho Hsb Hsw Ho0 Hw1 Hs.
  unfold raw_mask, bytearray_getitem. rewrite Ho, Hsb, Hsw.
  cbn [lookup list_lookup mbind result_bind Z.eqb].
  unfold py_rshift, py_lshift.
  destruct (Z.ltb_spec o 0); [lia |]. cbn [mbind result_bind].
  change (length (<[0%nat := Z.land b (Z.land (Z.shiftr 255 o) 255)]> [b]) - 1)%nat
    with 0%nat.
  cbn [list_insert insert lookup list_lookup mbind result_bind].
  destruct (Z.eqb_spec (w + o) 0); [lia |].
  destruct (Z.ltb_spec (8 - (w + o)) 0); [lia |]. cbn [mbind result_bind].
  eexists. split; [reflexivity |].
  intros j Hj.
  rewrite !Z.land_spec, Z.shiftr_spec, Z.shiftl_spec by lia.
  change 255 with (Z.ones 8). rewrite !testbit_ones_8.
  destruct (Z.testbit b j); simpl;
    repeat match goal with
           | |- context [?x <=? ?y] => destruct (Z.leb_spec x y)
           | |- context [?x <? ?y] => destruct (Z.ltb_spec x y)
           end; simpl; try reflexivity; lia.
Qed.

(** X18. The raw byte of a [BitField] narrower than a byte. For a bound
    value of a [BitField] of width [w] in 1..7, at an [Offset] with bit
    part [o], over a buffer that holds the byte at the offset: when [w + o]
    is at most 8, [_raw] returns one byte, the byte at the offset with
    every bit cleared except the [w] bits that lie under its [o] most
    significant ones, and leaves the instance as it was; when [w + o]
    exceeds 8, [_raw] raises [ValueError]. *)
Theorem BitField_raw_within_one_byte (bv : BoundValue) (inst : Struct) (w o b : Z) :
  bv_class bv = BitFieldBoundValue_cls ->
  _size (bv_field bv) = w ->
  cls (bv_offset bv) = Offset ->
  bit (bv_offset bv) = o ->
  1 <= w < 8 ->
  0 <= o < 8 ->
  0 <= byte (bv_offset bv) ->
  bytes (buf (data inst)) !! Z.to_nat (byte (bv_offset bv)) = Some b ->
  (w + o <= 8 ->
   exists r,
     BoundValue__raw bv inst = (Ok [r], inst)
     /\ forall j, 0 <= j ->
          Z.testbit r j = Z.testbit b j && (8 - o - w <=? j) && (j <? 8 - o))
  /\ (8 < w + o -> BoundValue__raw bv inst = (Raise ValueError, inst)).
Proof.
  intros Hc Hs Hcls Ho Hw Ho8 H0 Hb.
  set (sz := Size_bit w).
  assert (Hszb : byte sz = 0 /\ bit sz = w).
  { unfold sz, Size_bit, offset.new, offset.__init__; simpl.
    rewrite Z.div_small, Z.mod_small by lia. split; reflexivity. }
  destruct Hszb as [Hsb Hsw].
  assert (Hsize : BoundValue__size bv inst = (Ok (VOffset sz), inst)).
  { unfold BoundValue__size, reference_value. rewrite Hc, Hs, Ho.
    rewrite BitField_span_rounded.
    replace (in_values ((w + o + 7) / 8) IntField_Size_values) with true;
      [reflexivity |].
    destruct (Z_le_gt_dec (w + o) 8).
    - replace ((w + o + 7) / 8) with 1; [reflexivity |].
      apply Z.div_unique with (r := w + o - 1); lia.
    - replace ((w + o + 7) / 8) with 2; [reflexivity |].
      apply Z.div_unique with (r := w + o - 9); lia. }
  assert (Hr : offset.rounded sz = 1).
  { unfold offset.rounded. change (cls sz) with Size. rewrite Hsb, Hsw.
    destruct (Z.eqb_spec w 0); lia. }
  assert (Hro : offset.rounded (bv_offset bv) = byte (bv_offset bv))
    by (unfold offset.rounded; now rewrite Hcls).
  assert (Hlen : byte (bv_offset bv) + 1 <= Z.of_nat (length (bytes (buf (data inst))))).
  { apply lookup_lt_Some in Hb. lia. }
  assert (Hread : read_at (Z.to_nat (byte (bv_offset bv))) 1 (bytes (buf (data inst)))
                  = [b]).
  { unfold read_at.
    destruct (drop (Z.to_nat (byte (bv_offset bv))) (bytes (buf (data inst))))
      as [| x l] eqn:Hdrop.
    - apply (f_equal length) in Hdrop. rewrite length_drop in Hdrop. simpl in Hdrop. lia.
    - pose proof (lookup_drop (bytes (buf (data inst)))
                    (Z.to_nat (byte (bv_offset bv))) 0) as Hl.
      rewrite Hdrop, Nat.add_0_r, Hb in Hl. simpl in Hl. inversion Hl. reflexivity. }
  assert (Hrun : BoundValue__raw bv inst = (raw_mask [b] (bv_offset bv) sz, inst)).
  { unfold BoundValue__raw, BoundValue__extract_raw, bind_M.
    rewrite Hsize. unfold lift_M at 1. cbn [as_offset]. rewrite Hr, Hro.
    unfold with_data, Data_unpack_from.
    rewrite (struct_unpack_from_at _ _ _ _ (byte (bv_offset bv))
               (struct_parse_count 1 ltac:(lia)) H0) by (simpl; lia).
    change (code_size (CodeBytes (Z.to_nat 1))) with 1%nat. rewrite Hread.
    destruct inst as [[bf r] fd]; reflexivity. }
  rewrite Hrun. split.
  - intros Hfit.
    destruct (raw_mask_one_byte_bits b o w (bv_offset bv) sz Ho Hsb Hsw)
      as (r & Hmask & Hbits); try lia.
    exists r. rewrite Hmask. split; [reflexivity | exact Hbits].
  - intros Hover. f_equal.
    unfold raw_mask, bytearray_getitem. rewrite Ho, Hsb, Hsw.
    cbn [lookup list_lookup mbind result_bind Z.eqb].
    unfold py_rshift, py_lshift.
    destruct (Z.ltb_spec o 0); [lia |]. cbn [mbind result_bind].
    change (length (<[0%nat := Z.land b (Z.land (Z.shiftr 255 o) 255)]> [b]) - 1)%nat
      with 0%nat.
    cbn [list_insert insert lookup list_lookup mbind result_bind].
    destruct (Z.eqb_spec (w + o) 0); [lia |].
    destruct (Z.ltb_spec (8 - (w + o)) 0); [reflexivity | lia].
Qed.

Lemma BitField_raw_within_one_byte_witness :
  BoundValue__raw sample_bit3_bv sample_bit3_instance
  = (Raise ValueError, sample_bit3_instance).
Proof.
  destruct (BitField_raw_within_one_byte sample_bit3_bv sample_bit3_instance 3 6 192)
    as [_ Hover];
    [reflexivity | reflexivity | reflexivity | reflexivity | lia | lia
    | vm_compute; discriminate | reflexivity | apply Hover; lia].
Defined.

(** ** The registry of mapped structures *)

Lemma Offset_of_normalized (o : _Offset) :
  cls o = Offset -> offset.normalized o -> Offset_of (ByteOffset o) = o.
Proof.
  unfold Offset_of, offset.__init__, offset.normalized. destruct o as [c b t]; simpl.
  intros -> Ht. rewrite Z.div_small, Z.mod_small by lia. f_equal. lia.
Qed.

Lemma mapped_key_eq (a b : _Offset) :
  mapped_key a = mapped_key b <-> offset.__eq__ a (OpOffset b) = true.
Proof.
  unfold mapped_key, offset.__eq__. rewrite andb_true_iff, !Z.eqb_eq.
  split; [intros H; inversion H; auto | intros [-> ->]; reflexivity].
Qed.

(** X19. [Data.map] followed by [Data.mapped]. When [map] returns, what it
    returns is the structure built for [Offset(offset)]. If [_setup] left
    the list registered at that offset alone, then [mapped] at the offset
    returns that structure when nothing was mapped there before, or when a
    filter accepts it and none of the structures mapped there before; it
    raises [Exception('fiiiiiiiiii')] without a filter when something was
    mapped there before. The same holds through any offset that compares
    equal to the one mapped, whatever its spelling. *)
Theorem Data_map_then_mapped {T : Type} (struct : _Offset -> T)
    (_setup : T -> M (MappedData T) unit) (offset_ : byte_arg)
    (m m' : MappedData T) (s : T) :
  Data_map struct _setup offset_ m = (Ok s, m') ->
  _mapped m' !! mapped_key (Offset_of offset_)
  = Some (default [] (_mapped m !! mapped_key (Offset_of offset_)) ++ [s]) ->
  s = struct (Offset_of offset_)
  /\ forall offset_' : byte_arg,
       offset.__eq__ (Offset_of offset_') (OpOffset (Offset_of offset_)) = true ->
       (default [] (_mapped m !! mapped_key (Offset_of offset_)) = [] ->
        Data_mapped offset_' None m' = (Ok s, m'))
       /\ (default [] (_mapped m !! mapped_key (Offset_of offset_)) <> [] ->
           Data_mapped offset_' None m' = (Raise (Exception "fiiiiiiiiii"), m'))
       /\ (forall fltr : T -> bool,
             fltr s = true ->
             Forall (fun x => fltr x = false)
                    (default [] (_mapped m !! mapped_key (Offset_of offset_))) ->
             Data_mapped offset_' (Some fltr) m' = (Ok s, m')).
Proof.
  intros Hmap Hkept.
  assert (Hs : s = struct (Offset_of offset_)).
  { unfold Data_map in Hmap. destruct (_setup _ _) as [[u | e] m2]; inversion Hmap.
    reflexivity. }
  split; [exact Hs |].
  intros offset_' Heq. apply mapped_key_eq in Heq.
  set (old := default [] (_mapped m !! mapped_key (Offset_of offset_))) in *.
  unfold Data_mapped. rewrite Heq, Hkept.
  split; [| split].
  - intros ->. reflexivity.
  - intros Hne. rewrite List.filter_app. simpl.
    assert (Hall : forall l : list T, List.filter (fun _ => true) l = l).
    { induction l as [| x l IH]; simpl; [reflexivity | now rewrite IH]. }
    rewrite Hall. destruct old as [| x [| y l]]; [contradiction | reflexivity ..].
  - intros fltr Hyes Hno.
    change (List.filter _ (old ++ [s])) with (List.filter fltr (old ++ [s])).
    rewrite List.filter_app. simpl. rewrite Hyes.
    assert (Hnone : List.filter fltr old = []).
    { clear -Hno. induction Hno as [| x l Hx _ IH]; simpl; [reflexivity |].
      now rewrite Hx. }
    now rewrite Hnone.
Qed.

Lemma Data_map_then_mapped_witness :
  Data_mapped (ByteOffset (Offset_ 2 8)) None
              (snd (Data_map offset_struct no_setup (ByteInt 3) unmapped_data))
  = (Ok (Offset_ 3 0), snd (Data_map offset_struct no_setup (ByteInt 3) unmapped_data)).
Proof.
  destruct (Data_map_then_mapped offset_struct no_setup (ByteInt 3) unmapped_data
              (snd (Data_map offset_struct no_setup (ByteInt 3) unmapped_data))
              (Offset_ 3 0) eq_refl eq_refl) as [_ Hmapped].
  destruct (Hmapped (ByteOffset (Offset_ 2 8)) eq_refl) as (Hone & _ & _).
  apply Hone. reflexivity.
Defined.

Lemma array_offset_bits (sz o : _Offset) (i : nat) :
  offset.bits (array_offset sz o i) = offset.bits o + Z.of_nat i * offset.bits sz.
Proof.
  revert o; induction i as [| i IH]; intros o; cbn [array_offset]; [lia |].
  rewrite IH, add_bits. lia.
Qed.

Lemma array_offset_shape (sz o : _Offset) (i : nat) :
  cls o = Offset -> offset.normalized o ->
  cls (array_offset sz o i) = Offset /\ offset.normalized (array_offset sz o i).
Proof.
  revert o; induction i as [| i IH]; intros o Hc Hn; cbn [array_offset]; [now split |].
  apply IH; [exact Hc | apply add_normalized].
Qed.

Lemma array_offset_key_later (sz o : _Offset) (i : nat) :
  0 < offset.bits sz ->
  mapped_key (array_offset sz (offset.__add__ o (OpOffset sz)) i) <> mapped_key o.
Proof.
  intros Hsz Heq.
  pose proof (array_offset_bits sz (offset.__add__ o (OpOffset sz)) i) as Hb.
  rewrite add_bits in Hb.
  set (x := array_offset sz (offset.__add__ o (OpOffset sz)) i) in *.
  pose proof (f_equal fst Heq) as Hbyte. pose proof (f_equal snd Heq) as Hbit.
  cbn [mapped_key fst snd] in Hbyte, Hbit.
  unfold offset.bits in Hb, Hsz. nia.
Qed.

Lemma map_array_loop_spec {T : Type} (struct : _Offset -> T)
    (_setup : T -> M (MappedData T) unit) (size : T -> operand) (sz : _Offset)
    (n : nat) (o : _Offset) (m : MappedData T) :
  (forall s r, _setup s r = (Ok tt, r)) ->
  (forall s, size s = OpOffset sz) ->
  0 < offset.bits sz ->
  cls o = Offset -> offset.normalized o ->
  (forall i, (i < n)%nat -> _mapped m !! mapped_key (array_offset sz o i) = None) ->
  exists m',
    map_array_loop struct _setup size n o m = (Ok tt, m')
    /\ md_data m' = md_data m
    /\ (forall i, (i < n)%nat ->
          _mapped m' !! mapped_key (array_offset sz o i)
          = Some [struct (array_offset sz o i)])
    /\ (forall k, (forall i, (i < n)%nat -> k <> mapped_key (array_offset sz o i)) ->
          _mapped m' !! k = _mapped m !! k).
Proof.
  intros Hsetup Hsize Hsz.
  revert o m; induction n as [| n IH]; intros o m Hc Hn Hfree.
  - exists m. repeat split; try reflexivity. intros i Hi; lia.
  - simpl map_array_loop. unfold bind_M at 1.
    unfold Data_map. rewrite Offset_of_normalized by assumption.
    rewrite Hsetup, Hsize.
    pose proof (Hfree 0%nat ltac:(lia)) as Hfirst. cbn [array_offset] in Hfirst.
    rewrite Hfirst. cbn [default app].
    set (m1 := mk_MappedData (md_data m) (<[mapped_key o := [struct o]]> (_mapped m))).
    destruct (IH (offset.__add__ o (OpOffset sz)) m1) as (m' & Hrun & Hdata & Hin & Hout).
    + exact Hc.
    + apply add_normalized.
    + intros i Hi. unfold m1; simpl.
      rewrite lookup_insert_ne by (apply not_eq_sym, array_offset_key_later, Hsz).
      apply (Hfree (S i)). lia.
    + exists m'. split; [exact Hrun |]. split; [now rewrite Hdata |]. split.
      * intros [| i] Hi; cbn [array_offset].
        -- rewrite Hout by (intros i _; apply not_eq_sym, array_offset_key_later, Hsz).
           unfold m1; simpl. apply lookup_insert_eq.
        -- apply Hin. lia.
      * intros k Hk. rewrite Hout by (intros i Hi; apply (Hk (S i)); lia).
        unfold m1; simpl. apply lookup_insert_ne.
        apply not_eq_sym. apply (Hk 0%nat). lia.
Qed.

(** X20. [Data.map_array] lays structures side by side. When [_setup]
    changes nothing, every structure has the same size [sz] of at least
    one bit, and nothing is mapped yet at the offsets concerned,
    [map_array(offset, nb, struct)] returns, leaves the bytes alone, and
    maps [nb] structures: the [i]-th one is the structure built for the
    offset that lies [i] times [sz] after [Offset(offset)], [mapped]
    returns it at that offset, and no other entry of the registry is
    changed. *)
Theorem Data_map_array_side_by_side {T : Type} (struct : _Offset -> T)
    (_setup : T -> M (MappedData T) unit) (size : T -> operand) (sz : _Offset)
    (offset_ : byte_arg) (nb : Z) (m : MappedData T) :
  (forall s r, _setup s r = (Ok tt, r)) ->
  (forall s, size s = OpOffset sz) ->
  0 < offset.bits sz ->
  (forall i, (i < Z.to_nat nb)%nat ->
     _mapped m !! mapped_key (array_offset sz (Offset_of offset_) i) = None) ->
  exists m',
    Data_map_array struct _setup size offset_ nb m = (Ok tt, m')
    /\ md_data m' = md_data m
    /\ (forall i, (i < Z.to_nat nb)%nat ->
          offset.bits (array_offset sz (Offset_of offset_) i)
          = offset.bits (Offset_of offset_) + Z.of_nat i * offset.bits sz
          /\ Data_mapped (ByteOffset (array_offset sz (Offset_of offset_) i)) None m'
             = (Ok (struct (array_offset sz (Offset_of offset_) i)), m'))
    /\ (forall k,
          (forall i, (i < Z.to_nat nb)%nat ->
             k <> mapped_key (array_offset sz (Offset_of offset_) i)) ->
          _mapped m' !! k = _mapped m !! k).
Proof.
  intros Hsetup Hsize Hsz Hfree.
  assert (Hc : cls (Offset_of offset_) = Offset) by now destruct offset_.
  assert (Hn : offset.normalized (Offset_of offset_)) by apply init_normalized.
  destruct (map_array_loop_spec struct _setup size sz (Z.to_nat nb) (Offset_of offset_) m
              Hsetup Hsize Hsz Hc Hn Hfree) as (m' & Hrun & Hdata & Hin & Hout).
  exists m'. split; [exact Hrun |]. split; [exact Hdata |]. split; [| exact Hout].
  intros i Hi. split; [apply array_offset_bits |].
  destruct (array_offset_shape sz (Offset_of offset_) i Hc Hn) as [Hci Hni].
  unfold Data_mapped. rewrite Offset_of_normalized by assumption.
  now rewrite (Hin i Hi).
Qed.

Lemma Data_map_array_side_by_side_witness :
  exists m',
    Data_map_array offset_struct no_setup (fun _ => OpOffset (Size_bit 12))
                   (ByteInt 1) 3 unmapped_data = (Ok tt, m')
    /\ Data_mapped (ByteOffset (Offset_ 4 0)) None m' = (Ok (Offset_ 4 0), m')
    /\ Data_mapped (ByteOffset (Offset_ 2 4)) None m' = (Ok (Offset_ 2 4), m').
Proof.
  destruct (Data_map_array_side_by_side offset_struct no_setup
              (fun _ => OpOffset (Size_bit 12)) (Size_bit 12) (ByteInt 1) 3
              unmapped_data) as (m' & Hrun & _ & Hin & _).
  - reflexivity.
  - reflexivity.
  - vm_compute. reflexivity.
  - intros i _. reflexivity.
  - exists m'. split; [exact Hrun |]. split.
    + exact (proj2 (Hin 2%nat ltac:(vm_compute; lia))).
    + exact (proj2 (Hin 1%nat ltac:(vm_compute; lia))).
Defined.

Lemma IntField___init___table_witness :
  IntField___init__ IntField 1 3 HEX true BIG [] = Raise ValueError
  /\ exists f,
       IntField___init__ IntField 1 2 HEX true BIG
         [mk_Value 258 (Some "OLD"%string) None; mk_Value 258 (Some "MAGIC"%string) None]
       = Ok f
       /\ dict_lookup (_values f) 258 = Some (mk_Value 258 (Some "MAGIC"%string) None).
Proof.
  split.
  - apply (proj1 (IntField___init___table IntField 1 3 HEX true BIG [])).
    intros [H | [H | [H | H]]]; discriminate H.
  - destruct (proj2 (IntField___init___table IntField 1 2 HEX true BIG
                       [mk_Value 258 (Some "OLD"%string) None;
                        mk_Value 258 (Some "MAGIC"%string) None]))
      as (f & Hf & _ & _ & _ & _ & _ & _ & Hlook).
    + right; left; reflexivity.
    + exists f. split; [exact Hf |]. rewrite Hlook. reflexivity.
Defined.
